(** * The RISC-V Debug Transport Module driver of Black Magic Debug

    A shallow embedding of [src/target/riscv.c] (RISC-V external debug
    support draft 0.11): the DTM link over JTAG, the Debug RAM executor,
    the code stubs, the target operations and the trigger module, with the
    properties of the driver's specification stated over it.

    Conventions.  C's fixed-width unsigned integers are [Z] with the
    wrap-around written out ([u8], [u16], [u32], [u64]).  The driver's state
    [struct riscv_dtm] is a record; the code runs in a state monad over it
    and over the JTAG chain.  The two unbounded loops of the link and of the
    executor ([goto retry], [do ... while]) and the trigger walk take a
    [fuel] bound; running out of it is the outcome [OutOfFuel]. *)

From Stdlib Require Import ZArith List Bool Lia.
Import ListNotations.
Local Open Scope Z_scope.

(** ** Machine integers *)

Definition u8 (x : Z) : Z := x mod 2 ^ 8.
Definition u16 (x : Z) : Z := x mod 2 ^ 16.
Definition u32 (x : Z) : Z := x mod 2 ^ 32.
Definition u64 (x : Z) : Z := x mod 2 ^ 64.

(** [a[i]] for a C array held as a list; a read past the end is undefined in
    C and is 0 here. *)
Definition idx (a : list Z) (i : Z) : Z := nth (Z.to_nat i) a 0.

(** [a[i] |= v] on a [uint32_t] array. *)
Fixpoint array_or (a : list Z) (i : nat) (v : Z) : list Z :=
  match a, i with
  | [], _ => []
  | x :: a', O => u32 (Z.lor x v) :: a'
  | x :: a', S i' => x :: array_or a' i' v
  end.

(** ** Constants of riscv.c *)

Definition RISCV_IR_IDCODE : Z := 0x01.
Definition RISCV_IR_DTMCONTROL : Z := 0x10.
Definition RISCV_IR_DBUS : Z := 0x11.
Definition RISCV_IR_BYPASS : Z := 0x1f.

Definition RISCV_DTMCONTROL_DBUSRESET : Z := Z.shiftl 1 16.

Definition RISCV_DBUS_NOP : Z := 0.
Definition RISCV_DBUS_READ : Z := 1.
Definition RISCV_DBUS_WRITE : Z := 2.

Definition RISCV_DMCONTROL : Z := 0x10.
Definition RISCV_DMINFO : Z := 0x11.

Definition RISCV_DMCONTROL_INTERRUPT : Z := Z.shiftl 1 33.
Definition RISCV_DMCONTROL_HALTNOT : Z := Z.shiftl 1 32.

Definition RISCV_TSELECT : Z := 0x7a0.
Definition RISCV_MCONTROL : Z := 0x7a1.
Definition RISCV_TDATA2 : Z := 0x7a2.

Definition RISCV_DCSR : Z := 0x7b0.
Definition RISCV_DPC : Z := 0x7b1.
Definition RISCV_DSCRATCH : Z := 0x7b2.

Definition RISCV_MCONTROL_DMODE : Z := Z.shiftl 1 (32 - 5).
Definition RISCV_MCONTROL_ENABLE_MASK : Z := Z.shiftl 0xf 3.
Definition RISCV_MCONTROL_LOAD : Z := Z.shiftl 1 0.
Definition RISCV_MCONTROL_STORE : Z := Z.shiftl 1 1.
Definition RISCV_MCONTROL_EXECUTE : Z := Z.shiftl 1 2.
Definition RISCV_MCONTROL_ACTION_DEBUG : Z := Z.shiftl 1 12.

(** The mask [0x3ffffffffull] of the 34-bit data field of a dbus word. *)
Definition DBUS_DATA_MASK : Z := 0x3ffffffff.

(** ** The JTAG TAP *)

(** What the driver asks of the TAP, in the order it asks it. *)
Inductive jtag_event : Type :=
| WriteIR (ir : Z)
| ShiftDR (ticks : Z) (tdi : Z)
| TmsSeq (ms : Z) (ticks : Z).

(** The TAP functions the driver calls, [jtag_dev_write_ir] and
    [jtag_dev_shift_dr] (jtag_scan.h) and [jtagtap_tms_seq] (jtagtap.h),
    are defined outside riscv.c: they are a parameter of the driver.  The
    chain and the hart behind it are any deterministic machine [H]: it takes
    the instruction register written, answers a DR shift of [ticks] bits of
    [tdi] with the word it shifts out, and sees the TMS sequences. *)
Class JtagTap (H : Type) : Type := {
  tap_write_ir : H -> Z -> H;
  tap_shift_dr : H -> Z -> Z -> H * Z;
  tap_tms_seq : H -> Z -> Z -> H
}.

(** ** Driver state *)

(** [struct riscv_dtm], without [dev]: the device handle is the chain of the
    enclosing [target]. *)
Record riscv_dtm : Type := {
  version : Z;
  abits : Z;
  idle : Z;
  dramsize : Z;
  error : bool;
  lastdbus : Z;
  halt_requested : bool
}.

(** Modelled from the spec: [enum target_halt_reason] (target.h) is not among
    the sources; these are the reasons [riscv_halt_poll] returns. *)
Inductive target_halt_reason : Type :=
| TARGET_HALT_RUNNING
| TARGET_HALT_ERROR
| TARGET_HALT_REQUEST
| TARGET_HALT_STEPPING
| TARGET_HALT_BREAKPOINT.

(** Modelled from the spec: [enum target_breakwatch] and [struct breakwatch]
    (target.h, target_internal.h) are not among the sources; the four kinds
    [riscv_breakwatch_set] accepts, one it does not, and the fields it
    uses. *)
Inductive target_breakwatch : Type :=
| TARGET_BREAK_SOFT
| TARGET_BREAK_HARD
| TARGET_WATCH_WRITE
| TARGET_WATCH_READ
| TARGET_WATCH_ACCESS.

Record breakwatch : Type := {
  bw_type : target_breakwatch;
  bw_addr : Z;
  bw_reserved0 : Z
}.

(** ** Outcomes and the driver monad *)

Inductive outcome (S A : Type) : Type :=
| Ok (a : A) (s : S)
| OutOfFuel
| Aborted.

Arguments Ok {S A} a s.
Arguments OutOfFuel {S A}.
Arguments Aborted {S A}.

Section Driver.

Context {H : Type} {tap : JtagTap H}.

(** A target: the driver's private state [t->priv], the chain behind
    [dtm->dev], and the log of what was asked of the TAP (oldest first). *)
Record target : Type := {
  priv : riscv_dtm;
  dev : H;
  jtag_log : list jtag_event
}.

Definition M (A : Type) : Type := target -> outcome target A.

Definition ret {A : Type} (a : A) : M A := fun t => Ok a t.

Definition bind {A B : Type} (m : M A) (k : A -> M B) : M B :=
  fun t =>
    match m t with
    | Ok a t' => k a t'
    | OutOfFuel => OutOfFuel
    | Aborted => Aborted
    end.

Notation "x <- m ;; k" := (bind m (fun x => k))
  (at level 61, m at next level, right associativity).
Notation "m ;; k" := (bind m (fun _ => k))
  (at level 61, right associativity).

Definition gets {A : Type} (f : riscv_dtm -> A) : M A :=
  fun t => Ok (f (priv t)) t.

Definition modify (f : riscv_dtm -> riscv_dtm) : M unit :=
  fun t => Ok tt {| priv := f (priv t); dev := dev t; jtag_log := jtag_log t |}.

Definition assert (b : bool) : M unit :=
  fun t => if b then Ok tt t else Aborted.

Definition set_error (b : bool) : M unit :=
  modify (fun d =>
    {| version := version d; abits := abits d; idle := idle d;
       dramsize := dramsize d; error := b; lastdbus := lastdbus d;
       halt_requested := halt_requested d |}).

Definition set_lastdbus (v : Z) : M unit :=
  modify (fun d =>
    {| version := version d; abits := abits d; idle := idle d;
       dramsize := dramsize d; error := error d; lastdbus := v;
       halt_requested := halt_requested d |}).

Definition set_halt_requested (b : bool) : M unit :=
  modify (fun d =>
    {| version := version d; abits := abits d; idle := idle d;
       dramsize := dramsize d; error := error d; lastdbus := lastdbus d;
       halt_requested := b |}).

(** *** The TAP primitives, logged *)

Definition jtag_dev_write_ir (ir : Z) : M unit :=
  fun t => Ok tt {| priv := priv t;
                    dev := tap_write_ir (dev t) ir;
                    jtag_log := jtag_log t ++ [WriteIR ir] |}.

(** Shifts [ticks] bits of the 64-bit buffer [tdi] in and returns the word
    captured into the 64-bit result buffer. *)
Definition jtag_dev_shift_dr (tdi : Z) (ticks : Z) : M Z :=
  fun t =>
    let (h, tdo) := tap_shift_dr (dev t) tdi ticks in
    Ok (u64 tdo) {| priv := priv t; dev := h;
                    jtag_log := jtag_log t ++ [ShiftDR ticks tdi] |}.

Definition jtagtap_tms_seq (ms : Z) (ticks : Z) : M unit :=
  fun t => Ok tt {| priv := priv t;
                    dev := tap_tms_seq (dev t) ms ticks;
                    jtag_log := jtag_log t ++ [TmsSeq ms ticks] |}.

(** *** DTM link *)

Definition riscv_dtm_reset : M unit :=
  jtag_dev_write_ir RISCV_IR_DTMCONTROL ;;
  _ <- jtag_dev_shift_dr RISCV_DTMCONTROL_DBUSRESET 32 ;;
  ret tt.

(** The body of [riscv_dtm_low_access] from the label [retry] on; each
    [goto retry] spends one unit of fuel. *)
Fixpoint low_access_retry (fuel : nat) (dbus : Z) : M Z :=
  match fuel with
  | O => fun _ => OutOfFuel
  | S fuel' =>
      a <- gets abits ;;
      r <- jtag_dev_shift_dr dbus (36 + a) ;;
      match Z.land r 3 with
      | 3 =>
          riscv_dtm_reset ;;
          jtag_dev_write_ir RISCV_IR_DBUS ;;
          l <- gets lastdbus ;;
          _ <- jtag_dev_shift_dr l (a + 36) ;;
          i <- gets idle ;;
          jtagtap_tms_seq 0 i ;;
          low_access_retry fuel' dbus
      | 0 =>
          set_lastdbus dbus ;;
          i <- gets idle ;;
          jtagtap_tms_seq 0 i ;;
          ret (Z.land (Z.shiftr r 2) DBUS_DATA_MASK)
      | _ =>
          set_error true ;;
          ret 0
      end
  end.

Definition riscv_dtm_low_access (fuel : nat) (dbus : Z) : M Z :=
  e <- gets error ;;
  if e then ret 0 else low_access_retry fuel dbus.

Definition riscv_dtm_write (fuel : nat) (addr : Z) (data : Z) : M unit :=
  let dbus := Z.lor (Z.lor (u64 (Z.shiftl (u32 addr) 36))
                           (Z.shiftl (Z.land data DBUS_DATA_MASK) 2))
                    RISCV_DBUS_WRITE in
  _ <- riscv_dtm_low_access fuel dbus ;;
  ret tt.

Definition riscv_dtm_read (fuel : nat) (addr : Z) : M Z :=
  _ <- riscv_dtm_low_access fuel
         (Z.lor (u64 (Z.shiftl (u32 addr) 36)) RISCV_DBUS_READ) ;;
  riscv_dtm_low_access fuel RISCV_DBUS_NOP.

(** *** Debug RAM executor *)

(** [for (i = 0; i < count - 1; i++) riscv_dtm_write(dtm, i, code[i]);]
    with [n] iterations left; returns the final [i]. *)
Fixpoint exec_stage (fuel : nat) (code : list Z) (n : nat) (i : Z) : M Z :=
  match n with
  | O => ret i
  | S n' =>
      riscv_dtm_write fuel i (idx code i) ;;
      exec_stage fuel code n' (i + 1)
  end.

(** [do { ret = riscv_dtm_read(dtm, count); } while (ret & INTERRUPT);]
    with at most [n] polls. *)
Fixpoint exec_poll (fuel : nat) (count : Z) (n : nat) : M Z :=
  match n with
  | O => fun _ => OutOfFuel
  | S n' =>
      r <- riscv_dtm_read fuel count ;;
      if Z.eqb (Z.land r RISCV_DMCONTROL_INTERRUPT) 0
      then ret r
      else exec_poll fuel count n'
  end.

Definition riscv_debug_ram_exec (fuel : nat) (code : list Z) (count : Z)
  : M Z :=
  i <- exec_stage fuel code (Z.to_nat (count - 1)) 0 ;;
  riscv_dtm_write fuel i (Z.lor (idx code i) RISCV_DMCONTROL_INTERRUPT) ;;
  r <- exec_poll fuel count fuel ;;
  ret (u32 r).

(** *** Code stubs *)

Definition riscv_mem_read32 (fuel : nat) (addr : Z) : M Z :=
  let ram := [0x41002403; 0x42483; 0x40902a23; 0x3f80006f; u32 addr] in
  riscv_debug_ram_exec fuel ram 5.

Definition riscv_mem_write32 (fuel : nat) (addr val : Z) : M unit :=
  let ram := [0x41002403; 0x41402483; 0x942023; 0x3f80006f;
              u32 addr; u32 val] in
  _ <- riscv_debug_ram_exec fuel ram 5 ;;
  ret tt.

Definition riscv_gpreg_read (fuel : nat) (reg : Z) : M Z :=
  let ram := [0x40002423; 0x4000006f] in
  let ram := array_or ram 0 (Z.shiftl (u8 reg) 20) in
  riscv_debug_ram_exec fuel ram 2.

Definition riscv_csreg_read (fuel : nat) (csr : Z) : M Z :=
  let ram := [0x00002473; 0x40802623; 0x3fc0006f] in
  let ram := array_or ram 0 (u32 (Z.shiftl (u16 csr) 20)) in
  riscv_debug_ram_exec fuel ram 3.

Definition riscv_csreg_write (fuel : nat) (csr val : Z) : M unit :=
  let ram := [0x40c02403; 0x00041073; 0x3fc0006f; u32 val] in
  let ram := array_or ram 1 (u32 (Z.shiftl (u16 csr) 20)) in
  _ <- riscv_debug_ram_exec fuel ram 4 ;;
  ret tt.

Definition riscv_gpreg_write (fuel : nat) (reg val : Z) : M unit :=
  let ram := [0x40002423; 0x4000006f; u32 val] in
  let ram := array_or ram 0 (Z.shiftl (u8 reg) 7) in
  _ <- riscv_debug_ram_exec fuel ram 3 ;;
  ret tt.

(** *** Target operations *)

Definition riscv_halt_request (fuel : nat) : M unit :=
  let ram := [0x7b046073; 0x4000006f] in
  _ <- riscv_debug_ram_exec fuel ram 2 ;;
  set_halt_requested true.

Definition riscv_halt_resume (fuel : nat) (step : bool) : M unit :=
  let ram := [0x7b006073; 0x7b047073; 0x3fc0006f] in
  let ram := if step then array_or ram 0 (Z.shiftl 4 15)
             else array_or ram 1 (Z.shiftl 4 15) in
  _ <- riscv_debug_ram_exec fuel ram 3 ;;
  set_halt_requested false.

(** [while (len) { *d++ = riscv_mem_read32(t->priv, src); src += 4;
    len -= 4; }] with [n] words left; the words stored through [d]. *)
Fixpoint mem_read_loop (fuel : nat) (src : Z) (n : nat) : M (list Z) :=
  match n with
  | O => ret []
  | S n' =>
      v <- riscv_mem_read32 fuel src ;;
      vs <- mem_read_loop fuel (u32 (src + 4)) n' ;;
      ret (v :: vs)
  end.

Definition riscv_mem_read (fuel : nat) (src len : Z) : M (list Z) :=
  assert (Z.eqb (Z.land src 3) 0) ;;
  assert (Z.eqb (Z.land len 3) 0) ;;
  mem_read_loop fuel src (Z.to_nat (len / 4)).

(** [while (len) { riscv_mem_write32(t->priv, dest, *s++); dest += 4;
    len -= 4; }] with [n] words left, reading [s] from word [k] on. *)
Fixpoint mem_write_loop (fuel : nat) (dest : Z) (s : list Z) (k : Z)
  (n : nat) : M unit :=
  match n with
  | O => ret tt
  | S n' =>
      riscv_mem_write32 fuel dest (idx s k) ;;
      mem_write_loop fuel (u32 (dest + 4)) s (k + 1) n'
  end.

Definition riscv_mem_write (fuel : nat) (dest : Z) (src : list Z) (len : Z)
  : M unit :=
  assert (Z.eqb (Z.land dest 3) 0) ;;
  assert (Z.eqb (Z.land len 3) 0) ;;
  mem_write_loop fuel dest src 0 (Z.to_nat (len / 4)).

Definition riscv_reset (fuel : nat) : M unit :=
  riscv_csreg_write fuel RISCV_DCSR (Z.shiftl 1 29).

Definition riscv_check_error : M bool :=
  e <- gets error ;;
  if e then
    riscv_dtm_reset ;;
    set_error false ;;
    ret true
  else ret false.

(** [target_halt_request(t)] and [target_halt_resume(t, false)] dispatch to
    the driver's own entries of the target. *)
Definition riscv_attach (fuel : nat) : M bool :=
  riscv_halt_request fuel ;;
  ret true.

Definition riscv_detach (fuel : nat) : M unit :=
  riscv_halt_resume fuel false.

(** [riscv_reg_read]: [data] is what the caller's buffer holds on entry;
    the result is the returned size and what the buffer holds on return. *)
Definition riscv_reg_read (fuel : nat) (reg : Z) (data : Z) : M (Z * Z) :=
  d <- gets dramsize ;;
  val <-
    (if Z.eqb reg 0 then ret 0
     else if Z.eqb reg 8 then riscv_csreg_read fuel RISCV_DSCRATCH
     else if Z.eqb reg 9 then (v <- riscv_dtm_read fuel d ;; ret (u32 v))
     else if Z.eqb reg 32 then riscv_csreg_read fuel RISCV_DPC
     else if Z.leb 65 reg && Z.leb reg (65 + 4095)
          then riscv_csreg_read fuel (reg - 65)
     else if (Z.leb 1 reg && Z.leb reg 7) || (Z.leb 10 reg && Z.leb reg 31)
          then riscv_gpreg_read fuel reg
     else ret data) ;;
  ret (4, val).

(** The [switch (i)] of [riscv_regs_write], for register [i] and its value
    [reg[i]]. *)
Definition regs_write_reg (fuel : nat) (i : Z) (v : Z) : M unit :=
  if Z.eqb i 0 then ret tt
  else if Z.eqb i 8 then riscv_csreg_write fuel RISCV_DSCRATCH v
  else if Z.eqb i 9 then (d <- gets dramsize ;; riscv_dtm_write fuel d v)
  else if Z.eqb i 32 then riscv_csreg_write fuel RISCV_DPC v
  else riscv_gpreg_write fuel i v.

(** [for (int i = 0; i < 33; i++)] with [n] iterations left. *)
Fixpoint regs_write_loop (fuel : nat) (reg : list Z) (i : Z) (n : nat)
  : M unit :=
  match n with
  | O => ret tt
  | S n' =>
      regs_write_reg fuel i (idx reg i) ;;
      regs_write_loop fuel reg (i + 1) n'
  end.

Definition riscv_regs_write (fuel : nat) (data : list Z) : M unit :=
  regs_write_loop fuel data 0 33.

Definition riscv_halt_poll (fuel : nat) : M target_halt_reason :=
  dmcontrol <- riscv_dtm_read fuel RISCV_DMCONTROL ;;
  hr <- gets halt_requested ;;
  if negb hr && Z.eqb (Z.land dmcontrol RISCV_DMCONTROL_HALTNOT) 0
  then ret TARGET_HALT_RUNNING
  else
    dcsr <- riscv_csreg_read fuel RISCV_DCSR ;;
    let cause := u8 (Z.land (Z.shiftr dcsr 6) 7) in
    ret match cause with
        | 0 => TARGET_HALT_RUNNING
        | 1 => TARGET_HALT_BREAKPOINT
        | 2 => TARGET_HALT_BREAKPOINT
        | 3 => TARGET_HALT_REQUEST
        | 4 => TARGET_HALT_STEPPING
        | 5 => TARGET_HALT_REQUEST
        | _ => TARGET_HALT_ERROR
        end.

(** *** Trigger module *)

(** The walk [for (i = 0; ; i++)] of [riscv_breakwatch_set] from index [i]
    with [n] iterations left: [Some i] when it breaks out at a free slot,
    [None] where the source returns -1. *)
Fixpoint breakwatch_walk (fuel : nat) (n : nat) (i : Z) : M (option Z) :=
  match n with
  | O => fun _ => OutOfFuel
  | S n' =>
      riscv_csreg_write fuel RISCV_TSELECT i ;;
      r <- riscv_csreg_read fuel RISCV_TSELECT ;;
      if negb (Z.eqb r i) then ret None
      else
        tdata1 <- riscv_csreg_read fuel RISCV_MCONTROL ;;
        let type := u8 (Z.land (Z.shiftr tdata1 (32 - 4)) 0xf) in
        if Z.eqb type 0 then ret None
        else if Z.eqb type 2 &&
                Z.eqb (Z.land tdata1 RISCV_MCONTROL_ENABLE_MASK) 0
        then ret (Some i)
        else breakwatch_walk fuel n' (u32 (i + 1))
  end.

Definition riscv_breakwatch_set (fuel : nat) (bw : breakwatch)
  : M (Z * breakwatch) :=
  let mcontrol := Z.lor (Z.lor RISCV_MCONTROL_DMODE
                               RISCV_MCONTROL_ACTION_DEBUG)
                        RISCV_MCONTROL_ENABLE_MASK in
  let kind :=
    match bw_type bw with
    | TARGET_BREAK_HARD => Some RISCV_MCONTROL_EXECUTE
    | TARGET_WATCH_WRITE => Some RISCV_MCONTROL_STORE
    | TARGET_WATCH_READ => Some RISCV_MCONTROL_LOAD
    | TARGET_WATCH_ACCESS =>
        Some (Z.lor RISCV_MCONTROL_LOAD RISCV_MCONTROL_STORE)
    | _ => None
    end in
  match kind with
  | None => ret (1, bw)
  | Some k =>
      let mcontrol := Z.lor mcontrol k in
      tselect_saved <- riscv_csreg_read fuel RISCV_TSELECT ;;
      found <- breakwatch_walk fuel fuel 0 ;;
      match found with
      | None => ret (-1, bw)
      | Some i =>
          let bw' := {| bw_type := bw_type bw; bw_addr := bw_addr bw;
                        bw_reserved0 := i |} in
          riscv_csreg_write fuel RISCV_MCONTROL mcontrol ;;
          riscv_csreg_write fuel RISCV_TDATA2 (bw_addr bw) ;;
          riscv_csreg_write fuel RISCV_TSELECT tselect_saved ;;
          ret (0, bw')
      end
  end.

Definition riscv_breakwatch_clear (fuel : nat) (bw : breakwatch) : M Z :=
  let i := bw_reserved0 bw in
  tselect_saved <- riscv_csreg_read fuel RISCV_TSELECT ;;
  riscv_csreg_write fuel RISCV_TSELECT i ;;
  riscv_csreg_write fuel RISCV_MCONTROL 0 ;;
  riscv_csreg_write fuel RISCV_TSELECT tselect_saved ;;
  ret 0.

(** *** Observations used in the statements *)

(** The word a DR shift of [tdi] captures when issued in state [t], and the
    chain after it. *)
Definition dr_capture (t : target) (tdi ticks : Z) : Z :=
  u64 (snd (tap_shift_dr (dev t) tdi ticks)).

Definition dr_chain (t : target) (tdi ticks : Z) : H :=
  fst (tap_shift_dr (dev t) tdi ticks).

(** The driver state with [lastdbus] replaced. *)
Definition dtm_with_lastdbus (d : riscv_dtm) (v : Z) : riscv_dtm :=
  {| version := version d; abits := abits d; idle := idle d;
     dramsize := dramsize d; error := error d; lastdbus := v;
     halt_requested := halt_requested d |}.

Definition dtm_with_error (d : riscv_dtm) (b : bool) : riscv_dtm :=
  {| version := version d; abits := abits d; idle := idle d;
     dramsize := dramsize d; error := b; lastdbus := lastdbus d;
     halt_requested := halt_requested d |}.

(** The words of [code] written to consecutive dbus addresses from [i] on,
    the last of them with INTERRUPT set: the executor's staging, in the
    specification's words. *)
Inductive staged (fuel : nat) : Z -> list Z -> target -> target -> Prop :=
| staged_last i c t t' :
    riscv_dtm_write fuel i (Z.lor c RISCV_DMCONTROL_INTERRUPT) t = Ok tt t' ->
    staged fuel i [c] t t'
| staged_more i c c' cs t t1 t' :
    riscv_dtm_write fuel i c t = Ok tt t1 ->
    staged fuel (i + 1) (c' :: cs) t1 t' ->
    staged fuel i (c :: c' :: cs) t t'.

(** [k] reads of dbus address [count], the first [k - 1] of which return
    INTERRUPT (bit 33) set and the last of which returns [d] with it
    clear. *)
Inductive polled (fuel : nat) (count : Z)
  : nat -> target -> Z -> target -> Prop :=
| polled_done t d t' :
    riscv_dtm_read fuel count t = Ok d t' ->
    Z.testbit d 33 = false ->
    polled fuel count 1 t d t'
| polled_busy k t d0 t1 d t' :
    riscv_dtm_read fuel count t = Ok d0 t1 ->
    Z.testbit d0 33 = true ->
    polled fuel count k t1 d t' ->
    polled fuel count (S k) t d t'.

(** The entries [riscv_jtag_handler] installs in the target, other than
    [check_error], with their arguments. *)
Inductive target_op : Type :=
| OpMemRead (src len : Z)
| OpMemWrite (dest : Z) (src : list Z) (len : Z)
| OpAttach
| OpDetach
| OpRegRead (reg data : Z)
| OpRegsWrite (data : list Z)
| OpReset
| OpHaltRequest
| OpHaltPoll
| OpHaltResume (step : bool)
| OpBreakwatchSet (bw : breakwatch)
| OpBreakwatchClear (bw : breakwatch).

Definition run_op (fuel : nat) (op : target_op) : M unit :=
  match op with
  | OpMemRead src len => _ <- riscv_mem_read fuel src len ;; ret tt
  | OpMemWrite dest src len => riscv_mem_write fuel dest src len
  | OpAttach => _ <- riscv_attach fuel ;; ret tt
  | OpDetach => riscv_detach fuel
  | OpRegRead reg data => _ <- riscv_reg_read fuel reg data ;; ret tt
  | OpRegsWrite data => riscv_regs_write fuel data
  | OpReset => riscv_reset fuel
  | OpHaltRequest => riscv_halt_request fuel
  | OpHaltPoll => _ <- riscv_halt_poll fuel ;; ret tt
  | OpHaltResume step => riscv_halt_resume fuel step
  | OpBreakwatchSet bw => _ <- riscv_breakwatch_set fuel bw ;; ret tt
  | OpBreakwatchClear bw => _ <- riscv_breakwatch_clear fuel bw ;; ret tt
  end.

(** An operation that never takes the sticky error flag from set to
    clear. *)
Definition keeps_error {A : Type} (m : M A) : Prop :=
  forall t a t',
    error (priv t) = true -> m t = Ok a t' -> error (priv t') = true.

End Driver.

Arguments target H : clear implicits.
Arguments M H A : clear implicits.

(** The dbus writes in a log of [abits]-address shifts, as (address, data34)
    pairs in the order they were shifted. *)
Fixpoint dbus_writes (log : list jtag_event) : list (Z * Z) :=
  match log with
  | [] => []
  | ShiftDR ticks tdi :: log' =>
      if Z.eqb ticks 32 then dbus_writes log'
      else if Z.eqb (Z.land tdi 3) RISCV_DBUS_WRITE
      then (Z.shiftr tdi 36, Z.land (Z.shiftr tdi 2) DBUS_DATA_MASK)
           :: dbus_writes log'
      else dbus_writes log'
  | _ :: log' => dbus_writes log'
  end.

(** The instruction register selected after the events of [log], [ir]
    being the one selected before them. *)
Fixpoint selected_ir (log : list jtag_event) (ir : Z) : Z :=
  match log with
  | [] => ir
  | WriteIR i :: log' => selected_ir log' i
  | _ :: log' => selected_ir log' ir
  end.

(** ** The scan handler *)

(** The fields [riscv_jtag_handler] takes from the DTMCONTROL word and from
    dminfo, each as the [uint8_t] it is stored in. *)
Definition dtmcontrol_version (d : Z) : Z := u8 (Z.land d 0xf).

Definition dtmcontrol_abits (d : Z) : Z :=
  u8 (Z.lor (Z.shiftl (Z.land (Z.shiftr d 13) 3) 4)
            (Z.land (Z.shiftr d 4) 0xf)).

Definition dtmcontrol_idle (d : Z) : Z := u8 (Z.land (Z.shiftr d 10) 7).

Definition dminfo_version (d : Z) : Z :=
  u8 (Z.lor (Z.land (Z.shiftr d 4) 0xc) (Z.land d 3)).

Definition dminfo_authenticated (d : Z) : Z := u8 (Z.land (Z.shiftr d 5) 1).

Definition dminfo_dramsize (d : Z) : Z := u8 (Z.land (Z.shiftr d 10) 0x3f).

(** The DTMCONTROL word whose version, address-bits and idle fields are
    [v], [a] and [i]: the layout the handler decodes, written the other way
    round. *)
Definition dtmcontrol_of (v a i : Z) : Z :=
  Z.lor (Z.lor (Z.lor (Z.shiftl (Z.land (Z.shiftr a 4) 3) 13)
                      (Z.shiftl i 10))
               (Z.shiftl (Z.land a 0xf) 4))
        v.

(** What the [memset] of the handler leaves: every field zero. *)
Definition zero_dtm : riscv_dtm :=
  {| version := 0; abits := 0; idle := 0; dramsize := 0; error := false;
     lastdbus := 0; halt_requested := false |}.

Section Handler.

Context {H : Type} {tap : JtagTap H}.

Notation "x <- m ;; k" := (bind m (fun x => k))
  (at level 61, m at next level, right associativity).
Notation "m ;; k" := (bind m (fun _ => k))
  (at level 61, right associativity).

Definition set_abits (v : Z) : M H unit :=
  modify (fun d =>
    {| version := version d; abits := v; idle := idle d;
       dramsize := dramsize d; error := error d; lastdbus := lastdbus d;
       halt_requested := halt_requested d |}).

Definition set_idle (v : Z) : M H unit :=
  modify (fun d =>
    {| version := version d; abits := abits d; idle := v;
       dramsize := dramsize d; error := error d; lastdbus := lastdbus d;
       halt_requested := halt_requested d |}).

Definition set_dramsize (v : Z) : M H unit :=
  modify (fun d =>
    {| version := version d; abits := abits d; idle := idle d;
       dramsize := v; error := error d; lastdbus := lastdbus d;
       halt_requested := halt_requested d |}).

(** [riscv_jtag_handler], run on the chain of a target whose [priv] stands
    for the handler's local [dtm] (uninitialised until the [memset]).  It
    returns [true] where the source goes on to allocate the target and copy
    [dtm] into its [priv], [false] at each of its three early returns. *)
Definition riscv_jtag_handler (fuel : nat) : M H bool :=
  jtag_dev_write_ir RISCV_IR_DTMCONTROL ;;
  r <- jtag_dev_shift_dr 0 32 ;;
  let dtmcontrol := u32 r in
  if Z.ltb 0 (dtmcontrol_version dtmcontrol) then ret false
  else
    modify (fun _ => zero_dtm) ;;
    set_abits (dtmcontrol_abits dtmcontrol) ;;
    set_idle (dtmcontrol_idle dtmcontrol) ;;
    riscv_dtm_reset ;;
    jtag_dev_write_ir RISCV_IR_DBUS ;;
    v <- riscv_dtm_read fuel RISCV_DMINFO ;;
    let dminfo := u32 v in
    if negb (Z.eqb (dminfo_version dminfo) 1) then ret false
    else if negb (Z.eqb (dminfo_authenticated dminfo) 1) then ret false
    else
      set_dramsize (dminfo_dramsize dminfo) ;;
      ret true.

End Handler.

(** ** What the trigger walk finds at an index *)

Inductive slot : Type := SlotFree | SlotBusy | SlotAbsent.

Section Walk.

Context {H : Type} {tap : JtagTap H}.

(** One round of the walk at index [i]: tselect is written and read back,
    then tdata1 is read.  The slot is absent when the readback differs or
    the type field (bits 31..28) is 0, free when the type is 2 and the
    enable bits (6..3) are all clear, and busy otherwise. *)
Inductive probed (fuel : nat) (i : Z) (t : target H)
  : slot -> target H -> Prop :=
| probed_unselectable t1 r t2 :
    riscv_csreg_write fuel RISCV_TSELECT i t = Ok tt t1 ->
    riscv_csreg_read fuel RISCV_TSELECT t1 = Ok r t2 ->
    r <> i ->
    probed fuel i t SlotAbsent t2
| probed_no_type t1 t2 tdata1 t3 :
    riscv_csreg_write fuel RISCV_TSELECT i t = Ok tt t1 ->
    riscv_csreg_read fuel RISCV_TSELECT t1 = Ok i t2 ->
    riscv_csreg_read fuel RISCV_MCONTROL t2 = Ok tdata1 t3 ->
    Z.land (Z.shiftr tdata1 28) 0xf = 0 ->
    probed fuel i t SlotAbsent t3
| probed_free t1 t2 tdata1 t3 :
    riscv_csreg_write fuel RISCV_TSELECT i t = Ok tt t1 ->
    riscv_csreg_read fuel RISCV_TSELECT t1 = Ok i t2 ->
    riscv_csreg_read fuel RISCV_MCONTROL t2 = Ok tdata1 t3 ->
    Z.land (Z.shiftr tdata1 28) 0xf = 2 ->
    Z.land tdata1 RISCV_MCONTROL_ENABLE_MASK = 0 ->
    probed fuel i t SlotFree t3
| probed_busy t1 t2 tdata1 t3 :
    riscv_csreg_write fuel RISCV_TSELECT i t = Ok tt t1 ->
    riscv_csreg_read fuel RISCV_TSELECT t1 = Ok i t2 ->
    riscv_csreg_read fuel RISCV_MCONTROL t2 = Ok tdata1 t3 ->
    Z.land (Z.shiftr tdata1 28) 0xf <> 0 ->
    (Z.land (Z.shiftr tdata1 28) 0xf <> 2 \/
     Z.land tdata1 RISCV_MCONTROL_ENABLE_MASK <> 0) ->
    probed fuel i t SlotBusy t3.

(** [m] rounds at the indices [i], [i + 1], ... (modulo 2^32), each of which
    found its slot busy. *)
Inductive busy_run (fuel : nat) : Z -> nat -> target H -> target H -> Prop :=
| busy_none i t : busy_run fuel i 0 t t
| busy_next i m t t1 t' :
    probed fuel i t SlotBusy t1 ->
    busy_run fuel (u32 (i + 1)) m t1 t' ->
    busy_run fuel i (S m) t t'.

End Walk.

(** An operation that leaves DBUS the selected instruction register when it
    finds it selected. *)
Definition keeps_dbus {H A : Type} (m : M H A) : Prop :=
  forall ir t a t',
    selected_ir (jtag_log t) ir = RISCV_IR_DBUS ->
    m t = Ok a t' ->
    selected_ir (jtag_log t') ir = RISCV_IR_DBUS.

(** The events the link of a DTM with [a] address bits and [i] idle cycles
    may ask of the TAP: DTMCONTROL or DBUS selected, a 32-bit shift of
    DBUSRESET or a shift of [a + 36] bits, [i] cycles with TMS low. *)
Definition link_event (a i : Z) (e : jtag_event) : Prop :=
  match e with
  | WriteIR ir => ir = RISCV_IR_DTMCONTROL \/ ir = RISCV_IR_DBUS
  | ShiftDR ticks tdi =>
      (ticks = 32 /\ tdi = RISCV_DTMCONTROL_DBUSRESET) \/ ticks = a + 36
  | TmsSeq ms ticks => ms = 0 /\ ticks = i
  end.

(** An operation that keeps [abits] and [idle] and only adds link events
    to the log. *)
Definition emits_link_events {H A : Type} (m : M H A) : Prop :=
  forall t a t',
    m t = Ok a t' ->
    abits (priv t') = abits (priv t) /\
    idle (priv t') = idle (priv t) /\
    exists more,
      jtag_log t' = jtag_log t ++ more /\
      Forall (link_event (abits (priv t)) (idle (priv t))) more.

(** ** A simulated hart

    A small executable model of what sits behind the TAP: a DTM of version
    0 with its dbus, a Debug Module with Debug RAM, and a hart that runs the
    stub in Debug RAM when a dbus write carries INTERRUPT.  It is the
    concrete chain on which the driver is run in the examples; the
    theorems about the driver hold for every [JtagTap]. *)
Module Sim.

Inductive loc : Type :=
| Ram (i : Z)
| X (r : Z)
| Csr (n : Z)
| Tdata1 (i : Z)
| Tdata2 (i : Z)
| Mem (a : Z).

Definition loc_eqb (a b : loc) : bool :=
  match a, b with
  | Ram i, Ram j | X i, X j | Csr i, Csr j
  | Tdata1 i, Tdata1 j | Tdata2 i, Tdata2 j | Mem i, Mem j => Z.eqb i j
  | _, _ => false
  end.

Definition store : Type := loc -> Z.

Definition upd (s : store) (l : loc) (v : Z) : store :=
  fun l' => if loc_eqb l l' then v else s l'.

Record hart : Type := {
  h_ir : Z;              (* the selected instruction register *)
  h_script : list Z;     (* statuses of the coming dbus shifts; 0 after *)
  h_latency : nat;       (* reads that see INTERRUPT after a stub starts *)
  h_busy : nat;
  h_latch : Z;           (* the data34 the next dbus shift returns *)
  h_ntrig : Z;           (* number of trigger slots *)
  h_store : store
}.

Definition with_store (h : hart) (s : store) : hart :=
  {| h_ir := h_ir h; h_script := h_script h; h_latency := h_latency h;
     h_busy := h_busy h; h_latch := h_latch h; h_ntrig := h_ntrig h;
     h_store := s |}.

Definition with_dm (h : hart) (script : list Z) (busy : nat) (latch : Z)
  : hart :=
  {| h_ir := h_ir h; h_script := script; h_latency := h_latency h;
     h_busy := busy; h_latch := latch; h_ntrig := h_ntrig h;
     h_store := h_store h |}.

Definition csr_read (s : store) (n : Z) : Z :=
  if Z.eqb n RISCV_MCONTROL then s (Tdata1 (s (Csr RISCV_TSELECT)))
  else if Z.eqb n RISCV_TDATA2 then s (Tdata2 (s (Csr RISCV_TSELECT)))
  else s (Csr n).

(** A write to [tselect] of an index without a slot is dropped; the type
    field of [tdata1] is read-only. *)
Definition csr_write (ntrig : Z) (s : store) (n v : Z) : store :=
  if Z.eqb n RISCV_TSELECT then
    if Z.leb 0 v && Z.ltb v ntrig then upd s (Csr n) v else s
  else if Z.eqb n RISCV_MCONTROL then
    let i := s (Csr RISCV_TSELECT) in
    upd s (Tdata1 i)
        (Z.lor (Z.land (s (Tdata1 i)) 0xf0000000) (Z.land v 0x0fffffff))
  else if Z.eqb n RISCV_TDATA2 then upd s (Tdata2 (s (Csr RISCV_TSELECT))) v
  else upd s (Csr n) v.

(** Debug RAM is mapped at 0x400 in the hart's address space. *)
Definition bus (a : Z) : loc :=
  if Z.leb 0x400 a && Z.ltb a 0x500 then Ram ((a - 0x400) / 4) else Mem a.

Definition xr (s : store) (r : Z) : Z := if Z.eqb r 0 then 0 else s (X r).
Definition xw (s : store) (r v : Z) : store :=
  if Z.eqb r 0 then s else upd s (X r) v.

Definition sext12 (v : Z) : Z := if Z.ltb v 2048 then v else v - 4096.

(** One instruction of the stub at Debug RAM word [pc]: [lw], [sw], the CSR
    instructions; anything else (the [j resume] that ends a stub) stops. *)
Definition step (ntrig : Z) (s : store) (pc : Z) : option store :=
  let insn := s (Ram pc) in
  let opcode := Z.land insn 0x7f in
  let rd := Z.land (Z.shiftr insn 7) 31 in
  let f3 := Z.land (Z.shiftr insn 12) 7 in
  let rs1 := Z.land (Z.shiftr insn 15) 31 in
  let rs2 := Z.land (Z.shiftr insn 20) 31 in
  let imm_i := sext12 (Z.shiftr insn 20) in
  let imm_s := sext12 (Z.lor (Z.shiftl (Z.shiftr insn 25) 5) rd) in
  if Z.eqb opcode 0x03 then
    Some (xw s rd (s (bus (u32 (xr s rs1 + imm_i)))))
  else if Z.eqb opcode 0x23 then
    Some (upd s (bus (u32 (xr s rs1 + imm_s))) (xr s rs2))
  else if Z.eqb opcode 0x73 then
    let csr := Z.shiftr insn 20 in
    let old := csr_read s csr in
    let src := if Z.leb 4 f3 then rs1 else xr s rs1 in
    let s1 :=
      match Z.land f3 3 with
      | 1 => csr_write ntrig s csr src
      | 2 => if Z.eqb rs1 0 then s else csr_write ntrig s csr (Z.lor old src)
      | 3 => if Z.eqb rs1 0 then s
             else csr_write ntrig s csr (Z.land old (Z.lxor src 0xffffffff))
      | _ => s
      end in
    Some (xw s1 rd old)
  else None.

Fixpoint run (ntrig : Z) (n : nat) (s : store) (pc : Z) : store :=
  match n with
  | O => s
  | S n' =>
      match step ntrig s pc with
      | Some s' => run ntrig n' s' (pc + 1)
      | None => s
      end
  end.

Definition interrupt_flag (h : hart) : Z :=
  match h_busy h with O => 0 | S _ => RISCV_DMCONTROL_INTERRUPT end.

Definition dbus_read (h : hart) (addr : Z) : hart :=
  if Z.eqb addr RISCV_DMCONTROL then
    with_dm h (h_script h) (h_busy h)
      (Z.lor (interrupt_flag h)
             (Z.shiftl (Z.land (Z.shiftr (h_store h (Csr RISCV_DCSR)) 3) 1) 32))
  else if Z.eqb addr RISCV_DMINFO then
    with_dm h (h_script h) (h_busy h)
      (Z.lor (Z.lor 1 (Z.shiftl 1 5)) (Z.shiftl 15 10))
  else
    with_dm h (h_script h) (Nat.pred (h_busy h))
      (Z.lor (interrupt_flag h) (h_store h (Ram addr))).

Definition dbus_write (h : hart) (addr data : Z) : hart :=
  let s := upd (h_store h) (Ram addr) (u32 data) in
  if Z.eqb (Z.land data RISCV_DMCONTROL_INTERRUPT) 0
  then with_store h s
  else with_dm (with_store h (run (h_ntrig h) 16 s 0))
               (h_script h) (h_latency h) (h_latch h).

(** A dbus access that the DTM accepts: it answers status 0 with the latched
    data, then performs the operation. *)
Definition dbus_perform (h : hart) (tdi : Z) : hart * Z :=
  let tdo := Z.shiftl (h_latch h) 2 in
  let op := Z.land tdi 3 in
  let data := Z.land (Z.shiftr tdi 2) DBUS_DATA_MASK in
  let addr := Z.shiftr tdi 36 in
  if Z.eqb op RISCV_DBUS_READ then (dbus_read h addr, tdo)
  else if Z.eqb op RISCV_DBUS_WRITE then (dbus_write h addr data, tdo)
  else (h, tdo).

Definition dbus_shift (h : hart) (tdi : Z) : hart * Z :=
  match h_script h with
  | [] => dbus_perform h tdi
  | st :: rest =>
      let h' := with_dm h rest (h_busy h) (h_latch h) in
      if Z.eqb st 0 then dbus_perform h' tdi else (h', st)
  end.

#[global] Instance sim_tap : JtagTap hart := {
  tap_write_ir h ir :=
    {| h_ir := ir; h_script := h_script h; h_latency := h_latency h;
       h_busy := h_busy h; h_latch := h_latch h; h_ntrig := h_ntrig h;
       h_store := h_store h |};
  tap_shift_dr h tdi ticks :=
    if Z.eqb (h_ir h) RISCV_IR_DBUS then dbus_shift h tdi else (h, 0);
  tap_tms_seq h ms ticks := h
}.

(** A hart with [ntrig] trigger slots whose registers and memory are [s],
    answering [script] to the first dbus shifts, with DBUS selected. *)
Definition hart_of (script : list Z) (latency : nat) (ntrig : Z) (s : store)
  : hart :=
  {| h_ir := RISCV_IR_DBUS; h_script := script; h_latency := latency;
     h_busy := 0; h_latch := 0; h_ntrig := ntrig; h_store := s |}.

(** The driver state [riscv_jtag_handler] leaves for a DTM with the given
    [abits], [idle] and [dramsize]. *)
Definition dtm_of (a i d : Z) : riscv_dtm :=
  {| version := 0; abits := a; idle := i; dramsize := d; error := false;
     lastdbus := 0; halt_requested := false |}.

Definition target_of (d : riscv_dtm) (h : hart) : target hart :=
  {| priv := d; dev := h; jtag_log := [] |}.

(** Stores: all zero, and a list of initial values over it. *)
Definition zeros : store := fun _ => 0.

Fixpoint store_of (l : list (loc * Z)) : store :=
  match l with
  | [] => zeros
  | (k, v) :: l' => upd (store_of l') k v
  end.

(** What an operation returned and the target it left, for targets on which
    it is known to return. *)
Definition value {A : Type} (o : outcome (target hart) A) (default : A) : A :=
  match o with Ok a _ => a | _ => default end.

Definition final {A : Type} (o : outcome (target hart) A)
  (t : target hart) : target hart :=
  match o with Ok _ t' => t' | _ => t end.

Definition returned {A : Type} (o : outcome (target hart) A) : bool :=
  match o with Ok _ _ => true | _ => false end.

(** *** Scenarios *)

(** A halted-by-step hart with two free trigger slots, tselect at 1, x18
    holding 77, 0x1234 left in Debug RAM word 5, and one poll of latency;
    behind a DTM with 5 address bits, 1 idle cycle and 16 words of Debug
    RAM. *)
Definition demo : target hart :=
  target_of (dtm_of 5 1 15)
    (hart_of [] 1 2
       (store_of [(Csr RISCV_TSELECT, 1);
                  (Tdata1 0, 0x20000000); (Tdata1 1, 0x20000000);
                  (Csr RISCV_DCSR, 0x108); (X 18, 77); (Ram 5, 0x1234)])).

(** A hart whose two trigger slots are both in use, tselect at 0. *)
Definition all_busy : target hart :=
  target_of (dtm_of 5 1 15)
    (hart_of [] 0 2
       (store_of [(Csr RISCV_TSELECT, 0);
                  (Tdata1 0, 0x20000078); (Tdata1 1, 0x20000078)])).

(** A hart whose slot 0 is in use and whose slot 1 is free, tselect
    at 0. *)
Definition one_free : target hart :=
  target_of (dtm_of 5 1 15)
    (hart_of [] 0 2
       (store_of [(Csr RISCV_TSELECT, 0);
                  (Tdata1 0, 0x20000078); (Tdata1 1, 0x20000000);
                  (Mem 0x20000000, 0xcafe)])).

(** A DTM that answers status 0 and then status 3 (respectively status 2)
    before it accepts again. *)
Definition retrying : target hart :=
  target_of (dtm_of 5 1 15) (hart_of [0; 3] 0 0 zeros).

Definition failing : target hart :=
  target_of (dtm_of 5 1 15) (hart_of [2] 0 0 zeros).

(** A DTM with 29 address bits. *)
Definition wide : target hart :=
  target_of (dtm_of 29 0 15) (hart_of [] 0 0 zeros).

End Sim.

(** ** A simulated chain with a DTMCONTROL register

    The simulated hart behind a DTM whose DTMCONTROL register reads as
    [c_dtmcontrol], for running the scan handler. *)
Module Probe.

Record chain : Type := {
  c_dtmcontrol : Z;
  c_hart : Sim.hart
}.

#[global] Instance probe_tap : JtagTap chain := {
  tap_write_ir c ir :=
    {| c_dtmcontrol := c_dtmcontrol c;
       c_hart := tap_write_ir (c_hart c) ir |};
  tap_shift_dr c tdi ticks :=
    if Z.eqb (Sim.h_ir (c_hart c)) RISCV_IR_DTMCONTROL
    then (c, c_dtmcontrol c)
    else
      let (h, tdo) := tap_shift_dr (c_hart c) tdi ticks in
      ({| c_dtmcontrol := c_dtmcontrol c; c_hart := h |}, tdo);
  tap_tms_seq c ms ticks :=
    {| c_dtmcontrol := c_dtmcontrol c;
       c_hart := tap_tms_seq (c_hart c) ms ticks |}
}.

(** A target whose driver state is still the uninitialised local of the
    handler (here: all ones, error set) on a chain that reports
    [dtmcontrol]. *)
Definition unscanned (dtmcontrol : Z) (script : list Z) : target chain :=
  {| priv := {| version := 0xff; abits := 0xff; idle := 0xff;
                dramsize := 0xff; error := true; lastdbus := 0xffff;
                halt_requested := true |};
     dev := {| c_dtmcontrol := dtmcontrol;
               c_hart := Sim.hart_of script 0 2 Sim.zeros |};
     jtag_log := [] |}.

Definition value {A : Type} (o : outcome (target chain) A) (default : A)
  : A :=
  match o with Ok a _ => a | _ => default end.

Definition final {A : Type} (o : outcome (target chain) A)
  (t : target chain) : target chain :=
  match o with Ok _ t' => t' | _ => t end.

End Probe.

(** * Properties of the driver *)

Section Properties.

Context {H : Type} {tap : JtagTap H}.

Notation "x <- m ;; k" := (bind m (fun x => k))
  (at level 61, m at next level, right associativity).
Notation "m ;; k" := (bind m (fun _ => k))
  (at level 61, right associativity).

(** ** The monad *)

Lemma bind_ok {A B : Type} (m : M H A) (k : A -> M H B) t a t' :
  m t = Ok a t' -> bind m k t = k a t'.
Proof. intros E. unfold bind. now rewrite E. Qed.

Lemma bind_inv {A B : Type} (m : M H A) (k : A -> M H B) t b t2 :
  bind m k t = Ok b t2 ->
  exists a t1, m t = Ok a t1 /\ k a t1 = Ok b t2.
Proof.
  unfold bind. destruct (m t) as [a t1| |]; try discriminate.
  intros E. now exists a, t1.
Qed.

(** ** The link, one shift at a time *)

Lemma low_access_retry_unfold fuel dbus (t : target H) :
  low_access_retry (S fuel) dbus t =
  let a := abits (priv t) in
  let r := dr_capture t dbus (36 + a) in
  let t1 := {| priv := priv t; dev := dr_chain t dbus (36 + a);
               jtag_log := jtag_log t ++ [ShiftDR (36 + a) dbus] |} in
  match Z.land r 3 with
  | 3 =>
      low_access_retry fuel dbus
        {| priv := priv t;
           dev := tap_tms_seq
                    (fst (tap_shift_dr
                            (tap_write_ir
                               (fst (tap_shift_dr
                                       (tap_write_ir (dev t1)
                                                     RISCV_IR_DTMCONTROL)
                                       RISCV_DTMCONTROL_DBUSRESET 32))
                               RISCV_IR_DBUS)
                            (lastdbus (priv t)) (a + 36)))
                    0 (idle (priv t));
           jtag_log := jtag_log t ++
             [ShiftDR (36 + a) dbus;
              WriteIR RISCV_IR_DTMCONTROL;
              ShiftDR 32 RISCV_DTMCONTROL_DBUSRESET;
              WriteIR RISCV_IR_DBUS;
              ShiftDR (a + 36) (lastdbus (priv t));
              TmsSeq 0 (idle (priv t))] |}
  | 0 =>
      Ok (Z.land (Z.shiftr r 2) DBUS_DATA_MASK)
         {| priv := dtm_with_lastdbus (priv t) dbus;
            dev := tap_tms_seq (dev t1) 0 (idle (priv t));
            jtag_log := jtag_log t ++
              [ShiftDR (36 + a) dbus; TmsSeq 0 (idle (priv t))] |}
  | _ =>
      Ok 0 {| priv := dtm_with_error (priv t) true; dev := dev t1;
              jtag_log := jtag_log t ++ [ShiftDR (36 + a) dbus] |}
  end.
Proof.
  destruct t as [d h0 l].
  cbn [low_access_retry].
  cbv [dr_capture dr_chain bind gets jtag_dev_shift_dr riscv_dtm_reset
       jtag_dev_write_ir jtagtap_tms_seq set_lastdbus set_error modify ret
       dtm_with_lastdbus dtm_with_error].
  cbn [priv dev jtag_log].
  destruct (tap_shift_dr h0 dbus (36 + abits d)) as [h tdo].
  cbn [fst snd].
  destruct (Z.land (u64 tdo) 3) as [|p|p].
  - cbn [priv dev jtag_log idle]. rewrite <- app_assoc. reflexivity.
  - destruct p as [[p|p|]|[p|p|]|]; try reflexivity.
    cbn [priv dev jtag_log].
    destruct (tap_shift_dr (tap_write_ir h RISCV_IR_DTMCONTROL)
                RISCV_DTMCONTROL_DBUSRESET 32) as [h1 r1].
    cbn [priv dev jtag_log fst].
    destruct (tap_shift_dr (tap_write_ir h1 RISCV_IR_DBUS)
                (lastdbus d) (abits d + 36)) as [h2 r2].
    cbn [priv dev jtag_log fst].
    repeat rewrite <- app_assoc. reflexivity.
  - reflexivity.
Qed.

Lemma low_access_unfold fuel dbus (t : target H) :
  riscv_dtm_low_access fuel dbus t =
  if error (priv t) then Ok 0 t else low_access_retry fuel dbus t.
Proof.
  unfold riscv_dtm_low_access, bind, gets, ret.
  destruct (error (priv t)); reflexivity.
Qed.

Lemma low_access_status0 fuel dbus (t : target H) :
  error (priv t) = false ->
  Z.land (dr_capture t dbus (36 + abits (priv t))) 3 = 0 ->
  riscv_dtm_low_access (S fuel) dbus t =
  Ok (Z.land (Z.shiftr (dr_capture t dbus (36 + abits (priv t))) 2)
             DBUS_DATA_MASK)
     {| priv := dtm_with_lastdbus (priv t) dbus;
        dev := tap_tms_seq (dr_chain t dbus (36 + abits (priv t))) 0
                           (idle (priv t));
        jtag_log := jtag_log t ++
          [ShiftDR (36 + abits (priv t)) dbus; TmsSeq 0 (idle (priv t))] |}.
Proof.
  intros E S0. rewrite low_access_unfold, E, low_access_retry_unfold.
  cbv zeta. rewrite S0. reflexivity.
Qed.

Lemma low_access_failed fuel dbus (t : target H) :
  error (priv t) = false ->
  Z.land (dr_capture t dbus (36 + abits (priv t))) 3 = 1 \/
  Z.land (dr_capture t dbus (36 + abits (priv t))) 3 = 2 ->
  riscv_dtm_low_access (S fuel) dbus t =
  Ok 0 {| priv := dtm_with_error (priv t) true;
          dev := dr_chain t dbus (36 + abits (priv t));
          jtag_log := jtag_log t ++ [ShiftDR (36 + abits (priv t)) dbus] |}.
Proof.
  intros E S12. rewrite low_access_unfold, E, low_access_retry_unfold.
  cbv zeta. destruct S12 as [S1|S2]; [rewrite S1|rewrite S2]; reflexivity.
Qed.

Lemma low_access_sticky fuel dbus (t : target H) :
  error (priv t) = true -> riscv_dtm_low_access fuel dbus t = Ok 0 t.
Proof. intros E. now rewrite low_access_unfold, E. Qed.

(** What a link access leaves of the driver state: everything but [error],
    which it may set, and [lastdbus], which is the word just sent when the
    access succeeded and stays as it was when it failed. *)
Lemma low_access_retry_frame fuel dbus : forall (t : target H) r t',
  error (priv t) = false ->
  low_access_retry fuel dbus t = Ok r t' ->
  priv t' = (if error (priv t')
             then dtm_with_error (priv t) true
             else dtm_with_lastdbus (priv t) dbus).
Proof.
  induction fuel as [|fuel IH]; intros t r t' E R; [discriminate|].
  rewrite low_access_retry_unfold in R. cbv zeta in R.
  destruct (Z.land (dr_capture t dbus (36 + abits (priv t))) 3)
    as [|p|p].
  - inversion R; subst; clear R. cbn [priv dtm_with_lastdbus error].
    now rewrite E.
  - destruct p as [[p|p|]|[p|p|]|];
      try (inversion R; subst; clear R; reflexivity).
    apply IH in R; [exact R | exact E].
  - inversion R; subst; clear R. reflexivity.
Qed.

Lemma low_access_frame fuel dbus (t : target H) r t' :
  riscv_dtm_low_access fuel dbus t = Ok r t' ->
  priv t' = (if error (priv t')
             then dtm_with_error (priv t) true
             else dtm_with_lastdbus (priv t) dbus).
Proof.
  rewrite low_access_unfold. destruct (error (priv t)) eqn:E.
  - intros R. inversion R; subst; clear R. rewrite E.
    destruct (priv t'); cbn in *. now subst.
  - now apply low_access_retry_frame.
Qed.

Lemma low_access_halt_requested fuel dbus (t : target H) r t' :
  riscv_dtm_low_access fuel dbus t = Ok r t' ->
  halt_requested (priv t') = halt_requested (priv t).
Proof.
  intros R. apply low_access_frame in R.
  destruct (error (priv t')); now rewrite R.
Qed.

Lemma low_access_keeps_error fuel dbus :
  keeps_error (riscv_dtm_low_access fuel dbus).
Proof.
  intros t a t' E R. rewrite low_access_sticky in R by exact E.
  now inversion R; subst.
Qed.

(** ** Bits *)

Lemma mask_is_ones : DBUS_DATA_MASK = Z.ones 34.
Proof. reflexivity. Qed.

Lemma encode_addr a addr :
  0 <= a <= 28 -> 0 <= addr < 2 ^ a ->
  u64 (Z.shiftl (u32 addr) 36) = Z.shiftl addr 36.
Proof.
  intros Ha Hx.
  assert (2 ^ a <= 2 ^ 28) by (apply Z.pow_le_mono_r; lia).
  unfold u64, u32. rewrite (Z.mod_small addr) by lia.
  rewrite Z.shiftl_mul_pow2 by lia. apply Z.mod_small. lia.
Qed.

Lemma encode_data d :
  0 <= d < 2 ^ 34 -> Z.land d DBUS_DATA_MASK = d.
Proof.
  intros Hd. rewrite mask_is_ones, Z.land_ones by lia.
  apply Z.mod_small. lia.
Qed.

Lemma pow2_test r n :
  0 <= n -> Z.eqb (Z.land r (2 ^ n)) 0 = negb (Z.testbit r n).
Proof.
  intros Hn. destruct (Z.testbit r n) eqn:B; cbn [negb].
  - apply Z.eqb_neq. intros E.
    assert (T : Z.testbit (Z.land r (2 ^ n)) n = true)
      by (rewrite Z.land_spec, B, Z.pow2_bits_true by lia; reflexivity).
    rewrite E, Z.bits_0 in T. discriminate.
  - apply Z.eqb_eq. apply Z.bits_inj'. intros m Hm.
    rewrite Z.land_spec, Z.bits_0.
    destruct (Z.eq_dec m n) as [->|Hne].
    + now rewrite B.
    + rewrite Z.pow2_bits_false by lia. apply andb_false_r.
Qed.

Lemma interrupt_test r :
  Z.eqb (Z.land r RISCV_DMCONTROL_INTERRUPT) 0 = negb (Z.testbit r 33).
Proof. apply (pow2_test r 33). lia. Qed.

Lemma haltnot_test r :
  Z.eqb (Z.land r RISCV_DMCONTROL_HALTNOT) 0 = negb (Z.testbit r 32).
Proof. apply (pow2_test r 32). lia. Qed.

(** ** The DTM link *)

(** C8 (as amended).  With at most 28 address bits, so that the
    [abits + 36]-bit word fits the driver's 64-bit [dbus] buffer, for every
    [addr] in [[0, 2^abits)] and [data34] in [[0, 2^34)]: a dbus write shifts
    exactly the word [(addr << 36) | (data34 << 2) | WRITE]; the response is
    decoded as status [resp & 3] (0 commits, 2 sets the sticky error) and
    data [(resp >> 2) & (2^34 - 1)]; and a dbus read is exactly two shifts,
    [(addr << 36) | READ] to arm and then a NOP, the data field of whose
    response is returned. *)
Theorem dbus_encoding (fuel : nat) (t : target H) (addr data34 : Z) :
  error (priv t) = false ->
  0 <= abits (priv t) <= 28 ->
  0 <= addr < 2 ^ abits (priv t) ->
  0 <= data34 < 2 ^ 34 ->
  let a := abits (priv t) in
  let i := idle (priv t) in
  let wr := Z.lor (Z.lor (Z.shiftl addr 36) (Z.shiftl data34 2))
                  RISCV_DBUS_WRITE in
  let rd := Z.lor (Z.shiftl addr 36) RISCV_DBUS_READ in
  let t1 := {| priv := dtm_with_lastdbus (priv t) rd;
               dev := tap_tms_seq (dr_chain t rd (36 + a)) 0 i;
               jtag_log := jtag_log t ++ [ShiftDR (36 + a) rd; TmsSeq 0 i] |}
  in
  (Z.land (dr_capture t wr (36 + a)) 3 = 0 ->
   exists t',
     riscv_dtm_write (S fuel) addr data34 t = Ok tt t' /\
     error (priv t') = false /\
     jtag_log t' = jtag_log t ++ [ShiftDR (36 + a) wr; TmsSeq 0 i]) /\
  (Z.land (dr_capture t wr (36 + a)) 3 = 2 ->
   exists t',
     riscv_dtm_write (S fuel) addr data34 t = Ok tt t' /\
     error (priv t') = true /\
     jtag_log t' = jtag_log t ++ [ShiftDR (36 + a) wr]) /\
  (Z.land (dr_capture t rd (36 + a)) 3 = 0 ->
   Z.land (dr_capture t1 RISCV_DBUS_NOP (36 + a)) 3 = 0 ->
   exists t',
     riscv_dtm_read (S fuel) addr t =
       Ok (Z.land (Z.shiftr (dr_capture t1 RISCV_DBUS_NOP (36 + a)) 2)
                  (2 ^ 34 - 1)) t' /\
     jtag_log t' = jtag_log t ++
       [ShiftDR (36 + a) rd; TmsSeq 0 i;
        ShiftDR (36 + a) RISCV_DBUS_NOP; TmsSeq 0 i]).
Proof.
  intros E Ha Haddr Hd. cbv zeta.
  split; [|split].
  - intros S0. unfold riscv_dtm_write.
    rewrite (encode_addr _ _ Ha Haddr), (encode_data _ Hd).
    rewrite (bind_ok _ _ _ _ _ (low_access_status0 fuel _ t E S0)).
    eexists. split; [reflexivity|]. split; [exact E | reflexivity].
  - intros S2. unfold riscv_dtm_write.
    rewrite (encode_addr _ _ Ha Haddr), (encode_data _ Hd).
    rewrite (bind_ok _ _ _ _ _
               (low_access_failed fuel _ t E (or_intror S2))).
    eexists. split; [reflexivity|]. split; reflexivity.
  - intros S0 S1. unfold riscv_dtm_read.
    rewrite (encode_addr _ _ Ha Haddr).
    rewrite (bind_ok _ _ _ _ _ (low_access_status0 fuel _ t E S0)).
    match goal with
    | |- context [riscv_dtm_low_access _ _ ?u] =>
        pose proof (low_access_status0 fuel RISCV_DBUS_NOP u E S1) as R
    end.
    cbn [priv dev jtag_log abits idle dtm_with_lastdbus] in R.
    rewrite R. eexists. split; [reflexivity|].
    cbn [jtag_log]. rewrite <- app_assoc. reflexivity.
Qed.

(** C4.  When the response to a dbus shift has status 3, the link selects
    IR=DTMCONTROL, shifts a 32-bit DR with DBUSRESET ([1 << 16]), reselects
    IR=DBUS, shifts [lastdbus] again, clocks [idle] cycles and then re-issues
    the current transaction; [lastdbus] is the word of the previous
    successful transaction: a transaction that succeeds records its word,
    one that fails leaves [lastdbus] as it was. *)
Theorem status3_recovery (fuel : nat) (dbus : Z) (t : target H) :
  error (priv t) = false ->
  Z.land (dr_capture t dbus (36 + abits (priv t))) 3 = 3 ->
  let a := abits (priv t) in
  (exists t',
     riscv_dtm_low_access (S fuel) dbus t =
       riscv_dtm_low_access fuel dbus t' /\
     priv t' = priv t /\
     jtag_log t' = jtag_log t ++
       [ShiftDR (36 + a) dbus;
        WriteIR RISCV_IR_DTMCONTROL;
        ShiftDR 32 (Z.shiftl 1 16);
        WriteIR RISCV_IR_DBUS;
        ShiftDR (a + 36) (lastdbus (priv t));
        TmsSeq 0 (idle (priv t))]) /\
  (forall f d0 r0 t0,
     riscv_dtm_low_access f d0 t0 = Ok r0 t -> lastdbus (priv t) = d0) /\
  (forall f d r t1,
     riscv_dtm_low_access f d t = Ok r t1 ->
     lastdbus (priv t1) = if error (priv t1) then lastdbus (priv t) else d).
Proof.
  intros E S3. cbv zeta. split; [|split].
  - eexists. split; [|split].
    + rewrite (low_access_unfold (S fuel)), E, low_access_retry_unfold.
      cbv zeta. rewrite S3.
      match goal with
      | |- low_access_retry _ _ ?u = _ =>
          transitivity (riscv_dtm_low_access fuel dbus u);
            [rewrite low_access_unfold; cbn [priv]; now rewrite E
            |reflexivity]
      end.
    + reflexivity.
    + reflexivity.
  - intros f d0 r0 t0 R. apply low_access_frame in R.
    rewrite E in R. now rewrite R.
  - intros f d r t1 R. apply low_access_frame in R.
    destruct (error (priv t1)); now rewrite R.
Qed.

(** ** The sticky error flag *)

Lemma keeps_bind {A B : Type} (m : M H A) (k : A -> M H B) :
  keeps_error m -> (forall a, keeps_error (k a)) -> keeps_error (bind m k).
Proof.
  intros Hm Hk t b t2 E R. apply bind_inv in R as (a & t1 & R1 & R2).
  eapply Hk; [eapply Hm; eassumption | eassumption].
Qed.

Lemma keeps_ret {A : Type} (a : A) : keeps_error (ret (H := H) a).
Proof. intros t b t' E R. now inversion R; subst. Qed.

Lemma keeps_gets {A : Type} (f : riscv_dtm -> A) :
  keeps_error (gets (H := H) f).
Proof. intros t b t' E R. now inversion R; subst. Qed.

Lemma keeps_assert b : keeps_error (assert (H := H) b).
Proof.
  intros t u t' E R. unfold assert in R.
  destruct b; now inversion R; subst.
Qed.

Lemma keeps_set_halt_requested b :
  keeps_error (set_halt_requested (H := H) b).
Proof. intros t u t' E R. now inversion R; subst. Qed.

Create HintDb keeps discriminated.

#[local] Hint Resolve keeps_ret keeps_gets keeps_assert
  keeps_set_halt_requested low_access_keeps_error : keeps.

Ltac keeps :=
  repeat match goal with
    | |- keeps_error (if ?b then _ else _) => destruct b
    | |- keeps_error (match ?x with _ => _ end) => destruct x
    | |- keeps_error (bind _ _) => apply keeps_bind; [|intros ?]
    | |- keeps_error _ => solve [auto with keeps]
    end.

Lemma write_keeps_error fuel addr data :
  keeps_error (riscv_dtm_write (H := H) fuel addr data).
Proof. unfold riscv_dtm_write. keeps. Qed.

Lemma read_keeps_error fuel addr :
  keeps_error (riscv_dtm_read (H := H) fuel addr).
Proof. unfold riscv_dtm_read. keeps. Qed.

#[local] Hint Resolve write_keeps_error read_keeps_error : keeps.

Lemma exec_stage_keeps_error fuel code n : forall i,
  keeps_error (exec_stage (H := H) fuel code n i).
Proof. induction n as [|n IH]; intros i; cbn [exec_stage]; keeps. Qed.

Lemma exec_poll_keeps_error fuel count n :
  keeps_error (exec_poll (H := H) fuel count n).
Proof.
  induction n as [|n IH]; cbn [exec_poll]; [|keeps].
  intros t a t' _ R. discriminate.
Qed.

#[local] Hint Resolve exec_stage_keeps_error exec_poll_keeps_error : keeps.

Lemma exec_keeps_error fuel code count :
  keeps_error (riscv_debug_ram_exec (H := H) fuel code count).
Proof. unfold riscv_debug_ram_exec. keeps. Qed.

#[local] Hint Resolve exec_keeps_error : keeps.

Lemma mem_read32_keeps_error fuel addr :
  keeps_error (riscv_mem_read32 (H := H) fuel addr).
Proof. unfold riscv_mem_read32. cbv zeta. keeps. Qed.

Lemma mem_write32_keeps_error fuel addr val :
  keeps_error (riscv_mem_write32 (H := H) fuel addr val).
Proof. unfold riscv_mem_write32. cbv zeta. keeps. Qed.

Lemma gpreg_read_keeps_error fuel reg :
  keeps_error (riscv_gpreg_read (H := H) fuel reg).
Proof. unfold riscv_gpreg_read. cbv zeta. keeps. Qed.

Lemma gpreg_write_keeps_error fuel reg val :
  keeps_error (riscv_gpreg_write (H := H) fuel reg val).
Proof. unfold riscv_gpreg_write. cbv zeta. keeps. Qed.

Lemma csreg_read_keeps_error fuel csr :
  keeps_error (riscv_csreg_read (H := H) fuel csr).
Proof. unfold riscv_csreg_read. cbv zeta. keeps. Qed.

Lemma csreg_write_keeps_error fuel csr val :
  keeps_error (riscv_csreg_write (H := H) fuel csr val).
Proof. unfold riscv_csreg_write. cbv zeta. keeps. Qed.

#[local] Hint Resolve mem_read32_keeps_error mem_write32_keeps_error
  gpreg_read_keeps_error gpreg_write_keeps_error csreg_read_keeps_error
  csreg_write_keeps_error : keeps.

Lemma mem_read_loop_keeps_error fuel n : forall src,
  keeps_error (mem_read_loop (H := H) fuel src n).
Proof. induction n as [|n IH]; intros src; cbn [mem_read_loop]; keeps. Qed.

Lemma mem_write_loop_keeps_error fuel s n : forall dest k,
  keeps_error (mem_write_loop (H := H) fuel dest s k n).
Proof.
  induction n as [|n IH]; intros dest k; cbn [mem_write_loop]; keeps.
Qed.

Lemma regs_write_reg_keeps_error fuel i v :
  keeps_error (regs_write_reg (H := H) fuel i v).
Proof. unfold regs_write_reg. keeps. Qed.

#[local] Hint Resolve regs_write_reg_keeps_error : keeps.

Lemma regs_write_loop_keeps_error fuel reg n : forall i,
  keeps_error (regs_write_loop (H := H) fuel reg i n).
Proof.
  induction n as [|n IH]; intros i; cbn [regs_write_loop]; keeps.
Qed.

Lemma breakwatch_walk_keeps_error fuel n : forall i,
  keeps_error (breakwatch_walk (H := H) fuel n i).
Proof.
  induction n as [|n IH]; intros i; cbn [breakwatch_walk]; [|keeps].
  intros t a t' _ R. discriminate.
Qed.

#[local] Hint Resolve mem_read_loop_keeps_error mem_write_loop_keeps_error
  regs_write_loop_keeps_error breakwatch_walk_keeps_error : keeps.

Lemma run_op_keeps_error fuel op : keeps_error (run_op (H := H) fuel op).
Proof.
  destruct op; cbn [run_op];
    unfold riscv_mem_read, riscv_mem_write, riscv_attach, riscv_detach,
      riscv_reg_read, riscv_regs_write, riscv_reset, riscv_halt_request,
      riscv_halt_resume, riscv_halt_poll, riscv_breakwatch_set,
      riscv_breakwatch_clear; cbv zeta; keeps.
Qed.

Lemma write_sticky fuel addr data (t : target H) :
  error (priv t) = true -> riscv_dtm_write fuel addr data t = Ok tt t.
Proof.
  intros E. unfold riscv_dtm_write.
  now rewrite (bind_ok _ _ _ _ _ (low_access_sticky _ _ t E)).
Qed.

Lemma read_sticky fuel addr (t : target H) :
  error (priv t) = true -> riscv_dtm_read fuel addr t = Ok 0 t.
Proof.
  intros E. unfold riscv_dtm_read.
  rewrite (bind_ok _ _ _ _ _ (low_access_sticky _ _ t E)).
  now apply low_access_sticky.
Qed.

Lemma exec_stage_sticky fuel code n (t : target H) :
  error (priv t) = true ->
  forall i, exec_stage fuel code n i t = Ok (i + Z.of_nat n) t.
Proof.
  intros E. induction n as [|n IH]; intros i; cbn [exec_stage].
  - unfold ret. f_equal. lia.
  - rewrite (bind_ok _ _ _ _ _ (write_sticky _ _ _ t E)), IH.
    f_equal. lia.
Qed.

Lemma exec_poll_sticky fuel count n (t : target H) :
  error (priv t) = true -> exec_poll fuel count (S n) t = Ok 0 t.
Proof.
  intros E. cbn [exec_poll].
  now rewrite (bind_ok _ _ _ _ _ (read_sticky _ _ t E)).
Qed.

Lemma exec_sticky fuel code count (t : target H) :
  error (priv t) = true ->
  riscv_debug_ram_exec (S fuel) code count t = Ok 0 t.
Proof.
  intros E. unfold riscv_debug_ram_exec.
  rewrite (bind_ok _ _ _ _ _ (exec_stage_sticky _ _ _ t E _)).
  rewrite (bind_ok _ _ _ _ _ (write_sticky _ _ _ t E)).
  rewrite (bind_ok _ _ _ _ _ (exec_poll_sticky _ _ _ t E)).
  reflexivity.
Qed.

(** C2.  While the sticky error flag is set, every dbus operation returns 0
    and performs no JTAG I/O (the target, and with it the log and the chain,
    is as before), and so does the executor; one call of check-error issues
    a DBUS reset, clears the flag and returns true, and the call that follows
    returns false; no other target operation clears the flag; and a status-2
    response is what sets it. *)
Theorem sticky_error (t : target H) :
  error (priv t) = true ->
  (forall fuel dbus, riscv_dtm_low_access fuel dbus t = Ok 0 t) /\
  (forall fuel addr data, riscv_dtm_write fuel addr data t = Ok tt t) /\
  (forall fuel addr, riscv_dtm_read fuel addr t = Ok 0 t) /\
  (forall fuel code count,
     riscv_debug_ram_exec (S fuel) code count t = Ok 0 t) /\
  (exists t1,
     riscv_check_error t = Ok true t1 /\
     jtag_log t1 = jtag_log t ++
       [WriteIR RISCV_IR_DTMCONTROL; ShiftDR 32 (Z.shiftl 1 16)] /\
     error (priv t1) = false /\
     riscv_check_error t1 = Ok false t1) /\
  (forall fuel op r t',
     run_op fuel op t = Ok r t' -> error (priv t') = true) /\
  (forall fuel dbus (t0 : target H),
     error (priv t0) = false ->
     Z.land (dr_capture t0 dbus (36 + abits (priv t0))) 3 = 2 ->
     exists t',
       riscv_dtm_low_access (S fuel) dbus t0 = Ok 0 t' /\
       error (priv t') = true).
Proof.
  intros E. repeat split.
  - intros. now apply low_access_sticky.
  - intros. now apply write_sticky.
  - intros. now apply read_sticky.
  - intros. now apply exec_sticky.
  - destruct t as [d h l]. cbn [priv] in E.
    cbv [riscv_check_error riscv_dtm_reset bind gets ret jtag_dev_write_ir
         jtag_dev_shift_dr set_error modify].
    cbn [priv dev jtag_log]. rewrite E. cbn [priv dev jtag_log].
    destruct (tap_shift_dr (tap_write_ir h RISCV_IR_DTMCONTROL)
                RISCV_DTMCONTROL_DBUSRESET 32) as [h1 r1].
    eexists. split; [reflexivity|].
    cbn [priv dev jtag_log error].
    split; [now rewrite <- app_assoc|]. split; reflexivity.
  - intros fuel op r t' R. eapply run_op_keeps_error; eassumption.
  - intros fuel dbus t0 E0 S2.
    rewrite (low_access_failed fuel dbus t0 E0 (or_intror S2)).
    eexists. split; reflexivity.
Qed.

(** ** The Debug RAM executor *)

Lemma idx_app_head pre c rest :
  idx (pre ++ c :: rest) (Z.of_nat (length pre)) = c.
Proof.
  unfold idx. rewrite Nat2Z.id, app_nth2 by lia.
  now rewrite Nat.sub_diag.
Qed.

(** The staging loop followed by the write of the last word, on the words
    [rest] that follow the already staged [pre]. *)
Lemma exec_stage_staged fuel : forall rest pre (t t' : target H),
  rest <> [] ->
  (i <- exec_stage fuel (pre ++ rest) (Nat.pred (length rest))
                   (Z.of_nat (length pre)) ;;
   riscv_dtm_write fuel i
     (Z.lor (idx (pre ++ rest) i) RISCV_DMCONTROL_INTERRUPT)) t = Ok tt t'
  <-> staged fuel (Z.of_nat (length pre)) rest t t'.
Proof.
  induction rest as [|c rest IH]; intros pre t t' Hne; [congruence|].
  destruct rest as [|c' cs].
  - cbn [length Nat.pred exec_stage]. unfold bind at 1, ret.
    rewrite idx_app_head. split.
    + apply staged_last.
    + intros St. now inversion St; subst.
  - change (Nat.pred (length (c :: c' :: cs)))
      with (S (Nat.pred (length (c' :: cs)))).
    cbn [exec_stage].
    specialize (IH (pre ++ [c])).
    rewrite <- app_assoc in IH. cbn [app] in IH.
    rewrite length_app in IH. cbn [length] in IH.
    replace (Z.of_nat (length pre + 1)) with (Z.of_nat (length pre) + 1)
      in IH by lia.
    rewrite idx_app_head. split.
    + intros R. apply bind_inv in R as (i & t1 & R1 & R2).
      apply bind_inv in R1 as ([] & t0 & W & R1).
      eapply staged_more; [exact W|].
      apply IH; [discriminate|].
      now rewrite (bind_ok _ _ _ _ _ R1).
    + intros St. inversion St as [|? ? ? ? ? t0 ? W St']; subst.
      apply IH in St'; [|discriminate].
      apply bind_inv in St' as (i & t1 & R1 & R2).
      erewrite bind_ok; [exact R2|].
      now rewrite (bind_ok _ _ _ _ _ W).
Qed.

Lemma exec_poll_polled fuel count : forall n (t : target H) d t',
  exec_poll fuel count n t = Ok d t' <->
  exists k, (1 <= k <= n)%nat /\ polled fuel count k t d t'.
Proof.
  induction n as [|n IH]; intros t d t'.
  - split; [discriminate|]. intros (k & Hk & _). lia.
  - cbn [exec_poll]. split.
    + intros R. apply bind_inv in R as (r & t1 & R1 & R2).
      rewrite interrupt_test in R2.
      destruct (Z.testbit r 33) eqn:B; cbn [negb] in R2.
      * apply IH in R2 as (k & Hk & P).
        exists (S k). split; [lia|]. eapply polled_busy; eassumption.
      * inversion R2; subst. exists 1%nat. split; [lia|].
        now apply polled_done.
    + intros (k & Hk & P). inversion P as [? ? ? R B|k' ? d0 t1 ? ? R B P'];
        subst.
      * rewrite (bind_ok _ _ _ _ _ R), interrupt_test, B. reflexivity.
      * rewrite (bind_ok _ _ _ _ _ R), interrupt_test, B. cbn [negb].
        apply IH. exists k'. split; [|exact P'].
        inversion P'; subst; lia.
Qed.

(** What a call of the executor amounts to: the words staged, the last with
    INTERRUPT, then the polls of the word after them. *)
Lemma exec_staged_polled (fuel : nat) (code : list Z) (t : target H)
  (r : Z) (t' : target H) :
  code <> [] ->
  let n := Z.of_nat (length code) in
  riscv_debug_ram_exec fuel code n t = Ok r t' <->
  exists t1 d k,
    staged fuel 0 code t t1 /\
    polled fuel n k t1 d t' /\
    (1 <= k <= fuel)%nat /\
    Z.testbit d 33 = false /\
    r = d mod 2 ^ 32.
Proof.
  intros Hne n. unfold riscv_debug_ram_exec.
  pose proof (exec_stage_staged fuel code [] t) as St.
  cbn [app length] in St.
  replace (Z.to_nat (n - 1)) with (Nat.pred (length code)) by lia.
  change (Z.of_nat 0) with 0 in St.
  split.
  - intros R. apply bind_inv in R as (i & t0 & R0 & R).
    apply bind_inv in R as ([] & t1 & W & R).
    apply bind_inv in R as (d & t2 & P & R).
    inversion R; subst; clear R.
    apply exec_poll_polled in P as (k & Hk & P).
    exists t1, d, k. repeat split; try lia; try exact P.
    + apply St; [exact Hne|]. now rewrite (bind_ok _ _ _ _ _ R0).
    + clear - P. induction P; auto.
  - intros (t1 & d & k & S1 & P & Hk & B & ->).
    apply St in S1; [|exact Hne].
    apply bind_inv in S1 as (i & t0 & R0 & W).
    rewrite (bind_ok _ _ _ _ _ R0), (bind_ok _ _ _ _ _ W).
    assert (E : exec_poll fuel n fuel t1 = Ok d t')
      by (apply exec_poll_polled; exists k; split; [lia | exact P]).
    rewrite (bind_ok _ _ _ _ _ E). reflexivity.
Qed.

(** C3.  For an instruction list [code] of length [n >= 1],
    [riscv_debug_ram_exec] returns [r] exactly when: it has written
    [code[i]] to Debug RAM word [i] for [i] in [0 .. n-2] and [code[n-1]]
    with the INTERRUPT bit ([1 << 33]) to word [n-1]; it has then read word
    [n] some [k >= 1] times, every time but the last seeing INTERRUPT set
    and the last time seeing it clear; and [r] is the low 32 bits of that
    last read.  (Read from right to left: fuel for [k] polls gives
    the result.) *)
Theorem exec_completion (fuel : nat) (code : list Z) (t : target H)
  (r : Z) (t' : target H) :
  code <> [] ->
  let n := Z.of_nat (length code) in
  riscv_debug_ram_exec fuel code n t = Ok r t' <->
  exists t1 d k,
    staged fuel 0 code t t1 /\
    polled fuel n k t1 d t' /\
    (1 <= k <= fuel)%nat /\
    Z.testbit d 33 = false /\
    r = d mod 2 ^ 32.
Proof. exact (exec_staged_polled fuel code t r t'). Qed.

Lemma exec_stage_index fuel code n : forall i (t : target H) r t',
  exec_stage fuel code n i t = Ok r t' -> r = i + Z.of_nat n.
Proof.
  induction n as [|n IH]; intros i t r t' R; cbn [exec_stage] in R.
  - inversion R. lia.
  - apply bind_inv in R as ([] & t1 & _ & R). apply IH in R. lia.
Qed.

Lemma exec_stage_ext fuel code code' n : forall i (t : target H),
  (forall j, i <= j < i + Z.of_nat n -> idx code j = idx code' j) ->
  exec_stage fuel code n i t = exec_stage fuel code' n i t.
Proof.
  induction n as [|n IH]; intros i t Hj; cbn [exec_stage]; [reflexivity|].
  unfold bind. rewrite (Hj i) by lia.
  destruct (riscv_dtm_write fuel i (idx code' i) t); try reflexivity.
  apply IH. intros j Hr. apply Hj. lia.
Qed.

(** The executor reads only the first [count] words of [code]. *)
Lemma exec_ext fuel code code' count (t : target H) :
  1 <= count ->
  (forall j, 0 <= j < count -> idx code j = idx code' j) ->
  riscv_debug_ram_exec fuel code count t =
  riscv_debug_ram_exec fuel code' count t.
Proof.
  intros Hc Hj. unfold riscv_debug_ram_exec, bind at 1 4.
  rewrite (exec_stage_ext fuel code code') by (intros j Hr; apply Hj; lia).
  destruct (exec_stage fuel code' (Z.to_nat (count - 1)) 0 t)
    as [i t1| |] eqn:E; try reflexivity.
  apply exec_stage_index in E. rewrite (Hj i) by lia. reflexivity.
Qed.

(** [riscv_mem_write32] passes the executor a count of 5 for its six words:
    what it does is stage the four instructions and [addr], the latter with
    INTERRUPT, and poll word 5, where [val] would have been. *)
Lemma mem_write32_staged fuel addr val (t t' : target H) :
  riscv_mem_write32 fuel addr val t = Ok tt t' <->
  exists t1 d k,
    staged fuel 0 [0x41002403; 0x41402483; 0x942023; 0x3f80006f; u32 addr]
           t t1 /\
    polled fuel 5 k t1 d t' /\
    (1 <= k <= fuel)%nat.
Proof.
  assert (E : riscv_mem_write32 fuel addr val t =
              (_ <- riscv_debug_ram_exec fuel
                      [0x41002403; 0x41402483; 0x942023; 0x3f80006f; u32 addr]
                      5 ;; ret tt) t).
  { unfold riscv_mem_write32. cbv zeta. unfold bind.
    rewrite (exec_ext fuel _
               [0x41002403; 0x41402483; 0x942023; 0x3f80006f; u32 addr]);
      [reflexivity | lia |].
    intros j Hj.
    assert (Hc : j = 0 \/ j = 1 \/ j = 2 \/ j = 3 \/ j = 4) by lia.
    destruct Hc as [->|[->|[->|[->| ->]]]]; reflexivity. }
  rewrite E. clear E. split.
  - intros R. apply bind_inv in R as (r & t2 & R & R').
    inversion R'; subst; clear R'.
    apply (exec_staged_polled fuel
             [0x41002403; 0x41402483; 0x942023; 0x3f80006f; u32 addr]) in R;
      [|discriminate].
    destruct R as (t1 & d & k & S1 & P & Hk & _ & _). now exists t1, d, k.
  - intros (t1 & d & k & S1 & P & Hk).
    assert (B : Z.testbit d 33 = false) by (clear - P; induction P; auto).
    erewrite bind_ok; [reflexivity|].
    apply (exec_staged_polled fuel
             [0x41002403; 0x41402483; 0x942023; 0x3f80006f; u32 addr]);
      [discriminate|].
    exists t1, d, k. repeat split; auto; lia.
Qed.


(** ** Target operations *)

Lemma read_halt_requested fuel addr (t : target H) r t' :
  riscv_dtm_read fuel addr t = Ok r t' ->
  halt_requested (priv t') = halt_requested (priv t).
Proof.
  unfold riscv_dtm_read. intros R.
  apply bind_inv in R as (r0 & t0 & R0 & R1).
  apply low_access_halt_requested in R0, R1. congruence.
Qed.

Lemma land7_cases x :
  let c := Z.land x 7 in
  c = 0 \/ c = 1 \/ c = 2 \/ c = 3 \/ c = 4 \/ c = 5 \/ c = 6 \/ c = 7.
Proof.
  cbv zeta. change (Z.land x 7) with (Z.land x (Z.ones 3)).
  rewrite Z.land_ones by lia.
  pose proof (Z.mod_pos_bound x (2 ^ 3)). lia.
Qed.

Lemma halt_poll_unfold fuel (t : target H) dmcontrol t1 :
  riscv_dtm_read fuel RISCV_DMCONTROL t = Ok dmcontrol t1 ->
  riscv_halt_poll fuel t =
  (if negb (halt_requested (priv t)) && negb (Z.testbit dmcontrol 32)
   then ret TARGET_HALT_RUNNING
   else
     dcsr <- riscv_csreg_read fuel RISCV_DCSR ;;
     ret match u8 (Z.land (Z.shiftr dcsr 6) 7) with
         | 0 => TARGET_HALT_RUNNING
         | 1 => TARGET_HALT_BREAKPOINT
         | 2 => TARGET_HALT_BREAKPOINT
         | 3 => TARGET_HALT_REQUEST
         | 4 => TARGET_HALT_STEPPING
         | 5 => TARGET_HALT_REQUEST
         | _ => TARGET_HALT_ERROR
         end) t1.
Proof.
  intros R. pose proof (read_halt_requested _ _ _ _ _ R) as HR.
  unfold riscv_halt_poll. rewrite (bind_ok _ _ _ _ _ R).
  unfold bind at 1, gets. now rewrite HR, haltnot_test.
Qed.

(** C5.  [riscv_halt_poll] first reads dmcontrol; with [halt_requested]
    false and HALTNOT (bit 32) clear it returns RUNNING without further I/O;
    otherwise it reads dcsr and, with [cause = (dcsr >> 6) & 7], returns
    RUNNING for 0, BREAKPOINT for 1 and 2, REQUEST for 3, STEPPING for 4,
    REQUEST for 5 and ERROR for every other cause. *)
Theorem halt_poll_decode (fuel : nat) (t : target H) (dmcontrol : Z)
  (t1 : target H) :
  riscv_dtm_read fuel RISCV_DMCONTROL t = Ok dmcontrol t1 ->
  (halt_requested (priv t) = false /\ Z.testbit dmcontrol 32 = false ->
   riscv_halt_poll fuel t = Ok TARGET_HALT_RUNNING t1) /\
  (halt_requested (priv t) = true \/ Z.testbit dmcontrol 32 = true ->
   forall dcsr t2,
     riscv_csreg_read fuel RISCV_DCSR t1 = Ok dcsr t2 ->
     let cause := Z.land (Z.shiftr dcsr 6) 7 in
     exists reason,
       riscv_halt_poll fuel t = Ok reason t2 /\
       (cause = 0 -> reason = TARGET_HALT_RUNNING) /\
       (cause = 1 \/ cause = 2 -> reason = TARGET_HALT_BREAKPOINT) /\
       (cause = 3 -> reason = TARGET_HALT_REQUEST) /\
       (cause = 4 -> reason = TARGET_HALT_STEPPING) /\
       (cause = 5 -> reason = TARGET_HALT_REQUEST) /\
       (~ 0 <= cause <= 5 -> reason = TARGET_HALT_ERROR)).
Proof.
  intros R. rewrite (halt_poll_unfold _ _ _ _ R). cbv zeta. split.
  - intros [-> ->]. reflexivity.
  - intros Hhalt dcsr t2 Rd.
    replace (negb (halt_requested (priv t)) && negb (Z.testbit dmcontrol 32))
      with false
      by (destruct Hhalt as [-> | ->]; cbn;
          [reflexivity | now rewrite andb_false_r]).
    rewrite (bind_ok _ _ _ _ _ Rd). unfold ret.
    eexists. split; [reflexivity|].
    destruct (land7_cases (Z.shiftr dcsr 6))
      as [E|[E|[E|[E|[E|[E|[E|E]]]]]]];
      cbv zeta in E; rewrite E; cbn;
      repeat split; intros; try reflexivity; lia.
Qed.

Ltac decide_tests :=
  repeat match goal with
    | |- context [Z.eqb ?a ?b] =>
        first [ rewrite (proj2 (Z.eqb_eq a b)) by lia
              | rewrite (proj2 (Z.eqb_neq a b)) by lia ]
    | |- context [Z.leb ?a ?b] =>
        first [ rewrite (proj2 (Z.leb_le a b)) by lia
              | rewrite (proj2 (Z.leb_gt a b)) by lia ]
    end;
  cbn [andb orb negb].

Lemma bind_ret_map {A B : Type} (m : M H A) (f : A -> B) (g : B -> M H (Z * B))
  (t : target H) :
  (v <- (x <- m ;; ret (f x)) ;; g v) t = (x <- m ;; g (f x)) t.
Proof. unfold bind, ret. now destruct (m t). Qed.

(** C9.  Register indices are GDB's for rv32.  [riscv_reg_read]: 0 reads as
    0 without I/O; 1..7 and 10..31 read the GPR of that number through the
    gpreg stub; 8 reads the DSCRATCH CSR; 9 reads Debug RAM word [dramsize]
    over dbus; 32 reads the DPC CSR; 65..65+4095 read the CSR numbered
    [reg - 65]; each returns the size 4.  [riscv_regs_write] handles the
    registers 0..32 in turn: 0 is skipped, 1..7 and 10..31 are written
    through the gpreg stub, 8 goes to DSCRATCH, 9 to Debug RAM word
    [dramsize] over dbus, 32 to DPC. *)
Theorem reg_index_map (fuel : nat) (t : target H) :
  let d := dramsize (priv t) in
  (forall data, riscv_reg_read fuel 0 data t = Ok (4, 0) t) /\
  (forall reg data,
     1 <= reg <= 7 \/ 10 <= reg <= 31 ->
     riscv_reg_read fuel reg data t =
       (v <- riscv_gpreg_read fuel reg ;; ret (4, v)) t) /\
  (forall data,
     riscv_reg_read fuel 8 data t =
       (v <- riscv_csreg_read fuel RISCV_DSCRATCH ;; ret (4, v)) t) /\
  (forall data,
     riscv_reg_read fuel 9 data t =
       (v <- riscv_dtm_read fuel d ;; ret (4, v mod 2 ^ 32)) t) /\
  (forall data,
     riscv_reg_read fuel 32 data t =
       (v <- riscv_csreg_read fuel RISCV_DPC ;; ret (4, v)) t) /\
  (forall reg data,
     65 <= reg <= 65 + 4095 ->
     riscv_reg_read fuel reg data t =
       (v <- riscv_csreg_read fuel (reg - 65) ;; ret (4, v)) t) /\
  (forall v, regs_write_reg fuel 0 v t = Ok tt t) /\
  (forall i v,
     1 <= i <= 7 \/ 10 <= i <= 31 ->
     regs_write_reg fuel i v t = riscv_gpreg_write fuel i v t) /\
  (forall v,
     regs_write_reg fuel 8 v t = riscv_csreg_write fuel RISCV_DSCRATCH v t) /\
  (forall v, regs_write_reg fuel 9 v t = riscv_dtm_write fuel d v t) /\
  (forall v,
     regs_write_reg fuel 32 v t = riscv_csreg_write fuel RISCV_DPC v t) /\
  (forall data,
     riscv_regs_write fuel data t =
     fold_right
       (fun i k =>
          regs_write_reg fuel (Z.of_nat i) (idx data (Z.of_nat i)) ;; k)
       (ret tt) (seq 0 33) t).
Proof.
  cbv zeta.
  assert (Hread : forall reg data,
            riscv_reg_read fuel reg data t =
            (val <-
               (if Z.eqb reg 0 then ret 0
                else if Z.eqb reg 8 then riscv_csreg_read fuel RISCV_DSCRATCH
                else if Z.eqb reg 9
                     then (v <- riscv_dtm_read fuel (dramsize (priv t)) ;;
                           ret (u32 v))
                else if Z.eqb reg 32 then riscv_csreg_read fuel RISCV_DPC
                else if Z.leb 65 reg && Z.leb reg (65 + 4095)
                     then riscv_csreg_read fuel (reg - 65)
                else if (Z.leb 1 reg && Z.leb reg 7) ||
                        (Z.leb 10 reg && Z.leb reg 31)
                     then riscv_gpreg_read fuel reg
                else ret data) ;;
             ret (4, val)) t) by reflexivity.
  repeat match goal with |- _ /\ _ => split end.
  - intros. rewrite Hread. decide_tests. reflexivity.
  - intros reg data [Hr|Hr]; rewrite Hread; decide_tests; reflexivity.
  - intros. rewrite Hread. decide_tests. reflexivity.
  - intros. rewrite Hread. decide_tests. rewrite bind_ret_map. reflexivity.
  - intros. rewrite Hread. decide_tests. reflexivity.
  - intros reg data Hr. rewrite Hread. decide_tests. reflexivity.
  - intros. unfold regs_write_reg. decide_tests. reflexivity.
  - intros i v [Hr|Hr]; unfold regs_write_reg; decide_tests; reflexivity.
  - intros. unfold regs_write_reg. decide_tests. reflexivity.
  - intros. unfold regs_write_reg. decide_tests. reflexivity.
  - intros. unfold regs_write_reg. decide_tests. reflexivity.
  - intros. reflexivity.
Qed.

(** C10.  For a register index outside the mapped set (negative, 33..64, or
    above 65+4095) [riscv_reg_read] performs no I/O, leaves the caller's
    buffer as it was, and still returns 4. *)
Theorem reg_read_unmapped (fuel : nat) (t : target H) (reg data : Z) :
  reg < 0 \/ 33 <= reg <= 64 \/ 65 + 4095 < reg ->
  riscv_reg_read fuel reg data t = Ok (4, data) t.
Proof.
  intros Hr. unfold riscv_reg_read. unfold bind at 1, gets.
  destruct Hr as [Hr|[Hr|Hr]]; decide_tests; reflexivity.
Qed.

(** ** Trigger module *)

(** C7 (as amended).  [riscv_breakwatch_set] installs a hard breakpoint
    (returns 0) exactly when the walk from index 0 ends at a free slot [i];
    it then writes [(1<<27) | (1<<12) | (0xf<<3) | (1<<2)], which is
    0x0800107c, to the mcontrol CSR and the breakpoint address to the tdata2
    CSR, restores tselect, and records [i] in the breakwatch. *)
Theorem breakwatch_set_execute (fuel : nat) (bw bw' : breakwatch)
  (t t' : target H) :
  bw_type bw = TARGET_BREAK_HARD ->
  let mcontrol :=
    Z.lor (Z.lor (Z.lor (Z.shiftl 1 27) (Z.shiftl 1 12)) (Z.shiftl 0xf 3))
          (Z.shiftl 1 2) in
  mcontrol = 0x0800107c /\
  (riscv_breakwatch_set fuel bw t = Ok (0, bw') t' <->
   exists tselect_saved t0 i t1 t2 t3,
     riscv_csreg_read fuel RISCV_TSELECT t = Ok tselect_saved t0 /\
     breakwatch_walk fuel fuel 0 t0 = Ok (Some i) t1 /\
     riscv_csreg_write fuel RISCV_MCONTROL mcontrol t1 = Ok tt t2 /\
     riscv_csreg_write fuel RISCV_TDATA2 (bw_addr bw) t2 = Ok tt t3 /\
     riscv_csreg_write fuel RISCV_TSELECT tselect_saved t3 = Ok tt t' /\
     bw' = {| bw_type := bw_type bw; bw_addr := bw_addr bw;
              bw_reserved0 := i |}).
Proof.
  intros Hty. cbv zeta. split; [reflexivity|].
  unfold riscv_breakwatch_set. rewrite Hty.
  change (Z.lor (Z.lor (Z.lor RISCV_MCONTROL_DMODE RISCV_MCONTROL_ACTION_DEBUG)
                       RISCV_MCONTROL_ENABLE_MASK) RISCV_MCONTROL_EXECUTE)
    with 0x0800107c.
  change (Z.lor (Z.lor (Z.lor (Z.shiftl 1 27) (Z.shiftl 1 12))
                       (Z.shiftl 0xf 3)) (Z.shiftl 1 2))
    with 0x0800107c.
  split.
  - intros R. apply bind_inv in R as (ts & t0 & R0 & R).
    apply bind_inv in R as (found & t1 & R1 & R).
    destruct found as [i|]; [|inversion R].
    apply bind_inv in R as ([] & t2 & R2 & R).
    apply bind_inv in R as ([] & t3 & R3 & R).
    apply bind_inv in R as ([] & t4 & R4 & R).
    inversion R; subst; clear R.
    exists ts, t0, i, t1, t2, t3. now repeat split.
  - intros (ts & t0 & i & t1 & t2 & t3 & R0 & R1 & R2 & R3 & R4 & ->).
    rewrite (bind_ok _ _ _ _ _ R0), (bind_ok _ _ _ _ _ R1),
      (bind_ok _ _ _ _ _ R2), (bind_ok _ _ _ _ _ R3),
      (bind_ok _ _ _ _ _ R4).
    reflexivity.
Qed.

(** ** The code stubs *)

Lemma lor_bound a b n :
  0 <= n -> 0 <= a < 2 ^ n -> 0 <= b < 2 ^ n -> 0 <= Z.lor a b < 2 ^ n.
Proof.
  intros Hn Ha Hb. split; [apply Z.lor_nonneg; lia|].
  destruct (Z.eq_dec (Z.lor a b) 0) as [->|Hz]; [lia|].
  apply Z.log2_lt_pow2; [pose proof (proj2 (Z.lor_nonneg a b)); lia|].
  rewrite Z.log2_lor by lia.
  destruct (Z.eq_dec a 0) as [->|Ha0]; destruct (Z.eq_dec b 0) as [->|Hb0];
    cbn [Z.log2 Z.max]; try (exfalso; apply Hz; reflexivity).
  - rewrite Z.max_r by apply Z.log2_nonneg. apply Z.log2_lt_pow2; lia.
  - rewrite Z.max_l by apply Z.log2_nonneg. apply Z.log2_lt_pow2; lia.
  - apply Z.max_lub_lt; apply Z.log2_lt_pow2; lia.
Qed.

Lemma patch_fits c x k :
  0 <= c < 2 ^ 32 -> 0 <= k -> 0 <= x < 2 ^ (32 - k) -> k <= 32 ->
  u32 (Z.lor c (Z.shiftl x k)) = Z.lor c (Z.shiftl x k).
Proof.
  intros Hc Hk Hx Hk'. apply Z.mod_small. apply lor_bound; [lia|exact Hc|].
  rewrite Z.shiftl_mul_pow2 by lia.
  replace (2 ^ 32) with (2 ^ (32 - k) * 2 ^ k)
    by (rewrite <- Z.pow_add_r by lia; f_equal; lia).
  assert (0 < 2 ^ k) by (apply Z.pow_pos_nonneg; lia). nia.
Qed.

(** The words each stub other than [riscv_mem_write32] hands to the
    executor, with its count: the encodings of the specification's table,
    the operands in their bit fields. *)
Lemma stub_words (fuel : nat) (t : target H) :
  (forall addr, 0 <= addr < 2 ^ 32 ->
     riscv_mem_read32 fuel addr t =
     riscv_debug_ram_exec fuel
       [0x41002403; 0x00042483; 0x40902a23; 0x3f80006f; addr] 5 t) /\
  (forall rx, 0 <= rx < 32 ->
     riscv_gpreg_read fuel rx t =
     riscv_debug_ram_exec fuel
       [Z.lor 0x40002423 (Z.shiftl rx 20); 0x4000006f] 2 t) /\
  (forall rx val, 0 <= rx < 32 -> 0 <= val < 2 ^ 32 ->
     riscv_gpreg_write fuel rx val t =
     (_ <- riscv_debug_ram_exec fuel
             [Z.lor 0x40002423 (Z.shiftl rx 7); 0x4000006f; val] 3 ;;
      ret tt) t) /\
  (forall csr, 0 <= csr < 4096 ->
     riscv_csreg_read fuel csr t =
     riscv_debug_ram_exec fuel
       [Z.lor 0x00002473 (Z.shiftl csr 20); 0x40802623; 0x3fc0006f] 3 t) /\
  (forall csr val, 0 <= csr < 4096 -> 0 <= val < 2 ^ 32 ->
     riscv_csreg_write fuel csr val t =
     (_ <- riscv_debug_ram_exec fuel
             [0x40c02403; Z.lor 0x00041073 (Z.shiftl csr 20); 0x3fc0006f; val]
             4 ;;
      ret tt) t) /\
  riscv_halt_request fuel t =
    (_ <- riscv_debug_ram_exec fuel [0x7b046073; 0x4000006f] 2 ;;
     set_halt_requested true) t /\
  riscv_halt_resume fuel true t =
    (_ <- riscv_debug_ram_exec fuel [0x7b026073; 0x7b047073; 0x3fc0006f] 3 ;;
     set_halt_requested false) t /\
  riscv_halt_resume fuel false t =
    (_ <- riscv_debug_ram_exec fuel [0x7b006073; 0x7b067073; 0x3fc0006f] 3 ;;
     set_halt_requested false) t.
Proof.
  repeat match goal with |- _ /\ _ => split end; try reflexivity.
  - intros addr Ha. unfold riscv_mem_read32. cbv zeta.
    unfold u32. now rewrite Z.mod_small.
  - intros rx Hr. unfold riscv_gpreg_read. cbv zeta. cbn [array_or].
    unfold u8. rewrite (Z.mod_small rx) by lia.
    rewrite patch_fits; [reflexivity | lia | lia | lia | lia].
  - intros rx val Hr Hv. unfold riscv_gpreg_write. cbv zeta. cbn [array_or].
    unfold u8. rewrite (Z.mod_small rx) by lia.
    rewrite patch_fits by lia. unfold u32 at 1. now rewrite Z.mod_small.
  - intros csr Hc. unfold riscv_csreg_read. cbv zeta. cbn [array_or].
    unfold u16. rewrite (Z.mod_small csr) by lia.
    assert (Hs : u32 (Z.shiftl csr 20) = Z.shiftl csr 20).
    { apply Z.mod_small. rewrite Z.shiftl_mul_pow2 by lia. lia. }
    rewrite Hs, patch_fits; [reflexivity | lia | lia | lia | lia].
  - intros csr val Hc Hv. unfold riscv_csreg_write. cbv zeta.
    cbn [array_or].
    unfold u16. rewrite (Z.mod_small csr) by lia.
    assert (Hs : u32 (Z.shiftl csr 20) = Z.shiftl csr 20).
    { apply Z.mod_small. rewrite Z.shiftl_mul_pow2 by lia. lia. }
    rewrite Hs, patch_fits by lia. unfold u32 at 1. now rewrite Z.mod_small.
Qed.

(** Where [riscv_breakwatch_set] returns -1 it returns from inside the
    walk: the target it leaves is the one the walk left, with no write of
    the saved tselect after it. *)
Lemma walk_failure_returns fuel bw bw' (t t' : target H) :
  bw_type bw <> TARGET_BREAK_SOFT ->
  riscv_breakwatch_set fuel bw t = Ok (-1, bw') t' <->
  exists tselect_saved t0,
    riscv_csreg_read fuel RISCV_TSELECT t = Ok tselect_saved t0 /\
    breakwatch_walk fuel fuel 0 t0 = Ok None t' /\
    bw' = bw.
Proof.
  intros Hty. unfold riscv_breakwatch_set.
  destruct (bw_type bw); try congruence; cbv zeta iota; (split;
    [ intros R; apply bind_inv in R as (ts & t0 & R0 & R);
      apply bind_inv in R as (found & t1 & R1 & R);
      destruct found as [i|];
      [ apply bind_inv in R as ([] & t2 & R2 & R);
        apply bind_inv in R as ([] & t3 & R3 & R);
        apply bind_inv in R as ([] & t4 & R4 & R); inversion R
      | inversion R; subst; now exists ts, t0 ]
    | intros (ts & t0 & R0 & R1 & ->);
      now rewrite (bind_ok _ _ _ _ _ R0), (bind_ok _ _ _ _ _ R1) ]).
Qed.

End Properties.

(** * The driver on the simulated hart *)

Lemma returned_ok {A : Type} (o : outcome (target Sim.hart) A) (a : A)
  (t : target Sim.hart) :
  Sim.returned o = true -> o = Ok (Sim.value o a) (Sim.final o t).
Proof. destruct o; [reflexivity | discriminate | discriminate]. Qed.

(** C1 (the code departs from it).  For every [addr] and [val],
    [riscv_mem_write32] stages five words, not six: the four instructions
    and [addr], the latter carrying INTERRUPT; [val] is not written, and the
    poll is of word 5, where it would have been.  On the simulated hart,
    writing 0xdeadbeef to 0x20000000 stores the 0x1234 that Debug RAM word 5
    held. *)
Theorem mem_write32_stages_five_words :
  (forall (H : Type) (tap : JtagTap H) (fuel : nat) (addr val : Z)
          (t t' : target H),
     riscv_mem_write32 fuel addr val t = Ok tt t' <->
     exists t1 d k,
       staged fuel 0
         [0x41002403; 0x41402483; 0x00942023; 0x3f80006f; u32 addr] t t1 /\
       polled fuel 5 k t1 d t' /\
       (1 <= k <= fuel)%nat) /\
  let o := riscv_mem_write32 3 0x20000000 0xdeadbeef Sim.demo in
  let t' := Sim.final o Sim.demo in
  Sim.returned o = true /\
  dbus_writes (jtag_log t') =
    [(0, 0x41002403); (1, 0x41402483); (2, 0x00942023); (3, 0x3f80006f);
     (4, Z.lor 0x20000000 RISCV_DMCONTROL_INTERRUPT)] /\
  Sim.h_store (dev t') (Sim.Ram 5) = 0x1234 /\
  Sim.h_store (dev t') (Sim.Mem 0x20000000) = 0x1234.
Proof.
  split.
  - intros. apply mem_write32_staged.
  - vm_compute. repeat split.
Qed.

(** C6 (the code departs from it).  Where [riscv_breakwatch_set]
    returns -1 it returns from inside the walk, without the write that
    restores tselect.  On a hart whose two trigger slots are in use and
    whose tselect is 0, the call returns -1 and leaves tselect at 1. *)
Theorem breakwatch_set_failure_leaves_tselect :
  (forall (H : Type) (tap : JtagTap H) (fuel : nat) (bw bw' : breakwatch)
          (t t' : target H),
     bw_type bw <> TARGET_BREAK_SOFT ->
     (riscv_breakwatch_set fuel bw t = Ok (-1, bw') t' <->
      exists tselect_saved t0,
        riscv_csreg_read fuel RISCV_TSELECT t = Ok tselect_saved t0 /\
        breakwatch_walk fuel fuel 0 t0 = Ok None t' /\
        bw' = bw)) /\
  let bw := {| bw_type := TARGET_BREAK_HARD; bw_addr := 0x08000100;
               bw_reserved0 := 0 |} in
  let o := riscv_breakwatch_set 4 bw Sim.all_busy in
  Sim.returned o = true /\
  fst (Sim.value o (0, bw)) = -1 /\
  Sim.h_store (dev Sim.all_busy) (Sim.Csr RISCV_TSELECT) = 0 /\
  Sim.h_store (dev (Sim.final o Sim.all_busy)) (Sim.Csr RISCV_TSELECT) = 1.
Proof.
  split.
  - intros. now apply walk_failure_returns.
  - vm_compute. repeat split.
Qed.

(** C7 as stated fails: the value [(1<<27) | (1<<12) | (0xf<<3) | (1<<2)] is
    not 0x08001084.  Setting an execute trigger at 0x08000100 on the
    simulated hart takes slot 0, writes 0x0800107c to mcontrol (the slot's
    tdata1 keeps its type 2 above it) and never 0x08001084, writes the
    address to tdata2 and restores tselect. *)
Lemma breakwatch_mcontrol_is_not_08001084 :
  Z.lor (Z.lor (Z.lor (Z.shiftl 1 27) (Z.shiftl 1 12)) (Z.shiftl 0xf 3))
        (Z.shiftl 1 2) <> 0x08001084 /\
  let bw := {| bw_type := TARGET_BREAK_HARD; bw_addr := 0x08000100;
               bw_reserved0 := 7 |} in
  let o := riscv_breakwatch_set 3 bw Sim.demo in
  let t' := Sim.final o Sim.demo in
  let tail v := (3, Z.lor v RISCV_DMCONTROL_INTERRUPT) in
  let wrote v :=
    existsb (fun p => Z.eqb (fst p) 3 &&
                      Z.eqb (snd p) (Z.lor v RISCV_DMCONTROL_INTERRUPT))
            (dbus_writes (jtag_log t')) in
  Sim.returned o = true /\
  fst (Sim.value o (1, bw)) = 0 /\
  bw_reserved0 (snd (Sim.value o (1, bw))) = 0 /\
  wrote 0x0800107c = true /\
  wrote 0x08001084 = false /\
  Sim.h_store (dev t') (Sim.Tdata1 0) = Z.lor 0x20000000 0x0800107c /\
  Sim.h_store (dev t') (Sim.Tdata2 0) = 0x08000100 /\
  Sim.h_store (dev t') (Sim.Csr RISCV_TSELECT) = 1.
Proof.
  split.
  - intros E. vm_compute in E. discriminate E.
  - vm_compute. repeat split.
Qed.

(** C8 as stated fails for more than 28 address bits: with [abits = 29] and
    [addr = 2^28], inside [[0, 2^abits)], the word shifted for a write of 0
    is [WRITE] alone, the address having left the 64-bit word, and not
    [(addr << 36) | (0 << 2) | WRITE]. *)
Lemma dbus_write_truncates_wide_address :
  let addr := 2 ^ 28 in
  let o := riscv_dtm_write 1 addr 0 Sim.wide in
  0 <= addr < 2 ^ abits (priv Sim.wide) /\
  Sim.returned o = true /\
  jtag_log (Sim.final o Sim.wide) =
    [ShiftDR (36 + 29) RISCV_DBUS_WRITE; TmsSeq 0 0] /\
  Z.lor (Z.lor (Z.shiftl addr 36) (Z.shiftl 0 2)) RISCV_DBUS_WRITE
    <> RISCV_DBUS_WRITE.
Proof.
  cbv zeta. split; [|split; [|split]].
  - vm_compute. split; [discriminate | reflexivity].
  - vm_compute. reflexivity.
  - vm_compute. reflexivity.
  - intros E. vm_compute in E. discriminate E.
Qed.

(** ** The theorems at work *)

(** C8 on the simulated hart: a write of 0x12345 to dbus address 3 is the
    one shift of [(3 << 36) | (0x12345 << 2) | 2], and a read of address 3
    is the two shifts [(3 << 36) | 1] and 0. *)
Lemma dbus_encoding_witness :
  let t := Sim.demo in
  (error (priv t) = false /\
   0 <= abits (priv t) <= 28 /\
   0 <= 3 < 2 ^ abits (priv t) /\
   0 <= 0x12345 < 2 ^ 34) /\
  (exists t',
     riscv_dtm_write 1 3 0x12345 t = Ok tt t' /\
     error (priv t') = false /\
     jtag_log t' = [ShiftDR 41 0x3000048d16; TmsSeq 0 1]) /\
  (exists v t',
     riscv_dtm_read 1 3 t = Ok v t' /\
     jtag_log t' = [ShiftDR 41 0x3000000001; TmsSeq 0 1;
                    ShiftDR 41 0; TmsSeq 0 1]).
Proof.
  cbv zeta.
  assert (E : error (priv Sim.demo) = false) by reflexivity.
  assert (Ha : 0 <= abits (priv Sim.demo) <= 28)
    by (vm_compute; split; discriminate).
  assert (Hx : 0 <= 3 < 2 ^ abits (priv Sim.demo))
    by (vm_compute; split; [discriminate | reflexivity]).
  assert (Hd : 0 <= 0x12345 < 2 ^ 34)
    by (vm_compute; split; [discriminate | reflexivity]).
  split; [exact (conj E (conj Ha (conj Hx Hd)))|].
  destruct (dbus_encoding 0 Sim.demo 3 0x12345 E Ha Hx Hd) as (W & _ & R).
  split.
  - destruct W as (t' & W1 & W2 & W3); [reflexivity|].
    exists t'. repeat split; assumption.
  - destruct R as (t' & R1 & R2); [reflexivity | reflexivity |].
    eexists. exists t'. split; [exact R1 | exact R2].
Defined.

(** C4 on the simulated hart: after the successful write of 5 to address 2,
    the write of 7 to address 1 is answered status 3; the link resets the
    bus, replays the word of the first write, and re-issues the second. *)
Lemma status3_recovery_witness :
  let t := Sim.final (riscv_dtm_write 1 2 5 Sim.retrying) Sim.retrying in
  let first := Z.lor (Z.lor (Z.shiftl 2 36) (Z.shiftl 5 2)) RISCV_DBUS_WRITE in
  let second := Z.lor (Z.lor (Z.shiftl 1 36) (Z.shiftl 7 2)) RISCV_DBUS_WRITE in
  (error (priv t) = false /\
   Z.land (dr_capture t second (36 + abits (priv t))) 3 = 3) /\
  lastdbus (priv t) = first /\
  exists t',
    riscv_dtm_low_access 2 second t = riscv_dtm_low_access 1 second t' /\
    priv t' = priv t /\
    jtag_log t' = jtag_log t ++
      [ShiftDR 41 second; WriteIR 0x10; ShiftDR 32 0x10000; WriteIR 0x11;
       ShiftDR 41 first; TmsSeq 0 1].
Proof.
  cbv zeta.
  match goal with
  | |- (?e /\ ?s3) /\ _ =>
      assert (E : e) by reflexivity;
      assert (S3 : s3) by (vm_compute; reflexivity)
  end.
  split; [split; assumption|]. split; [reflexivity|].
  destruct (status3_recovery 1 _ _ E S3) as ((t' & R1 & R2 & R3) & _ & _).
  exists t'. repeat split; assumption.
Defined.

(** C2 on the simulated hart: a read answered status 2 sets the flag; the
    next read returns 0 and shifts nothing; check-error returns true, then
    false. *)
Lemma sticky_error_witness :
  let t := Sim.final (riscv_dtm_read 1 1 Sim.failing) Sim.failing in
  error (priv t) = true /\
  jtag_log t = [ShiftDR 41 0x1000000001] /\
  riscv_dtm_read 3 1 t = Ok 0 t /\
  exists t1,
    riscv_check_error t = Ok true t1 /\
    jtag_log t1 = jtag_log t ++ [WriteIR 0x10; ShiftDR 32 0x10000] /\
    error (priv t1) = false /\
    riscv_check_error t1 = Ok false t1.
Proof.
  cbv zeta.
  match goal with
  | |- ?e /\ _ => assert (E : e) by reflexivity
  end.
  split; [exact E|]. split; [reflexivity|].
  destruct (sticky_error _ E) as (_ & _ & R & _ & C & _).
  split; [apply R | exact C].
Defined.

(** C3 on the simulated hart: the halt stub is staged as two words, the
    second with INTERRUPT, and word 2 is polled twice, the hart being busy
    at the first poll. *)
Lemma exec_completion_witness :
  let code := [0x7b046073; 0x4000006f] in
  let o := riscv_debug_ram_exec 2 code 2 Sim.demo in
  code <> [] /\
  Sim.returned o = true /\
  exists t1 d k,
    staged 2 0 code Sim.demo t1 /\
    polled 2 2 k t1 d (Sim.final o Sim.demo) /\
    (1 <= k <= 2)%nat /\
    Z.testbit d 33 = false /\
    Sim.value o 1 = d mod 2 ^ 32.
Proof.
  cbv zeta.
  assert (Hne : [0x7b046073; 0x4000006f] <> []) by discriminate.
  assert (Hr : Sim.returned
                 (riscv_debug_ram_exec 2 [0x7b046073; 0x4000006f] 2 Sim.demo)
               = true) by (vm_compute; reflexivity).
  split; [exact Hne|]. split; [exact Hr|].
  apply (proj1 (exec_completion 2 [0x7b046073; 0x4000006f] Sim.demo _ _ Hne)).
  apply (returned_ok _ 1 Sim.demo Hr).
Defined.

(** C5 on the simulated hart, which has halted after a step: dmcontrol
    shows HALTNOT, dcsr has cause 4, and [riscv_halt_poll] returns
    STEPPING. *)
Lemma halt_poll_decode_witness :
  let o := riscv_dtm_read 3 RISCV_DMCONTROL Sim.demo in
  let dmcontrol := Sim.value o 0 in
  let t1 := Sim.final o Sim.demo in
  riscv_dtm_read 3 RISCV_DMCONTROL Sim.demo = Ok dmcontrol t1 /\
  Z.testbit dmcontrol 32 = true /\
  exists t2, riscv_halt_poll 3 Sim.demo = Ok TARGET_HALT_STEPPING t2.
Proof.
  cbv zeta.
  assert (R : riscv_dtm_read 3 RISCV_DMCONTROL Sim.demo =
              Ok (Sim.value (riscv_dtm_read 3 RISCV_DMCONTROL Sim.demo) 0)
                 (Sim.final (riscv_dtm_read 3 RISCV_DMCONTROL Sim.demo)
                            Sim.demo))
    by (apply returned_ok; vm_compute; reflexivity).
  assert (B : Z.testbit
                (Sim.value (riscv_dtm_read 3 RISCV_DMCONTROL Sim.demo) 0) 32
              = true) by (vm_compute; reflexivity).
  split; [exact R|]. split; [exact B|].
  destruct (halt_poll_decode 3 Sim.demo _ _ R) as (_ & P).
  specialize (P (or_intror B)).
  set (t1 := Sim.final (riscv_dtm_read 3 RISCV_DMCONTROL Sim.demo) Sim.demo)
    in *.
  assert (Rd : riscv_csreg_read 3 RISCV_DCSR t1 =
               Ok (Sim.value (riscv_csreg_read 3 RISCV_DCSR t1) 0)
                  (Sim.final (riscv_csreg_read 3 RISCV_DCSR t1) t1))
    by (apply returned_ok; vm_compute; reflexivity).
  destruct (P _ _ Rd) as (reason & Hp & _ & _ & _ & H4 & _).
  rewrite H4 in Hp by (vm_compute; reflexivity).
  eexists. exact Hp.
Defined.

(** C10 on the simulated hart: reading register 40 returns 4 and leaves
    0xdeadbeef in the buffer. *)
Lemma reg_read_unmapped_witness :
  (40 < 0 \/ 33 <= 40 <= 64 \/ 65 + 4095 < 40) /\
  riscv_reg_read 1 40 0xdeadbeef Sim.demo = Ok (4, 0xdeadbeef) Sim.demo.
Proof.
  assert (Hr : 40 < 0 \/ 33 <= 40 <= 64 \/ 65 + 4095 < 40)
    by (right; left; vm_compute; split; discriminate).
  split; [exact Hr | exact (reg_read_unmapped 1 Sim.demo 40 0xdeadbeef Hr)].
Defined.

(** C7 on the simulated hart: the execute trigger at 0x08000100 is installed
    in slot 0. *)
Lemma breakwatch_set_execute_witness :
  let bw := {| bw_type := TARGET_BREAK_HARD; bw_addr := 0x08000100;
               bw_reserved0 := 7 |} in
  let o := riscv_breakwatch_set 3 bw Sim.demo in
  bw_type bw = TARGET_BREAK_HARD /\
  Sim.returned o = true /\
  exists tselect_saved t0 i t1 t2 t3,
    riscv_csreg_read 3 RISCV_TSELECT Sim.demo = Ok tselect_saved t0 /\
    breakwatch_walk 3 3 0 t0 = Ok (Some i) t1 /\
    riscv_csreg_write 3 RISCV_MCONTROL 0x0800107c t1 = Ok tt t2 /\
    riscv_csreg_write 3 RISCV_TDATA2 0x08000100 t2 = Ok tt t3 /\
    riscv_csreg_write 3 RISCV_TSELECT tselect_saved t3
      = Ok tt (Sim.final o Sim.demo) /\
    snd (Sim.value o (1, bw)) =
      {| bw_type := TARGET_BREAK_HARD; bw_addr := 0x08000100;
         bw_reserved0 := i |}.
Proof.
  cbv zeta.
  set (bw := {| bw_type := TARGET_BREAK_HARD; bw_addr := 0x08000100;
                bw_reserved0 := 7 |}).
  assert (Hr : Sim.returned (riscv_breakwatch_set 3 bw Sim.demo) = true)
    by (vm_compute; reflexivity).
  split; [reflexivity|]. split; [exact Hr|].
  pose proof (returned_ok _ (1, bw) Sim.demo Hr) as R.
  assert (E0 : fst (Sim.value (riscv_breakwatch_set 3 bw Sim.demo) (1, bw))
               = 0) by (vm_compute; reflexivity).
  destruct (Sim.value (riscv_breakwatch_set 3 bw Sim.demo) (1, bw))
    as [r bw'] eqn:V.
  cbn [fst snd] in *. subst r.
  destruct (breakwatch_set_execute 3 bw bw' Sim.demo
              (Sim.final (riscv_breakwatch_set 3 bw Sim.demo) Sim.demo)
              eq_refl) as (_ & I).
  apply (proj1 I) in R.
  destruct R as (ts & t0 & i & t1 & t2 & t3 & R0 & R1 & R2 & R3 & R4 & R5).
  exists ts, t0, i, t1, t2, t3. repeat split; assumption.
Defined.

(** ** The specification's scenarios *)

(** Reading s2 (x18): the stub's first word is [0x40002423 | (18 << 20)],
    that is 0x41202423, and the value returned is the hart's x18. *)
Example read_s2 :
  let o := riscv_reg_read 2 18 0 Sim.demo in
  Sim.value o (0, 0) = (4, 77) /\
  dbus_writes (jtag_log (Sim.final o Sim.demo)) =
    [(0, 0x41202423); (1, Z.lor 0x4000006f RISCV_DMCONTROL_INTERRUPT)].
Proof. vm_compute. split; reflexivity. Qed.

(** Reading the word at 0x20000000: the stub's tail word is the address and
    the value returned is the word the hart holds there. *)
Example read_word :
  let o := riscv_mem_read32 2 0x20000000 Sim.one_free in
  Sim.value o 0 = 0xcafe /\
  dbus_writes (jtag_log (Sim.final o Sim.one_free)) =
    [(0, 0x41002403); (1, 0x00042483); (2, 0x40902a23); (3, 0x3f80006f);
     (4, Z.lor 0x20000000 RISCV_DMCONTROL_INTERRUPT)].
Proof. vm_compute. split; reflexivity. Qed.

(** Single step: the first word of the resume stub becomes 0x7b026073, the
    driver forgets its halt request, and a poll of the stepped hart returns
    STEPPING. *)
Example single_step :
  let o := riscv_halt_resume 2 true Sim.demo in
  let t := Sim.final o Sim.demo in
  dbus_writes (jtag_log t) =
    [(0, 0x7b026073); (1, 0x7b047073);
     (2, Z.lor 0x3fc0006f RISCV_DMCONTROL_INTERRUPT)] /\
  halt_requested (priv t) = false /\
  Sim.value (riscv_halt_poll 2 Sim.demo) TARGET_HALT_ERROR
    = TARGET_HALT_STEPPING.
Proof. vm_compute. repeat split. Qed.

(** The trigger walk passes the slot in use and takes the first free one;
    set and clear both leave tselect where it was. *)
Example set_then_clear :
  let bw := {| bw_type := TARGET_WATCH_ACCESS; bw_addr := 0x20000000;
               bw_reserved0 := 0 |} in
  let o := riscv_breakwatch_set 3 bw Sim.one_free in
  let t := Sim.final o Sim.one_free in
  let bw' := snd (Sim.value o (1, bw)) in
  let o' := riscv_breakwatch_clear 3 bw' t in
  let t' := Sim.final o' t in
  fst (Sim.value o (1, bw)) = 0 /\
  bw_reserved0 bw' = 1 /\
  Sim.h_store (dev t) (Sim.Tdata1 1) = Z.lor 0x20000000 0x0800107b /\
  Sim.h_store (dev t) (Sim.Tdata2 1) = 0x20000000 /\
  Sim.h_store (dev t) (Sim.Csr RISCV_TSELECT) = 0 /\
  Sim.value o' 1 = 0 /\
  Sim.h_store (dev t') (Sim.Tdata1 1) = 0x20000000 /\
  Sim.h_store (dev t') (Sim.Csr RISCV_TSELECT) = 0.
Proof. vm_compute. repeat split. Qed.

(** * Further properties of the driver *)

Section Further.

Context {H : Type} {tap : JtagTap H}.

Notation "x <- m ;; k" := (bind m (fun x => k))
  (at level 61, m at next level, right associativity).
Notation "m ;; k" := (bind m (fun _ => k))
  (at level 61, right associativity).

(** ** What the link and the executor return *)

Lemma data_field_bound r :
  0 <= Z.land (Z.shiftr r 2) DBUS_DATA_MASK < 2 ^ 34.
Proof.
  rewrite mask_is_ones, Z.land_ones by lia.
  apply Z.mod_pos_bound. lia.
Qed.

Lemma low_access_retry_result fuel dbus : forall (t : target H) r t',
  error (priv t) = false ->
  low_access_retry fuel dbus t = Ok r t' ->
  0 <= r < 2 ^ 34 /\ (error (priv t') = true -> r = 0).
Proof.
  induction fuel as [|fuel IH]; intros t r t' E R; [discriminate|].
  rewrite low_access_retry_unfold in R. cbv zeta in R.
  destruct (Z.land (dr_capture t dbus (36 + abits (priv t))) 3)
    as [|p|p].
  - inversion R; subst; clear R. split; [apply data_field_bound|].
    cbn [priv dtm_with_lastdbus error]. congruence.
  - destruct p as [[p|p|]|[p|p|]|];
      try (inversion R; subst; clear R; split; [lia | reflexivity]).
    apply IH in R; [exact R | exact E].
  - inversion R; subst; clear R. split; [lia | reflexivity].
Qed.

Lemma low_access_result fuel dbus (t : target H) r t' :
  riscv_dtm_low_access fuel dbus t = Ok r t' ->
  0 <= r < 2 ^ 34 /\ (error (priv t') = true -> r = 0).
Proof.
  rewrite low_access_unfold. destruct (error (priv t)) eqn:E.
  - intros R. inversion R; subst. split; [lia | reflexivity].
  - now apply low_access_retry_result.
Qed.

Lemma read_result fuel addr (t : target H) r t' :
  riscv_dtm_read fuel addr t = Ok r t' ->
  0 <= r < 2 ^ 34 /\ (error (priv t') = true -> r = 0).
Proof.
  unfold riscv_dtm_read. intros R.
  apply bind_inv in R as (r0 & t0 & _ & R).
  now apply low_access_result in R.
Qed.

Lemma exec_poll_result fuel count n : forall (t : target H) r t',
  exec_poll fuel count n t = Ok r t' ->
  0 <= r < 2 ^ 34 /\ (error (priv t') = true -> r = 0).
Proof.
  induction n as [|n IH]; intros t r t' R; [discriminate|].
  cbn [exec_poll] in R. apply bind_inv in R as (r0 & t0 & R0 & R).
  destruct (Z.eqb _ _).
  - inversion R; subst. now apply read_result in R0.
  - now apply IH in R.
Qed.

Lemma exec_result fuel code count (t : target H) r t' :
  riscv_debug_ram_exec fuel code count t = Ok r t' ->
  0 <= r < 2 ^ 32 /\ (error (priv t') = true -> r = 0).
Proof.
  unfold riscv_debug_ram_exec. intros R.
  apply bind_inv in R as (i & t0 & _ & R).
  apply bind_inv in R as ([] & t1 & _ & R).
  apply bind_inv in R as (d & t2 & P & R).
  inversion R; subst; clear R.
  apply exec_poll_result in P as [_ Z0]. split.
  - apply Z.mod_pos_bound. lia.
  - intros E. now rewrite (Z0 E).
Qed.

(** X1.  Whatever the chain answers, a dbus access and a dbus read return
    a 34-bit value and the executor a 32-bit one; and when any of them
    leaves the sticky error flag set, the value it returned is 0. *)
Theorem link_results_bounded (fuel : nat) (t : target H) :
  (forall dbus,
     match riscv_dtm_low_access fuel dbus t with
     | Ok r t' => 0 <= r < 2 ^ 34 /\ (error (priv t') = true -> r = 0)
     | _ => True
     end) /\
  (forall addr,
     match riscv_dtm_read fuel addr t with
     | Ok r t' => 0 <= r < 2 ^ 34 /\ (error (priv t') = true -> r = 0)
     | _ => True
     end) /\
  (forall code count,
     match riscv_debug_ram_exec fuel code count t with
     | Ok r t' => 0 <= r < 2 ^ 32 /\ (error (priv t') = true -> r = 0)
     | _ => True
     end).
Proof.
  split; [|split].
  - intros dbus. destruct (riscv_dtm_low_access fuel dbus t) eqn:R; trivial.
    now apply low_access_result in R.
  - intros addr. destruct (riscv_dtm_read fuel addr t) eqn:R; trivial.
    now apply read_result in R.
  - intros code count.
    destruct (riscv_debug_ram_exec fuel code count t) as [r t'| |] eqn:R;
      trivial.
    now apply exec_result in R.
Qed.

(** ** The selected instruction register *)

Lemma selected_ir_app l1 l2 ir :
  selected_ir (l1 ++ l2) ir = selected_ir l2 (selected_ir l1 ir).
Proof.
  revert ir. induction l1 as [|e l1 IH]; intros ir; [reflexivity|].
  destruct e; cbn [app selected_ir]; apply IH.
Qed.

Lemma dbus_bind {A B : Type} (m : M H A) (k : A -> M H B) :
  keeps_dbus m -> (forall a, keeps_dbus (k a)) -> keeps_dbus (bind m k).
Proof.
  intros Hm Hk ir t b t2 E R. apply bind_inv in R as (a & t1 & R1 & R2).
  eapply Hk; [eapply Hm; eassumption | eassumption].
Qed.

Lemma dbus_ret {A : Type} (a : A) : keeps_dbus (ret (H := H) a).
Proof. intros ir t b t' E R. now inversion R; subst. Qed.

Lemma dbus_gets {A : Type} (f : riscv_dtm -> A) :
  keeps_dbus (gets (H := H) f).
Proof. intros ir t b t' E R. now inversion R; subst. Qed.

Lemma dbus_assert b : keeps_dbus (assert (H := H) b).
Proof.
  intros ir t u t' E R. unfold assert in R.
  destruct b; now inversion R; subst.
Qed.

Lemma dbus_modify f : keeps_dbus (modify (H := H) f).
Proof. intros ir t u t' E R. now inversion R; subst. Qed.

Lemma dbus_set_halt_requested b :
  keeps_dbus (set_halt_requested (H := H) b).
Proof. apply dbus_modify. Qed.

Lemma low_access_retry_dbus fuel dbus :
  keeps_dbus (low_access_retry (H := H) fuel dbus).
Proof.
  induction fuel as [|fuel IH]; intros ir t r t' E R; [discriminate|].
  rewrite low_access_retry_unfold in R. cbv zeta in R.
  destruct (Z.land (dr_capture t dbus (36 + abits (priv t))) 3)
    as [|p|p].
  - inversion R; subst; clear R. cbn [jtag_log].
    now rewrite selected_ir_app.
  - destruct p as [[p|p|]|[p|p|]|];
      try (inversion R; subst; clear R; cbn [jtag_log];
           now rewrite selected_ir_app).
    eapply IH in R; [exact R|]. cbn [jtag_log].
    now rewrite selected_ir_app.
  - inversion R; subst; clear R. cbn [jtag_log].
    now rewrite selected_ir_app.
Qed.

Lemma low_access_dbus fuel dbus :
  keeps_dbus (riscv_dtm_low_access (H := H) fuel dbus).
Proof.
  intros ir t r t' E R. rewrite low_access_unfold in R.
  destruct (error (priv t)).
  - now inversion R; subst.
  - eapply low_access_retry_dbus; eassumption.
Qed.

Create HintDb dbus discriminated.

#[local] Hint Resolve dbus_ret dbus_gets dbus_assert dbus_modify
  dbus_set_halt_requested low_access_dbus : dbus.

Ltac dbus :=
  repeat match goal with
    | |- keeps_dbus (if ?b then _ else _) => destruct b
    | |- keeps_dbus (match ?x with _ => _ end) => destruct x
    | |- keeps_dbus (bind _ _) => apply dbus_bind; [|intros ?]
    | |- keeps_dbus _ => solve [auto with dbus]
    end.

Lemma write_dbus fuel addr data :
  keeps_dbus (riscv_dtm_write (H := H) fuel addr data).
Proof. unfold riscv_dtm_write. dbus. Qed.

Lemma read_dbus fuel addr :
  keeps_dbus (riscv_dtm_read (H := H) fuel addr).
Proof. unfold riscv_dtm_read. dbus. Qed.

#[local] Hint Resolve write_dbus read_dbus : dbus.

Lemma exec_stage_dbus fuel code n : forall i,
  keeps_dbus (exec_stage (H := H) fuel code n i).
Proof. induction n as [|n IH]; intros i; cbn [exec_stage]; dbus. Qed.

Lemma exec_poll_dbus fuel count n :
  keeps_dbus (exec_poll (H := H) fuel count n).
Proof.
  induction n as [|n IH]; cbn [exec_poll]; [|dbus].
  intros ir t a t' _ R. discriminate.
Qed.

#[local] Hint Resolve exec_stage_dbus exec_poll_dbus : dbus.

Lemma exec_dbus fuel code count :
  keeps_dbus (riscv_debug_ram_exec (H := H) fuel code count).
Proof. unfold riscv_debug_ram_exec. dbus. Qed.

#[local] Hint Resolve exec_dbus : dbus.

Lemma mem_read32_dbus fuel addr :
  keeps_dbus (riscv_mem_read32 (H := H) fuel addr).
Proof. unfold riscv_mem_read32. cbv zeta. dbus. Qed.

Lemma mem_write32_dbus fuel addr val :
  keeps_dbus (riscv_mem_write32 (H := H) fuel addr val).
Proof. unfold riscv_mem_write32. cbv zeta. dbus. Qed.

Lemma gpreg_read_dbus fuel reg :
  keeps_dbus (riscv_gpreg_read (H := H) fuel reg).
Proof. unfold riscv_gpreg_read. cbv zeta. dbus. Qed.

Lemma gpreg_write_dbus fuel reg val :
  keeps_dbus (riscv_gpreg_write (H := H) fuel reg val).
Proof. unfold riscv_gpreg_write. cbv zeta. dbus. Qed.

Lemma csreg_read_dbus fuel csr :
  keeps_dbus (riscv_csreg_read (H := H) fuel csr).
Proof. unfold riscv_csreg_read. cbv zeta. dbus. Qed.

Lemma csreg_write_dbus fuel csr val :
  keeps_dbus (riscv_csreg_write (H := H) fuel csr val).
Proof. unfold riscv_csreg_write. cbv zeta. dbus. Qed.

#[local] Hint Resolve mem_read32_dbus mem_write32_dbus gpreg_read_dbus
  gpreg_write_dbus csreg_read_dbus csreg_write_dbus : dbus.

Lemma mem_read_loop_dbus fuel n : forall src,
  keeps_dbus (mem_read_loop (H := H) fuel src n).
Proof. induction n as [|n IH]; intros src; cbn [mem_read_loop]; dbus. Qed.

Lemma mem_write_loop_dbus fuel s n : forall dest k,
  keeps_dbus (mem_write_loop (H := H) fuel dest s k n).
Proof.
  induction n as [|n IH]; intros dest k; cbn [mem_write_loop]; dbus.
Qed.

Lemma regs_write_reg_dbus fuel i v :
  keeps_dbus (regs_write_reg (H := H) fuel i v).
Proof. unfold regs_write_reg. dbus. Qed.

#[local] Hint Resolve regs_write_reg_dbus : dbus.

Lemma regs_write_loop_dbus fuel reg n : forall i,
  keeps_dbus (regs_write_loop (H := H) fuel reg i n).
Proof.
  induction n as [|n IH]; intros i; cbn [regs_write_loop]; dbus.
Qed.

Lemma breakwatch_walk_dbus fuel n : forall i,
  keeps_dbus (breakwatch_walk (H := H) fuel n i).
Proof.
  induction n as [|n IH]; intros i; cbn [breakwatch_walk]; [|dbus].
  intros ir t a t' _ R. discriminate.
Qed.

#[local] Hint Resolve mem_read_loop_dbus mem_write_loop_dbus
  regs_write_loop_dbus breakwatch_walk_dbus : dbus.

Lemma run_op_dbus fuel op : keeps_dbus (run_op (H := H) fuel op).
Proof.
  destruct op; cbn [run_op];
    unfold riscv_mem_read, riscv_mem_write, riscv_attach, riscv_detach,
      riscv_reg_read, riscv_regs_write, riscv_reset, riscv_halt_request,
      riscv_halt_resume, riscv_halt_poll, riscv_breakwatch_set,
      riscv_breakwatch_clear; cbv zeta; dbus.
Qed.

(** X2.  With DBUS the selected instruction register, every dbus access
    and every target operation other than check-error leaves DBUS selected
    when it returns: the only other register the link selects is DTMCONTROL,
    in a status-3 recovery, and it reselects DBUS before it goes on. *)
Theorem ir_stays_dbus (fuel : nat) (ir : Z) (t : target H) :
  selected_ir (jtag_log t) ir = RISCV_IR_DBUS ->
  (forall dbus r t',
     riscv_dtm_low_access fuel dbus t = Ok r t' ->
     selected_ir (jtag_log t') ir = RISCV_IR_DBUS) /\
  (forall op r t',
     run_op fuel op t = Ok r t' ->
     selected_ir (jtag_log t') ir = RISCV_IR_DBUS).
Proof.
  intros E. split.
  - intros dbus r t' R. eapply low_access_dbus; eassumption.
  - intros op r t' R. eapply run_op_dbus; eassumption.
Qed.

(** X3.  [riscv_check_error] resets the bus through DTMCONTROL and does not
    reselect DBUS: when it has cleared the flag, DTMCONTROL is the selected
    register, and the dbus access that follows shifts its word with
    DTMCONTROL still selected (unless the captured word reads as
    status 3). *)
Theorem check_error_leaves_dtmcontrol (ir : Z) (t : target H) :
  error (priv t) = true ->
  exists t1,
    riscv_check_error t = Ok true t1 /\
    selected_ir (jtag_log t1) ir = RISCV_IR_DTMCONTROL /\
    forall fuel dbus,
      Z.land (dr_capture t1 dbus (36 + abits (priv t1))) 3 <> 3 ->
      exists r t2,
        riscv_dtm_low_access (S fuel) dbus t1 = Ok r t2 /\
        selected_ir (jtag_log t2) ir = RISCV_IR_DTMCONTROL /\
        exists rest,
          jtag_log t2 = jtag_log t ++
            WriteIR RISCV_IR_DTMCONTROL ::
            ShiftDR 32 RISCV_DTMCONTROL_DBUSRESET ::
            ShiftDR (36 + abits (priv t)) dbus :: rest /\
          (rest = [] \/ rest = [TmsSeq 0 (idle (priv t))]).
Proof.
  intros E. destruct t as [d h l]. cbn [priv] in E.
  cbv [riscv_check_error riscv_dtm_reset bind gets ret jtag_dev_write_ir
       jtag_dev_shift_dr set_error modify].
  cbn [priv dev jtag_log]. rewrite E. cbn [priv dev jtag_log].
  destruct (tap_shift_dr (tap_write_ir h RISCV_IR_DTMCONTROL)
              RISCV_DTMCONTROL_DBUSRESET 32) as [h1 r1].
  eexists. split; [reflexivity|]. cbn [priv dev jtag_log error abits idle].
  split.
  - rewrite !selected_ir_app. reflexivity.
  - intros fuel dbus S3.
    rewrite low_access_unfold. cbn [priv error].
    rewrite low_access_retry_unfold. cbv zeta.
    cbn [priv dev jtag_log abits idle] in *.
    destruct (Z.land _ 3) as [|p|p] eqn:St.
    + do 2 eexists. split; [reflexivity|]. cbn [jtag_log]. split.
      * rewrite !selected_ir_app. reflexivity.
      * eexists. split; [|right; reflexivity].
        rewrite <- !app_assoc. reflexivity.
    + destruct p as [[p|p|]|[p|p|]|]; try congruence;
        (do 2 eexists; split; [reflexivity|]; cbn [jtag_log]; split;
         [ rewrite !selected_ir_app; reflexivity
         | eexists; split; [|left; reflexivity];
           rewrite <- !app_assoc; reflexivity ]).
    + do 2 eexists. split; [reflexivity|]. cbn [jtag_log]. split.
      * rewrite !selected_ir_app. reflexivity.
      * eexists. split; [|left; reflexivity].
        rewrite <- !app_assoc. reflexivity.
Qed.

(** ** The scan handler *)

(** What a dbus read leaves of the driver state. *)
Lemma read_frame fuel addr (t : target H) r t' :
  riscv_dtm_read fuel addr t = Ok r t' ->
  version (priv t') = version (priv t) /\
  abits (priv t') = abits (priv t) /\
  idle (priv t') = idle (priv t) /\
  dramsize (priv t') = dramsize (priv t) /\
  halt_requested (priv t') = halt_requested (priv t) /\
  (error (priv t') = false ->
   error (priv t) = false /\ lastdbus (priv t') = RISCV_DBUS_NOP).
Proof.
  unfold riscv_dtm_read. intros R.
  apply bind_inv in R as (r0 & t0 & R0 & R1).
  apply low_access_frame in R0, R1.
  destruct (error (priv t')) eqn:E1; destruct (error (priv t0)) eqn:E0;
    rewrite R1, R0; cbn; repeat split; try discriminate.
  all: rewrite R1 in E1; cbn in E1; try congruence.
  rewrite R0 in E0. cbn in E0. exact E0.
Qed.

Lemma abits_field_bound d : 0 <= dtmcontrol_abits d <= 63.
Proof.
  unfold dtmcontrol_abits, u8.
  assert (B : 0 <= Z.lor (Z.shiftl (Z.land (Z.shiftr d 13) 3) 4)
                         (Z.land (Z.shiftr d 4) 15) < 2 ^ 6).
  { apply lor_bound; [lia| |].
    - change (Z.land (Z.shiftr d 13) 3)
        with (Z.land (Z.shiftr d 13) (Z.ones 2)).
      rewrite Z.land_ones, Z.shiftl_mul_pow2 by lia.
      pose proof (Z.mod_pos_bound (Z.shiftr d 13) (2 ^ 2)). lia.
    - change (Z.land (Z.shiftr d 4) 15)
        with (Z.land (Z.shiftr d 4) (Z.ones 4)).
      rewrite Z.land_ones by lia.
      pose proof (Z.mod_pos_bound (Z.shiftr d 4) (2 ^ 4)). lia. }
  rewrite Z.mod_small; lia.
Qed.

Lemma idle_field_bound d : 0 <= dtmcontrol_idle d <= 7.
Proof.
  unfold dtmcontrol_idle, u8.
  change (Z.land (Z.shiftr d 10) 7)
    with (Z.land (Z.shiftr d 10) (Z.ones 3)).
  rewrite Z.land_ones by lia.
  pose proof (Z.mod_pos_bound (Z.shiftr d 10) (2 ^ 3)).
  rewrite Z.mod_small; lia.
Qed.

Lemma dramsize_field_bound d : 0 <= dminfo_dramsize d <= 63.
Proof.
  unfold dminfo_dramsize, u8.
  change (Z.land (Z.shiftr d 10) 0x3f)
    with (Z.land (Z.shiftr d 10) (Z.ones 6)).
  rewrite Z.land_ones by lia.
  pose proof (Z.mod_pos_bound (Z.shiftr d 10) (2 ^ 6)).
  rewrite Z.mod_small; lia.
Qed.

(** X4.  Whenever [riscv_jtag_handler] goes on to create a target, the
    driver state it hands over has version 0, [abits] in 0..63, [idle] in
    0..7, [dramsize] in 0..63, the sticky error flag clear (a dminfo read
    that failed reads as 0 and is refused), no halt requested, NOP as the
    last dbus word, and DBUS as the selected instruction register; and this
    whatever the handler's local state held before. *)
Theorem handler_target (fuel : nat) (ir : Z) (t : target H) :
  match riscv_jtag_handler fuel t with
  | Ok true t' =>
      version (priv t') = 0 /\
      0 <= abits (priv t') <= 63 /\
      0 <= idle (priv t') <= 7 /\
      0 <= dramsize (priv t') <= 63 /\
      error (priv t') = false /\
      halt_requested (priv t') = false /\
      lastdbus (priv t') = RISCV_DBUS_NOP /\
      selected_ir (jtag_log t') ir = RISCV_IR_DBUS
  | _ => True
  end.
Proof.
  destruct (riscv_jtag_handler fuel t) as [[|] t'| |] eqn:R; trivial.
  unfold riscv_jtag_handler in R.
  apply bind_inv in R as ([] & t1 & R1 & R).
  apply bind_inv in R as (r & t2 & R2 & R).
  cbv zeta in R.
  destruct (Z.ltb 0 (dtmcontrol_version (u32 r))); [discriminate|].
  apply bind_inv in R as ([] & t3 & R3 & R).
  apply bind_inv in R as ([] & t4 & R4 & R).
  apply bind_inv in R as ([] & t5 & R5 & R).
  apply bind_inv in R as ([] & t6 & R6 & R).
  apply bind_inv in R as ([] & t7 & R7 & R).
  apply bind_inv in R as (v & t8 & R8 & R).
  destruct (Z.eqb (dminfo_version (u32 v)) 1) eqn:V; [|discriminate].
  destruct (Z.eqb (dminfo_authenticated (u32 v)) 1); [|discriminate].
  cbn [negb] in R.
  apply bind_inv in R as ([] & t9 & R9 & R).
  inversion R; subst t9; clear R.
  assert (P7 : priv t7 =
               {| version := 0; abits := dtmcontrol_abits (u32 r);
                  idle := dtmcontrol_idle (u32 r); dramsize := 0;
                  error := false; lastdbus := 0; halt_requested := false |}
               /\ selected_ir (jtag_log t7) ir = RISCV_IR_DBUS).
  { inversion R3; subst t3; clear R3. inversion R4; subst t4; clear R4.
    inversion R5; subst t5; clear R5.
    unfold riscv_dtm_reset in R6.
    apply bind_inv in R6 as ([] & u1 & U1 & R6).
    apply bind_inv in R6 as (x & u2 & U2 & R6).
    inversion R6; subst u2; clear R6.
    inversion U1; subst u1; clear U1.
    unfold jtag_dev_shift_dr in U2. cbn [priv dev jtag_log] in U2.
    destruct (tap_shift_dr _ _ _) as [h1 x1] in U2.
    inversion U2; subst t6; clear U2.
    inversion R7; subst t7; clear R7. cbn [priv jtag_log].
    split; [reflexivity|]. now rewrite selected_ir_app. }
  destruct P7 as [P7 I7].
  pose proof (read_frame _ _ _ _ _ R8) as (F1 & F2 & F3 & F4 & F5 & F6).
  pose proof (read_dbus _ _ _ _ _ _ I7 R8) as I8.
  assert (E8 : error (priv t8) = false).
  { destruct (error (priv t8)) eqn:E8; [|reflexivity].
    apply read_result in R8 as [_ Z0]. rewrite (Z0 E8) in V.
    discriminate V. }
  destruct (F6 E8) as [_ L8].
  inversion R9; subst t'; clear R9. cbn [priv jtag_log version abits idle
    dramsize error halt_requested lastdbus].
  rewrite F1, F2, F3, F5, E8, L8, P7. cbn.
  pose proof (abits_field_bound (u32 r)).
  pose proof (idle_field_bound (u32 r)).
  pose proof (dramsize_field_bound (u32 v)).
  repeat split; try lia; exact I8.
Qed.

(** X5.  A DTM that reports a version other than 0 is refused after the one
    32-bit shift that read DTMCONTROL: the handler returns without creating
    a target, with no dbus access and whatever the fuel, and leaves its
    local state untouched. *)
Theorem handler_refuses_version (fuel : nat) (t : target H) :
  let h := tap_write_ir (dev t) RISCV_IR_DTMCONTROL in
  let dtmcontrol := u32 (u64 (snd (tap_shift_dr h 0 32))) in
  Z.land dtmcontrol 0xf <> 0 ->
  riscv_jtag_handler fuel t =
  Ok false {| priv := priv t;
              dev := fst (tap_shift_dr h 0 32);
              jtag_log := jtag_log t ++
                [WriteIR RISCV_IR_DTMCONTROL; ShiftDR 32 0] |}.
Proof.
  cbv zeta. intros V. destruct t as [d h l].
  cbv [riscv_jtag_handler bind jtag_dev_write_ir jtag_dev_shift_dr ret].
  cbn [priv dev jtag_log] in *.
  destruct (tap_shift_dr (tap_write_ir h RISCV_IR_DTMCONTROL) 0 32)
    as [h1 r1].
  cbn [fst snd] in *.
  assert (L : Z.ltb 0 (dtmcontrol_version (u32 (u64 r1))) = true).
  { apply Z.ltb_lt. unfold dtmcontrol_version, u8.
    change (Z.land (u32 (u64 r1)) 0xf)
      with (Z.land (u32 (u64 r1)) (Z.ones 4)) in *.
    rewrite Z.land_ones in * by lia.
    pose proof (Z.mod_pos_bound (u32 (u64 r1)) (2 ^ 4)).
    rewrite Z.mod_small; lia. }
  rewrite L. now rewrite <- app_assoc.
Qed.

(** ** Target operations under the sticky error *)

Ltac tests :=
  repeat match goal with
    | |- context [Z.eqb ?a ?b] =>
        first [ rewrite (proj2 (Z.eqb_eq a b)) by lia
              | rewrite (proj2 (Z.eqb_neq a b)) by lia ]
    | |- context [Z.leb ?a ?b] =>
        first [ rewrite (proj2 (Z.leb_le a b)) by lia
              | rewrite (proj2 (Z.leb_gt a b)) by lia ]
    end;
  cbn [andb orb negb].

Lemma csreg_read_sticky fuel csr (t : target H) :
  error (priv t) = true -> riscv_csreg_read (S fuel) csr t = Ok 0 t.
Proof. intros E. unfold riscv_csreg_read. cbv zeta. now apply exec_sticky. Qed.

Lemma gpreg_read_sticky fuel reg (t : target H) :
  error (priv t) = true -> riscv_gpreg_read (S fuel) reg t = Ok 0 t.
Proof. intros E. unfold riscv_gpreg_read. cbv zeta. now apply exec_sticky. Qed.

Lemma mem_read32_sticky fuel addr (t : target H) :
  error (priv t) = true -> riscv_mem_read32 (S fuel) addr t = Ok 0 t.
Proof. intros E. unfold riscv_mem_read32. cbv zeta. now apply exec_sticky. Qed.

Lemma csreg_write_sticky fuel csr val (t : target H) :
  error (priv t) = true -> riscv_csreg_write (S fuel) csr val t = Ok tt t.
Proof.
  intros E. unfold riscv_csreg_write. cbv zeta.
  now rewrite (bind_ok _ _ _ _ _ (exec_sticky _ _ _ t E)).
Qed.

Lemma mem_read_loop_sticky fuel n (t : target H) :
  error (priv t) = true ->
  forall src, mem_read_loop (S fuel) src n t = Ok (repeat 0 n) t.
Proof.
  intros E. induction n as [|n IH]; intros src; cbn [mem_read_loop repeat].
  - reflexivity.
  - rewrite (bind_ok _ _ _ _ _ (mem_read32_sticky _ _ t E)).
    now rewrite (bind_ok _ _ _ _ _ (IH _)).
Qed.

(** X6.  While the sticky error flag is set the reading operations do no
    JTAG I/O and report a hart at rest: [riscv_halt_poll] returns RUNNING
    whether or not a halt was requested, [riscv_reg_read] stores 0 for
    every mapped register, and an aligned [riscv_mem_read] returns [len / 4]
    zero words. *)
Theorem error_masks_reads (fuel : nat) (t : target H) :
  error (priv t) = true ->
  riscv_halt_poll (S fuel) t = Ok TARGET_HALT_RUNNING t /\
  (forall reg data,
     0 <= reg <= 32 \/ 65 <= reg <= 65 + 4095 ->
     riscv_reg_read (S fuel) reg data t = Ok (4, 0) t) /\
  (forall src len,
     Z.land src 3 = 0 -> Z.land len 3 = 0 ->
     riscv_mem_read (S fuel) src len t =
       Ok (repeat 0 (Z.to_nat (len / 4))) t).
Proof.
  intros E. split; [|split].
  - rewrite (halt_poll_unfold _ _ _ _ (read_sticky _ _ t E)).
    destruct (halt_requested (priv t)); cbn [negb andb]; [|reflexivity].
    now rewrite (bind_ok _ _ _ _ _ (csreg_read_sticky _ _ t E)).
  - intros reg data Hr. unfold riscv_reg_read. unfold bind at 1, gets.
    assert (C : reg = 0 \/ reg = 8 \/ reg = 9 \/ reg = 32 \/
                65 <= reg <= 65 + 4095 \/
                (1 <= reg <= 7 \/ 10 <= reg <= 31)) by lia.
    destruct C as [->|[->|[->|[->|[C|[C|C]]]]]]; tests.
    + reflexivity.
    + now rewrite (bind_ok _ _ _ _ _ (csreg_read_sticky _ _ t E)).
    + rewrite bind_ret_map.
      now rewrite (bind_ok _ _ _ _ _ (read_sticky _ _ t E)).
    + now rewrite (bind_ok _ _ _ _ _ (csreg_read_sticky _ _ t E)).
    + now rewrite (bind_ok _ _ _ _ _ (csreg_read_sticky _ _ t E)).
    + now rewrite (bind_ok _ _ _ _ _ (gpreg_read_sticky _ _ t E)).
    + now rewrite (bind_ok _ _ _ _ _ (gpreg_read_sticky _ _ t E)).
  - intros src len Hs Hl. unfold riscv_mem_read, bind at 1 2, assert.
    rewrite Hs, Hl. cbn [Z.eqb]. now apply mem_read_loop_sticky.
Qed.

(** X7.  While the sticky error flag is set [riscv_breakwatch_set] of a
    supported kind returns -1, as if the hart had no trigger slot, and
    [riscv_breakwatch_clear] returns 0 without having cleared anything:
    neither does any JTAG I/O nor changes the breakwatch. *)
Theorem error_fails_breakwatch (fuel : nat) (bw : breakwatch)
  (t : target H) :
  error (priv t) = true ->
  bw_type bw <> TARGET_BREAK_SOFT ->
  riscv_breakwatch_set (S fuel) bw t = Ok (-1, bw) t /\
  riscv_breakwatch_clear (S fuel) bw t = Ok 0 t.
Proof.
  intros E Hty. split.
  - apply walk_failure_returns; [exact Hty|].
    exists 0, t. split; [now apply csreg_read_sticky|]. split; [|reflexivity].
    cbn [breakwatch_walk].
    rewrite (bind_ok _ _ _ _ _ (csreg_write_sticky _ _ _ t E)).
    rewrite (bind_ok _ _ _ _ _ (csreg_read_sticky _ _ t E)).
    cbn [Z.eqb negb].
    now rewrite (bind_ok _ _ _ _ _ (csreg_read_sticky _ _ t E)).
  - unfold riscv_breakwatch_clear. cbv zeta.
    rewrite (bind_ok _ _ _ _ _ (csreg_read_sticky _ _ t E)).
    now rewrite !(bind_ok _ _ _ _ _ (csreg_write_sticky _ _ _ t E)).
Qed.

(** ** Memory access *)

Lemma land3_mod4 x : Z.land x 3 = x mod 4.
Proof. change 3 with (Z.ones 2). now rewrite Z.land_ones by lia. Qed.

Lemma u32_idem x : u32 (u32 x) = u32 x.
Proof. unfold u32. apply Z.mod_mod. lia. Qed.

Lemma u32_add_l x y : u32 (u32 x + y) = u32 (x + y).
Proof. unfold u32. apply Zplus_mod_idemp_l. Qed.

Lemma mem_read32_u32 fuel addr (t : target H) :
  riscv_mem_read32 fuel (u32 addr) t = riscv_mem_read32 fuel addr t.
Proof. unfold riscv_mem_read32. now rewrite u32_idem. Qed.

Lemma mem_read_loop_u32 fuel n src (t : target H) :
  mem_read_loop fuel (u32 src) n t = mem_read_loop fuel src n t.
Proof.
  destruct n as [|n]; cbn [mem_read_loop]; [reflexivity|].
  unfold bind. now rewrite mem_read32_u32, u32_add_l.
Qed.

Lemma mem_read_loop_app fuel m : forall n src (t : target H),
  mem_read_loop fuel src (m + n) t =
  (a <- mem_read_loop fuel src m ;;
   b <- mem_read_loop fuel (u32 (src + 4 * Z.of_nat m)) n ;;
   ret (a ++ b)) t.
Proof.
  induction m as [|m IH]; intros n src t.
  - cbn [Nat.add mem_read_loop]. unfold bind, ret.
    replace (src + 4 * Z.of_nat 0) with src by lia.
    rewrite mem_read_loop_u32.
    now destruct (mem_read_loop fuel src n t).
  - cbn [Nat.add mem_read_loop]. unfold bind, ret.
    destruct (riscv_mem_read32 fuel src t) as [v t1| |]; try reflexivity.
    rewrite IH. unfold bind, ret.
    replace (u32 (u32 (src + 4) + 4 * Z.of_nat m))
      with (u32 (src + 4 * Z.of_nat (S m)))
      by (rewrite u32_add_l; f_equal; lia).
    destruct (mem_read_loop fuel (u32 (src + 4)) m t1) as [a t2| |];
      try reflexivity.
    now destruct (mem_read_loop fuel _ n t2).
Qed.



(** X9.  Reading [len1 + len2] bytes at [src] is reading [len1] bytes at
    [src] and then [len2] bytes at [src + len1] (modulo 2^32), with the same
    JTAG traffic and the words of the two reads one after the other. *)
Theorem mem_read_split (fuel : nat) (src len1 len2 : Z) (t : target H) :
  Z.land src 3 = 0 ->
  0 <= len1 -> Z.land len1 3 = 0 ->
  0 <= len2 -> Z.land len2 3 = 0 ->
  riscv_mem_read fuel src (len1 + len2) t =
  (a <- riscv_mem_read fuel src len1 ;;
   b <- riscv_mem_read fuel (u32 (src + len1)) len2 ;;
   ret (a ++ b)) t.
Proof.
  intros Hs H1 A1 H2 A2.
  pose proof Hs as Hs'. pose proof A1 as A1'. pose proof A2 as A2'.
  rewrite land3_mod4 in Hs', A1', A2'.
  assert (A12 : Z.land (len1 + len2) 3 = 0)
    by (rewrite land3_mod4; Z.div_mod_to_equations; lia).
  assert (As : Z.land (u32 (src + len1)) 3 = 0).
  { rewrite land3_mod4. unfold u32. change (2 ^ 32) with 4294967296.
    Z.div_mod_to_equations. lia. }
  assert (N : Z.to_nat ((len1 + len2) / 4) =
              (Z.to_nat (len1 / 4) + Z.to_nat (len2 / 4))%nat)
    by (Z.div_mod_to_equations; lia).
  assert (L : 4 * Z.of_nat (Z.to_nat (len1 / 4)) = len1)
    by (Z.div_mod_to_equations; lia).
  unfold riscv_mem_read. unfold bind at 1 2 3 4 5 6 7, assert.
  rewrite Hs, A12, A1, As, A2. cbn [Z.eqb].
  rewrite N, mem_read_loop_app, L. reflexivity.
Qed.

Lemma mem_write32_any_val fuel addr val val' (t : target H) :
  riscv_mem_write32 fuel addr val t = riscv_mem_write32 fuel addr val' t.
Proof.
  unfold riscv_mem_write32. cbv zeta. unfold bind.
  rewrite (exec_ext fuel _
             [0x41002403; 0x41402483; 0x942023; 0x3f80006f;
              u32 addr; u32 val']); [reflexivity | lia |].
  intros j Hj.
  assert (Hc : j = 0 \/ j = 1 \/ j = 2 \/ j = 3 \/ j = 4) by lia.
  destruct Hc as [->|[->|[->|[->| ->]]]]; reflexivity.
Qed.

(** X10.  What [riscv_mem_write] does, its JTAG traffic and its outcome,
    does not depend on the bytes it is given to write: the words of the
    source buffer never reach the link. *)
Theorem mem_write_ignores_data (fuel : nat) (dest : Z) (src src' : list Z)
  (len : Z) (t : target H) :
  riscv_mem_write fuel dest src len t = riscv_mem_write fuel dest src' len t.
Proof.
  unfold riscv_mem_write, bind.
  destruct (assert _ t) as [[] t1| |]; try reflexivity.
  destruct (assert _ t1) as [[] t2| |]; try reflexivity.
  generalize (Z.to_nat (len / 4)) as n. generalize 0 as k.
  revert dest t2. intros dest t2 k n. revert dest k t2.
  induction n as [|n IH]; intros dest k t2; cbn [mem_write_loop];
    [reflexivity|].
  unfold bind.
  rewrite (mem_write32_any_val fuel dest (idx src k) (idx src' k)).
  destruct (riscv_mem_write32 fuel dest (idx src' k) t2); try reflexivity.
  apply IH.
Qed.

(** ** Halt requests and the poll *)

Lemma cause_running dcsr :
  match u8 (Z.land (Z.shiftr dcsr 6) 7) with
  | 0 => TARGET_HALT_RUNNING
  | 1 => TARGET_HALT_BREAKPOINT
  | 2 => TARGET_HALT_BREAKPOINT
  | 3 => TARGET_HALT_REQUEST
  | 4 => TARGET_HALT_STEPPING
  | 5 => TARGET_HALT_REQUEST
  | _ => TARGET_HALT_ERROR
  end = TARGET_HALT_RUNNING <-> Z.land (Z.shiftr dcsr 6) 7 = 0.
Proof.
  destruct (land7_cases (Z.shiftr dcsr 6))
    as [E|[E|[E|[E|[E|[E|[E|E]]]]]]];
    cbv zeta in E; rewrite E; cbn; split; intros; try reflexivity;
    discriminate.
Qed.

(** X11.  The driver's own record of a halt request decides whether the
    poll trusts HALTNOT.  After [riscv_halt_request] has returned the record
    is set, and [riscv_halt_poll] reads dcsr whatever dmcontrol shows,
    returning RUNNING exactly when the cause field is 0; after
    [riscv_halt_resume] has returned the record is clear, and with HALTNOT
    clear the poll returns RUNNING from the dmcontrol read alone. *)
Theorem halt_request_gates_poll (fuel : nat) (t : target H) :
  (forall t1,
     riscv_halt_request fuel t = Ok tt t1 ->
     halt_requested (priv t1) = true /\
     forall dmcontrol t2 dcsr t3,
       riscv_dtm_read fuel RISCV_DMCONTROL t1 = Ok dmcontrol t2 ->
       riscv_csreg_read fuel RISCV_DCSR t2 = Ok dcsr t3 ->
       exists reason,
         riscv_halt_poll fuel t1 = Ok reason t3 /\
         (reason = TARGET_HALT_RUNNING <->
          Z.land (Z.shiftr dcsr 6) 7 = 0)) /\
  (forall step t1,
     riscv_halt_resume fuel step t = Ok tt t1 ->
     halt_requested (priv t1) = false /\
     forall dmcontrol t2,
       riscv_dtm_read fuel RISCV_DMCONTROL t1 = Ok dmcontrol t2 ->
       Z.testbit dmcontrol 32 = false ->
       riscv_halt_poll fuel t1 = Ok TARGET_HALT_RUNNING t2).
Proof.
  split.
  - intros t1 R. unfold riscv_halt_request in R. cbv zeta in R.
    apply bind_inv in R as (r & t0 & _ & R).
    assert (Hq : halt_requested (priv t1) = true)
      by (inversion R; reflexivity).
    split; [exact Hq|].
    intros dmcontrol t2 dcsr t3 Rd Rc.
    rewrite (halt_poll_unfold _ _ _ _ Rd), Hq. cbn [negb andb].
    rewrite (bind_ok _ _ _ _ _ Rc). unfold ret.
    eexists. split; [reflexivity | apply cause_running].
  - intros step t1 R. unfold riscv_halt_resume in R. cbv zeta in R.
    apply bind_inv in R as (r & t0 & _ & R).
    assert (Hq : halt_requested (priv t1) = false)
      by (inversion R; reflexivity).
    split; [exact Hq|].
    intros dmcontrol t2 Rd B.
    now rewrite (halt_poll_unfold _ _ _ _ Rd), Hq, B.
Qed.

(** ** The read pipeline under retry *)

(** X12.  In a dbus read whose arming shift is accepted and whose NOP shift
    is answered status 3, the word the recovery replays is the arming READ
    word: the read is armed again before the NOP is re-issued. *)
Theorem read_retry_rearms (fuel : nat) (addr : Z) (t : target H) :
  let a := abits (priv t) in
  let i := idle (priv t) in
  let rd := Z.lor (u64 (Z.shiftl (u32 addr) 36)) RISCV_DBUS_READ in
  let t1 := {| priv := dtm_with_lastdbus (priv t) rd;
               dev := tap_tms_seq (dr_chain t rd (36 + a)) 0 i;
               jtag_log := jtag_log t ++ [ShiftDR (36 + a) rd; TmsSeq 0 i] |}
  in
  error (priv t) = false ->
  Z.land (dr_capture t rd (36 + a)) 3 = 0 ->
  Z.land (dr_capture t1 RISCV_DBUS_NOP (36 + a)) 3 = 3 ->
  exists t2,
    riscv_dtm_read (S fuel) addr t =
      riscv_dtm_low_access fuel RISCV_DBUS_NOP t2 /\
    lastdbus (priv t2) = rd /\
    jtag_log t2 = jtag_log t ++
      [ShiftDR (36 + a) rd; TmsSeq 0 i;
       ShiftDR (36 + a) RISCV_DBUS_NOP;
       WriteIR RISCV_IR_DTMCONTROL;
       ShiftDR 32 RISCV_DTMCONTROL_DBUSRESET;
       WriteIR RISCV_IR_DBUS;
       ShiftDR (a + 36) rd;
       TmsSeq 0 i].
Proof.
  cbv zeta. intros E S0 S3. unfold riscv_dtm_read.
  rewrite (bind_ok _ _ _ _ _ (low_access_status0 fuel _ t E S0)).
  rewrite (low_access_unfold (S fuel)). cbn [priv dtm_with_lastdbus error].
  rewrite E, low_access_retry_unfold. cbv zeta.
  cbn [priv dev jtag_log abits idle lastdbus dtm_with_lastdbus] in *.
  rewrite S3.
  eexists. split; [|split].
  - match goal with
    | |- low_access_retry _ _ ?u = _ =>
        transitivity (riscv_dtm_low_access fuel RISCV_DBUS_NOP u);
          [rewrite low_access_unfold;
           cbn [priv error dtm_with_lastdbus]; now rewrite E
          |reflexivity]
    end.
  - reflexivity.
  - cbn [jtag_log]. rewrite <- app_assoc. reflexivity.
Qed.

(** ** The GPR write stub *)

Lemma range_forallb (P : Z -> bool) (n : nat) :
  forallb P (map Z.of_nat (seq 0 n)) = true ->
  forall x, 0 <= x < Z.of_nat n -> P x = true.
Proof.
  intros F x Hx. rewrite forallb_forall in F. apply F.
  apply in_map_iff. exists (Z.to_nat x). split; [lia|].
  apply in_seq. lia.
Qed.

(** X13.  The instruction [riscv_gpreg_write] stages for register [rx] is
    not a load into [rx]: it has the store opcode (0x23, width 2), base and
    source register x0, and the offset [0x408 | rx]; [rx] sits in the
    immediate field (bits 11..7) and no instruction of the stub names it as
    a destination. *)
Theorem gpreg_write_stages_a_store (fuel : nat) (rx val : Z)
  (t : target H) :
  0 <= rx < 32 -> 0 <= val < 2 ^ 32 ->
  exists w,
    riscv_gpreg_write fuel rx val t =
      (_ <- riscv_debug_ram_exec fuel [w; 0x4000006f; val] 3 ;; ret tt) t /\
    Z.land w 0x7f = 0x23 /\
    Z.land (Z.shiftr w 12) 7 = 2 /\
    Z.land (Z.shiftr w 15) 31 = 0 /\
    Z.land (Z.shiftr w 20) 31 = 0 /\
    Z.lor (Z.shiftl (Z.shiftr w 25) 5) (Z.land (Z.shiftr w 7) 31)
      = Z.lor 0x408 rx.
Proof.
  intros Hr Hv. exists (Z.lor 0x40002423 (Z.shiftl rx 7)).
  split; [apply (proj1 (proj2 (proj2 (stub_words fuel t)))); assumption|].
  pose proof (range_forallb
    (fun rx =>
       let w := Z.lor 0x40002423 (Z.shiftl rx 7) in
       Z.eqb (Z.land w 0x7f) 0x23 &&
       Z.eqb (Z.land (Z.shiftr w 12) 7) 2 &&
       Z.eqb (Z.land (Z.shiftr w 15) 31) 0 &&
       Z.eqb (Z.land (Z.shiftr w 20) 31) 0 &&
       Z.eqb (Z.lor (Z.shiftl (Z.shiftr w 25) 5) (Z.land (Z.shiftr w 7) 31))
             (Z.lor 0x408 rx))
    32 eq_refl rx Hr) as F.
  cbv zeta in F. rewrite !andb_true_iff, !Z.eqb_eq in F.
  tauto.
Qed.

(** ** The DTMCONTROL fields *)


(** ** The register file write *)

Lemma regs_write_loop_ext fuel data data' n : forall i (t : target H),
  (forall j, i <= j < i + Z.of_nat n -> j <> 0 ->
             idx data j = idx data' j) ->
  regs_write_loop fuel data i n t = regs_write_loop fuel data' i n t.
Proof.
  induction n as [|n IH]; intros i t Hj; cbn [regs_write_loop];
    [reflexivity|].
  unfold bind.
  assert (E : regs_write_reg fuel i (idx data i) t =
              regs_write_reg fuel i (idx data' i) t).
  { destruct (Z.eq_dec i 0) as [->|Hi]; [reflexivity|].
    rewrite (Hj i) by lia. reflexivity. }
  rewrite E.
  destruct (regs_write_reg fuel i (idx data' i) t); try reflexivity.
  apply IH. intros j Hr Hn. apply Hj; lia.
Qed.

(** X15.  [riscv_regs_write] reads words 1 to 32 of the buffer it is given
    and nothing else: the word for x0 and anything after the word for the
    pc have no effect on what it does. *)
Theorem regs_write_reads_1_to_32 (fuel : nat) (data data' : list Z)
  (t : target H) :
  (forall j, 1 <= j <= 32 -> idx data j = idx data' j) ->
  riscv_regs_write fuel data t = riscv_regs_write fuel data' t.
Proof.
  intros Hj. unfold riscv_regs_write. apply regs_write_loop_ext.
  intros j Hr Hn. apply Hj. lia.
Qed.

(** ** The shape of the JTAG traffic *)

Lemma emits_bind {A B : Type} (m : M H A) (k : A -> M H B) :
  emits_link_events m -> (forall a, emits_link_events (k a)) ->
  emits_link_events (bind m k).
Proof.
  intros Hm Hk t b t2 R. apply bind_inv in R as (a & t1 & R1 & R2).
  apply Hm in R1 as (A1 & I1 & l1 & L1 & F1).
  apply Hk in R2 as (A2 & I2 & l2 & L2 & F2).
  rewrite A1, I1 in *. repeat split; try congruence.
  exists (l1 ++ l2). split.
  - now rewrite L2, L1, app_assoc.
  - apply Forall_app. now split.
Qed.

Lemma emits_nothing {A : Type} (m : M H A) :
  (forall t a t', m t = Ok a t' ->
                  abits (priv t') = abits (priv t) /\
                  idle (priv t') = idle (priv t) /\
                  jtag_log t' = jtag_log t) ->
  emits_link_events m.
Proof.
  intros Hm t a t' R. apply Hm in R as (A1 & I1 & L1).
  repeat split; trivial. exists []. now rewrite app_nil_r.
Qed.

Lemma emits_ret {A : Type} (a : A) : emits_link_events (ret (H := H) a).
Proof. apply emits_nothing. intros t b t' R. now inversion R. Qed.

Lemma emits_gets {A : Type} (f : riscv_dtm -> A) :
  emits_link_events (gets (H := H) f).
Proof. apply emits_nothing. intros t b t' R. now inversion R. Qed.

Lemma emits_assert b : emits_link_events (assert (H := H) b).
Proof.
  apply emits_nothing. intros t u t' R. unfold assert in R.
  destruct b; now inversion R.
Qed.

Lemma emits_set_halt_requested b :
  emits_link_events (set_halt_requested (H := H) b).
Proof. apply emits_nothing. intros t u t' R. now inversion R. Qed.

Lemma emits_set_error b : emits_link_events (set_error (H := H) b).
Proof. apply emits_nothing. intros t u t' R. now inversion R. Qed.

Lemma link_shift a i dbus : link_event a i (ShiftDR (36 + a) dbus).
Proof. right. lia. Qed.

Lemma link_replay a i dbus : link_event a i (ShiftDR (a + 36) dbus).
Proof. right. reflexivity. Qed.

Lemma link_reset a i :
  link_event a i (ShiftDR 32 RISCV_DTMCONTROL_DBUSRESET).
Proof. left. split; reflexivity. Qed.

Lemma link_tms a i : link_event a i (TmsSeq 0 i).
Proof. split; reflexivity. Qed.

Lemma link_ir_dtmcontrol a i : link_event a i (WriteIR RISCV_IR_DTMCONTROL).
Proof. left. reflexivity. Qed.

Lemma link_ir_dbus a i : link_event a i (WriteIR RISCV_IR_DBUS).
Proof. right. reflexivity. Qed.

Ltac link_events :=
  repeat first
    [ apply Forall_nil
    | apply Forall_cons;
      [ first [ apply link_shift | apply link_replay | apply link_reset
              | apply link_tms | apply link_ir_dtmcontrol
              | apply link_ir_dbus ] | ] ].

Lemma emits_reset : emits_link_events (riscv_dtm_reset (H := H)).
Proof.
  intros t u t' R. destruct t as [d h l].
  cbv [riscv_dtm_reset bind ret jtag_dev_write_ir jtag_dev_shift_dr] in R.
  cbn [priv dev jtag_log] in R.
  destruct (tap_shift_dr _ _ _) as [h1 r1] in R.
  inversion R; subst; clear R. cbn [priv jtag_log].
  repeat split. eexists. split; [now rewrite <- app_assoc|].
  link_events.
Qed.

Lemma low_access_retry_emits fuel dbus :
  emits_link_events (low_access_retry (H := H) fuel dbus).
Proof.
  induction fuel as [|fuel IH]; intros t r t' R; [discriminate|].
  rewrite low_access_retry_unfold in R. cbv zeta in R.
  destruct (Z.land (dr_capture t dbus (36 + abits (priv t))) 3)
    as [|p|p].
  - inversion R; subst; clear R. cbn [priv jtag_log].
    repeat split. eexists. split; [reflexivity|].
    link_events.
  - destruct p as [[p|p|]|[p|p|]|];
      try (inversion R; subst; clear R; cbn [priv jtag_log];
           repeat split; eexists; (split; [reflexivity|]);
           link_events).
    apply IH in R as (A1 & I1 & more & L & F).
    cbn [priv jtag_log] in *. repeat split; trivial.
    eexists. split; [rewrite L, <- app_assoc; reflexivity|].
    apply Forall_app. split; [|exact F].
    link_events.
  - inversion R; subst; clear R. cbn [priv jtag_log].
    repeat split. eexists. split; [reflexivity|].
    link_events.
Qed.

Lemma low_access_emits fuel dbus :
  emits_link_events (riscv_dtm_low_access (H := H) fuel dbus).
Proof.
  intros t r t' R. rewrite low_access_unfold in R.
  destruct (error (priv t)).
  - inversion R; subst. repeat split. exists []. now rewrite app_nil_r.
  - now apply low_access_retry_emits in R.
Qed.

Create HintDb emits discriminated.

#[local] Hint Resolve emits_ret emits_gets emits_assert
  emits_set_halt_requested emits_set_error emits_reset
  low_access_emits : emits.

Ltac emits :=
  repeat match goal with
    | |- emits_link_events (if ?b then _ else _) => destruct b
    | |- emits_link_events (match ?x with _ => _ end) => destruct x
    | |- emits_link_events (bind _ _) => apply emits_bind; [|intros ?]
    | |- emits_link_events _ => solve [auto with emits]
    end.

Lemma write_emits fuel addr data :
  emits_link_events (riscv_dtm_write (H := H) fuel addr data).
Proof. unfold riscv_dtm_write. emits. Qed.

Lemma read_emits fuel addr :
  emits_link_events (riscv_dtm_read (H := H) fuel addr).
Proof. unfold riscv_dtm_read. emits. Qed.

#[local] Hint Resolve write_emits read_emits : emits.

Lemma exec_stage_emits fuel code n : forall i,
  emits_link_events (exec_stage (H := H) fuel code n i).
Proof. induction n as [|n IH]; intros i; cbn [exec_stage]; emits. Qed.

Lemma exec_poll_emits fuel count n :
  emits_link_events (exec_poll (H := H) fuel count n).
Proof.
  induction n as [|n IH]; cbn [exec_poll]; [|emits].
  intros t a t' R. discriminate.
Qed.

#[local] Hint Resolve exec_stage_emits exec_poll_emits : emits.

Lemma exec_emits fuel code count :
  emits_link_events (riscv_debug_ram_exec (H := H) fuel code count).
Proof. unfold riscv_debug_ram_exec. emits. Qed.

#[local] Hint Resolve exec_emits : emits.

Lemma mem_read32_emits fuel addr :
  emits_link_events (riscv_mem_read32 (H := H) fuel addr).
Proof. unfold riscv_mem_read32. cbv zeta. emits. Qed.

Lemma mem_write32_emits fuel addr val :
  emits_link_events (riscv_mem_write32 (H := H) fuel addr val).
Proof. unfold riscv_mem_write32. cbv zeta. emits. Qed.

Lemma gpreg_read_emits fuel reg :
  emits_link_events (riscv_gpreg_read (H := H) fuel reg).
Proof. unfold riscv_gpreg_read. cbv zeta. emits. Qed.

Lemma gpreg_write_emits fuel reg val :
  emits_link_events (riscv_gpreg_write (H := H) fuel reg val).
Proof. unfold riscv_gpreg_write. cbv zeta. emits. Qed.

Lemma csreg_read_emits fuel csr :
  emits_link_events (riscv_csreg_read (H := H) fuel csr).
Proof. unfold riscv_csreg_read. cbv zeta. emits. Qed.

Lemma csreg_write_emits fuel csr val :
  emits_link_events (riscv_csreg_write (H := H) fuel csr val).
Proof. unfold riscv_csreg_write. cbv zeta. emits. Qed.

#[local] Hint Resolve mem_read32_emits mem_write32_emits gpreg_read_emits
  gpreg_write_emits csreg_read_emits csreg_write_emits : emits.

Lemma mem_read_loop_emits fuel n : forall src,
  emits_link_events (mem_read_loop (H := H) fuel src n).
Proof. induction n as [|n IH]; intros src; cbn [mem_read_loop]; emits. Qed.

Lemma mem_write_loop_emits fuel s n : forall dest k,
  emits_link_events (mem_write_loop (H := H) fuel dest s k n).
Proof.
  induction n as [|n IH]; intros dest k; cbn [mem_write_loop]; emits.
Qed.

Lemma regs_write_reg_emits fuel i v :
  emits_link_events (regs_write_reg (H := H) fuel i v).
Proof. unfold regs_write_reg. emits. Qed.

#[local] Hint Resolve regs_write_reg_emits : emits.

Lemma regs_write_loop_emits fuel reg n : forall i,
  emits_link_events (regs_write_loop (H := H) fuel reg i n).
Proof.
  induction n as [|n IH]; intros i; cbn [regs_write_loop]; emits.
Qed.

Lemma breakwatch_walk_emits fuel n : forall i,
  emits_link_events (breakwatch_walk (H := H) fuel n i).
Proof.
  induction n as [|n IH]; intros i; cbn [breakwatch_walk]; [|emits].
  intros t a t' R. discriminate.
Qed.

#[local] Hint Resolve mem_read_loop_emits mem_write_loop_emits
  regs_write_loop_emits breakwatch_walk_emits : emits.

Lemma run_op_emits fuel op : emits_link_events (run_op (H := H) fuel op).
Proof.
  destruct op; cbn [run_op];
    unfold riscv_mem_read, riscv_mem_write, riscv_attach, riscv_detach,
      riscv_reg_read, riscv_regs_write, riscv_reset, riscv_halt_request,
      riscv_halt_resume, riscv_halt_poll, riscv_breakwatch_set,
      riscv_breakwatch_clear; cbv zeta; emits.
Qed.

Lemma check_error_emits : emits_link_events (riscv_check_error (H := H)).
Proof. unfold riscv_check_error. emits. Qed.

(** X16.  Every target operation, check-error included, keeps [abits] and
    [idle] and only adds to the log; and what it adds is link traffic: the
    instruction registers it selects are DTMCONTROL and DBUS, never IDCODE
    or BYPASS; its only 32-bit shift is the DBUSRESET word; every other
    shift is [abits + 36] bits wide; and every TMS sequence is [idle] cycles
    with TMS low. *)
Theorem traffic_shape (fuel : nat) (t : target H) :
  (forall op,
     match run_op fuel op t with
     | Ok _ t' =>
         abits (priv t') = abits (priv t) /\
         idle (priv t') = idle (priv t) /\
         exists more,
           jtag_log t' = jtag_log t ++ more /\
           Forall (link_event (abits (priv t)) (idle (priv t))) more
     | _ => True
     end) /\
  match riscv_check_error t with
  | Ok _ t' =>
      abits (priv t') = abits (priv t) /\
      idle (priv t') = idle (priv t) /\
      exists more,
        jtag_log t' = jtag_log t ++ more /\
        Forall (link_event (abits (priv t)) (idle (priv t))) more
  | _ => True
  end.
Proof.
  split.
  - intros op. destruct (run_op fuel op t) eqn:R; trivial.
    now apply run_op_emits in R.
  - destruct (riscv_check_error t) eqn:R; trivial.
    now apply check_error_emits in R.
Qed.

(** ** The trigger walk *)

Lemma type_field_u8 x : u8 (Z.land (Z.shiftr x (32 - 4)) 0xf)
                        = Z.land (Z.shiftr x 28) 0xf.
Proof.
  change (32 - 4) with 28. unfold u8.
  change (Z.land (Z.shiftr x 28) 0xf)
    with (Z.land (Z.shiftr x 28) (Z.ones 4)).
  rewrite Z.land_ones by lia.
  pose proof (Z.mod_pos_bound (Z.shiftr x 28) (2 ^ 4)).
  apply Z.mod_small. lia.
Qed.

(** One round of the walk, by what it finds. *)
Lemma walk_round fuel n i (t : target H) r t' :
  breakwatch_walk fuel (S n) i t = Ok r t' <->
  (r = None /\ probed fuel i t SlotAbsent t') \/
  (r = Some i /\ probed fuel i t SlotFree t') \/
  (exists t1, probed fuel i t SlotBusy t1 /\
              breakwatch_walk fuel n (u32 (i + 1)) t1 = Ok r t').
Proof.
  cbn [breakwatch_walk]. split.
  - intros R. apply bind_inv in R as ([] & t1 & W & R).
    apply bind_inv in R as (rb & t2 & Rb & R).
    destruct (Z.eqb_spec rb i) as [->|Hne]; cbn [negb] in R.
    + apply bind_inv in R as (tdata1 & t3 & Rt & R).
      cbv zeta in R. rewrite type_field_u8 in R.
      destruct (Z.eqb_spec (Z.land (Z.shiftr tdata1 28) 15) 0) as [T0|T0].
      * inversion R; subst. left. split; [reflexivity|].
        eapply probed_no_type; eassumption.
      * destruct (Z.eqb_spec (Z.land (Z.shiftr tdata1 28) 15) 2) as [T2|T2];
          destruct (Z.eqb_spec (Z.land tdata1 RISCV_MCONTROL_ENABLE_MASK) 0)
            as [En|En]; cbn [andb] in R.
        -- inversion R; subst. right; left. split; [reflexivity|].
           eapply probed_free; eassumption.
        -- right; right. exists t3. split; [|exact R].
           eapply probed_busy; eauto.
        -- right; right. exists t3. split; [|exact R].
           eapply probed_busy; eauto.
        -- right; right. exists t3. split; [|exact R].
           eapply probed_busy; eauto.
    + inversion R; subst. left. split; [reflexivity|].
      eapply probed_unselectable; eassumption.
  - intros [[-> P]|[[-> P]|(t1 & P & R)]];
      inversion P as [u1 rb u2 W Rb Hne|u1 u2 td u3 W Rb Rt T0
                     |u1 u2 td u3 W Rb Rt T2 En
                     |u1 u2 td u3 W Rb Rt T0 Tb]; subst;
      rewrite (bind_ok _ _ _ _ _ W), (bind_ok _ _ _ _ _ Rb).
    + destruct (Z.eqb_spec rb i); [contradiction | reflexivity].
    + rewrite Z.eqb_refl. cbn [negb].
      rewrite (bind_ok _ _ _ _ _ Rt). cbv zeta.
      rewrite type_field_u8, T0. reflexivity.
    + rewrite Z.eqb_refl. cbn [negb].
      rewrite (bind_ok _ _ _ _ _ Rt). cbv zeta.
      rewrite type_field_u8, T2, En. reflexivity.
    + rewrite Z.eqb_refl. cbn [negb].
      rewrite (bind_ok _ _ _ _ _ Rt). cbv zeta.
      rewrite type_field_u8.
      destruct (Z.eqb_spec (Z.land (Z.shiftr td 28) 15) 0);
        [contradiction|].
      destruct (Z.eqb_spec (Z.land (Z.shiftr td 28) 15) 2);
        destruct (Z.eqb_spec (Z.land td RISCV_MCONTROL_ENABLE_MASK) 0);
        cbn [andb]; try exact R.
      destruct Tb; contradiction.
Qed.

Lemma walk_runs fuel n : forall i (t : target H) r t',
  0 <= i < 2 ^ 32 ->
  (breakwatch_walk fuel n i t = Ok r t' <->
   exists m t0,
     (m < n)%nat /\
     busy_run fuel i m t t0 /\
     let k := (i + Z.of_nat m) mod 2 ^ 32 in
     ((r = Some k /\ probed fuel k t0 SlotFree t') \/
      (r = None /\ probed fuel k t0 SlotAbsent t'))).
Proof.
  induction n as [|n IH]; intros i t r t' Hi.
  - split; [discriminate|]. intros (m & _ & Hm & _). lia.
  - rewrite walk_round. cbv zeta. split.
    + intros [[-> P]|[[-> P]|(t1 & P & R)]].
      * exists 0%nat, t. split; [lia|]. split; [constructor|].
        rewrite Z.add_0_r, Z.mod_small by lia. right. now split.
      * exists 0%nat, t. split; [lia|]. split; [constructor|].
        rewrite Z.add_0_r, Z.mod_small by lia. left. now split.
      * apply IH in R; [|apply Z.mod_pos_bound; lia].
        destruct R as (m & t0 & Hm & B & K). cbv zeta in K.
        exists (S m), t0. split; [lia|].
        split; [econstructor; eassumption|].
        unfold u32 in K. rewrite Zplus_mod_idemp_l in K.
        replace (i + Z.of_nat (S m)) with (i + 1 + Z.of_nat m) by lia.
        exact K.
    + intros (m & t0 & Hm & B & K).
      inversion B as [|? m' ? t1 ? P B']; subst.
      * rewrite Z.add_0_r, Z.mod_small in K by lia.
        destruct K as [[-> P]|[-> P]]; [right; left | left]; now split.
      * right; right. exists t1. split; [exact P|].
        apply IH; [apply Z.mod_pos_bound; lia|].
        exists m', t0. split; [lia|]. split; [exact B'|]. cbv zeta.
        unfold u32. rewrite Zplus_mod_idemp_l.
        replace (i + 1 + Z.of_nat m') with (i + Z.of_nat (S m')) by lia.
        exact K.
Qed.

(** X17.  The trigger walk takes the first free slot: started at index 0
    it returns index [k] exactly when it has found the slots 0 .. k-1
    selectable, present and busy, one after the other, and then slot [k]
    free (type 2 with the enable bits clear); and it gives up exactly when,
    after such a run of busy slots, it meets an index that cannot be
    selected or has type 0. *)
Theorem walk_takes_first_free (fuel n : nat) (t : target H)
  (r : option Z) (t' : target H) :
  breakwatch_walk fuel n 0 t = Ok r t' <->
  exists m t0,
    (m < n)%nat /\
    busy_run fuel 0 m t t0 /\
    let k := Z.of_nat m mod 2 ^ 32 in
    ((r = Some k /\ probed fuel k t0 SlotFree t') \/
     (r = None /\ probed fuel k t0 SlotAbsent t')).
Proof.
  rewrite (walk_runs fuel n 0 t r t') by lia. reflexivity.
Qed.

End Further.

(** ** The further properties at work *)

Lemma probe_returned_ok {A : Type} (o : outcome (target Probe.chain) A)
  (a : A) (t : target Probe.chain) :
  (match o with Ok _ _ => true | _ => false end) = true ->
  o = Ok (Probe.value o a) (Probe.final o t).
Proof. destruct o; [reflexivity | discriminate | discriminate]. Qed.

(** X2 on the simulated hart: a reset of the hart whose second dbus write
    goes through a status-3 recovery returns with DBUS selected. *)
Lemma ir_stays_dbus_witness :
  let o := run_op 3 OpReset Sim.retrying in
  selected_ir (jtag_log Sim.retrying) RISCV_IR_DBUS = RISCV_IR_DBUS /\
  Sim.returned o = true /\
  existsb (fun e => match e with WriteIR 0x10 => true | _ => false end)
          (jtag_log (Sim.final o Sim.retrying)) = true /\
  selected_ir (jtag_log (Sim.final o Sim.retrying)) RISCV_IR_DBUS
    = RISCV_IR_DBUS.
Proof.
  cbv zeta.
  assert (E : selected_ir (jtag_log Sim.retrying) RISCV_IR_DBUS
              = RISCV_IR_DBUS) by reflexivity.
  assert (Hr : Sim.returned (run_op 3 OpReset Sim.retrying) = true)
    by (vm_compute; reflexivity).
  split; [exact E|]. split; [exact Hr|].
  split; [vm_compute; reflexivity|].
  apply (proj2 (ir_stays_dbus 3 RISCV_IR_DBUS Sim.retrying E) OpReset
           (Sim.value (run_op 3 OpReset Sim.retrying) tt)).
  apply (returned_ok _ tt Sim.retrying Hr).
Defined.

(** X3 on the simulated hart: after the failed read and check-error,
    DTMCONTROL is the selected register. *)
Lemma check_error_leaves_dtmcontrol_witness :
  let t := Sim.final (riscv_dtm_read 1 1 Sim.failing) Sim.failing in
  error (priv t) = true /\
  exists t1,
    riscv_check_error t = Ok true t1 /\
    selected_ir (jtag_log t1) RISCV_IR_DBUS = RISCV_IR_DTMCONTROL.
Proof.
  cbv zeta.
  match goal with
  | |- ?e /\ _ => assert (E : e) by reflexivity
  end.
  split; [exact E|].
  destruct (check_error_leaves_dtmcontrol RISCV_IR_DBUS _ E)
    as (t1 & C & I & _).
  exists t1. split; assumption.
Defined.

(** After check-error the simulated DTM sees the dminfo read arrive in its
    DTMCONTROL register: the read returns 0, where before the failure it
    returned the dminfo word. *)
Example read_after_check_error :
  let t := Sim.final (riscv_dtm_read 1 1 Sim.failing) Sim.failing in
  let t1 := Sim.final (riscv_check_error t) t in
  Sim.value (riscv_dtm_read 1 RISCV_DMINFO Sim.demo) 0 = 0x3c21 /\
  Sim.value (riscv_check_error t) false = true /\
  error (priv t1) = false /\
  Sim.value (riscv_dtm_read 1 RISCV_DMINFO t1) 1 = 0.
Proof. vm_compute. repeat split. Qed.

(** X5 on the simulated chain: a DTMCONTROL word of 1 (version 1) is
    refused after two events. *)
Lemma handler_refuses_version_witness :
  let t := Probe.unscanned 1 [] in
  let h := tap_write_ir (dev t) RISCV_IR_DTMCONTROL in
  (Z.land (u32 (u64 (snd (tap_shift_dr h 0 32)))) 0xf <> 0) /\
  Probe.value (riscv_jtag_handler 0 t) true = false /\
  jtag_log (Probe.final (riscv_jtag_handler 0 t) t) =
    [WriteIR RISCV_IR_DTMCONTROL; ShiftDR 32 0].
Proof.
  cbv zeta.
  match goal with
  | |- ?v /\ _ =>
      assert (V : v) by (intros E; vm_compute in E; discriminate E)
  end.
  split; [exact V|].
  rewrite (handler_refuses_version 0 (Probe.unscanned 1 []) V).
  split; reflexivity.
Defined.

(** The handler on a chain that reports 5 address bits and 1 idle cycle:
    the target is created with these, 16 words of Debug RAM, the error
    flag clear and DBUS selected. *)
Example handler_creates_target :
  let t := Probe.unscanned (dtmcontrol_of 0 5 1) [] in
  let o := riscv_jtag_handler 1 t in
  Probe.value o false = true /\
  priv (Probe.final o t) = Sim.dtm_of 5 1 15 /\
  jtag_log (Probe.final o t) =
    [WriteIR 0x10; ShiftDR 32 0; WriteIR 0x10; ShiftDR 32 0x10000;
     WriteIR 0x11; ShiftDR 41 0x11000000001; TmsSeq 0 1;
     ShiftDR 41 0; TmsSeq 0 1].
Proof. vm_compute. repeat split. Qed.

(** X6 on the simulated hart, after the failed read. *)
Lemma error_masks_reads_witness :
  let t := Sim.final (riscv_dtm_read 1 1 Sim.failing) Sim.failing in
  error (priv t) = true /\
  riscv_halt_poll 1 t = Ok TARGET_HALT_RUNNING t /\
  riscv_reg_read 1 18 7 t = Ok (4, 0) t /\
  riscv_mem_read 1 0x20000000 8 t = Ok [0; 0] t.
Proof.
  cbv zeta.
  match goal with
  | |- ?e /\ _ => assert (E : e) by reflexivity
  end.
  split; [exact E|].
  destruct (error_masks_reads 0 _ E) as (P & R & Mr).
  split; [exact P|]. split.
  - apply R. left. split; [discriminate | vm_compute; discriminate].
  - apply (Mr 0x20000000 8); reflexivity.
Defined.

(** X7 on the simulated hart, after the failed read. *)
Lemma error_fails_breakwatch_witness :
  let t := Sim.final (riscv_dtm_read 1 1 Sim.failing) Sim.failing in
  let bw := {| bw_type := TARGET_BREAK_HARD; bw_addr := 0x08000100;
               bw_reserved0 := 0 |} in
  (error (priv t) = true /\ bw_type bw <> TARGET_BREAK_SOFT) /\
  riscv_breakwatch_set 1 bw t = Ok (-1, bw) t /\
  riscv_breakwatch_clear 1 bw t = Ok 0 t.
Proof.
  cbv zeta.
  match goal with
  | |- (?e /\ ?k) /\ _ =>
      assert (E : e) by reflexivity; assert (K : k) by discriminate
  end.
  split; [split; assumption|].
  exact (error_fails_breakwatch 0 _ _ E K).
Defined.

(** X9 on the simulated hart: 12 bytes at 0x20000000 read as 4 bytes and
    then 8 bytes at 0x20000004. *)
Lemma mem_read_split_witness :
  let t := Sim.one_free in
  (Z.land 0x20000000 3 = 0 /\ 0 <= 4 /\ Z.land 4 3 = 0 /\
   0 <= 8 /\ Z.land 8 3 = 0) /\
  riscv_mem_read 2 0x20000000 (4 + 8) t =
  bind (riscv_mem_read 2 0x20000000 4)
       (fun a => bind (riscv_mem_read 2 (u32 (0x20000000 + 4)) 8)
                      (fun b => ret (a ++ b))) t /\
  Sim.value (riscv_mem_read 2 0x20000000 (4 + 8) t) [] = [0xcafe; 0; 0].
Proof.
  cbv zeta.
  assert (H4 : 0 <= 4) by discriminate.
  assert (H8 : 0 <= 8) by discriminate.
  split; [repeat split; assumption|].
  split; [|vm_compute; reflexivity].
  exact (mem_read_split 2 0x20000000 4 8 Sim.one_free
           eq_refl H4 eq_refl H8 eq_refl).
Defined.

(** X12 on the simulated hart: the read of address 1 whose NOP shift is
    answered status 3 replays the READ word. *)
Lemma read_retry_rearms_witness :
  let t := Sim.retrying in
  let rd := Z.lor (Z.shiftl 1 36) RISCV_DBUS_READ in
  error (priv t) = false /\
  exists t2,
    riscv_dtm_read 2 1 t = riscv_dtm_low_access 1 RISCV_DBUS_NOP t2 /\
    lastdbus (priv t2) = rd /\
    jtag_log t2 =
      [ShiftDR 41 rd; TmsSeq 0 1; ShiftDR 41 0;
       WriteIR 0x10; ShiftDR 32 0x10000; WriteIR 0x11;
       ShiftDR 41 rd; TmsSeq 0 1].
Proof.
  cbv zeta.
  assert (E : error (priv Sim.retrying) = false) by reflexivity.
  split; [exact E|].
  destruct (read_retry_rearms 1 1 Sim.retrying E) as (t2 & R & L & G);
    [vm_compute; reflexivity | vm_compute; reflexivity |].
  exists t2. split; [exact R|]. split; [exact L | exact G].
Defined.

(** X13 on the simulated hart: the word staged for x18 is 0x40002d23, a
    store of x0, and x18 holds 77 after the write of 0xabcd as before. *)
Lemma gpreg_write_stages_a_store_witness :
  let o := riscv_gpreg_write 2 18 0xabcd Sim.demo in
  (0 <= 18 < 32 /\ 0 <= 0xabcd < 2 ^ 32) /\
  (exists w,
     riscv_gpreg_write 2 18 0xabcd Sim.demo =
       bind (riscv_debug_ram_exec 2 [w; 0x4000006f; 0xabcd] 3)
            (fun _ => ret tt) Sim.demo /\
     Z.land w 0x7f = 0x23 /\
     Z.land (Z.shiftr w 20) 31 = 0) /\
  Sim.returned o = true /\
  dbus_writes (jtag_log (Sim.final o Sim.demo)) =
    [(0, 0x40002d23); (1, 0x4000006f);
     (2, Z.lor 0xabcd RISCV_DMCONTROL_INTERRUPT)] /\
  Sim.h_store (dev (Sim.final o Sim.demo)) (Sim.X 18) = 77.
Proof.
  cbv zeta.
  assert (Hr : 0 <= 18 < 32) by (split; [discriminate | reflexivity]).
  assert (Hv : 0 <= 0xabcd < 2 ^ 32)
    by (split; [discriminate | reflexivity]).
  split; [split; assumption|]. split.
  - destruct (gpreg_write_stages_a_store 2 18 0xabcd Sim.demo Hr Hv)
      as (w & W & O & _ & _ & S2 & _).
    exists w. repeat split; assumption.
  - vm_compute. repeat split.
Defined.


(** X15 on the simulated hart: two buffers that differ in the word for x0
    and in a word past the pc are written alike. *)
Lemma regs_write_reads_1_to_32_witness :
  let regs := map Z.of_nat (seq 1 32) in
  let data := 111 :: regs in
  let data' := 222 :: regs ++ [333] in
  (forall j, 1 <= j <= 32 -> idx data j = idx data' j) /\
  riscv_regs_write 2 data Sim.demo = riscv_regs_write 2 data' Sim.demo.
Proof.
  cbv zeta.
  match goal with
  | |- ?h /\ _ => assert (Hj : h)
  end.
  { intros j Hj.
    pose proof (range_forallb
      (fun j => Z.eqb j 0 ||
                Z.eqb (idx (111 :: map Z.of_nat (seq 1 32)) j)
                      (idx (222 :: map Z.of_nat (seq 1 32) ++ [333]) j))
      33 eq_refl j) as F.
    cbv beta in F. specialize (F ltac:(lia)).
    apply orb_true_iff in F. destruct F as [F|F].
    - apply Z.eqb_eq in F. lia.
    - now apply Z.eqb_eq in F. }
  split; [exact Hj|].
  exact (regs_write_reads_1_to_32 2 _ _ Sim.demo Hj).
Defined.

(** X17 on the simulated hart whose slot 0 is in use and slot 1 free: the
    walk returns 1 after one busy round at index 0. *)
Lemma walk_takes_first_free_witness :
  let o := breakwatch_walk 3 3 0 Sim.one_free in
  Sim.returned o = true /\
  Sim.value o None = Some 1 /\
  exists t0,
    busy_run 3 0 1 Sim.one_free t0 /\
    probed 3 1 t0 SlotFree (Sim.final o Sim.one_free).
Proof.
  cbv zeta.
  assert (Hr : Sim.returned (breakwatch_walk 3 3 0 Sim.one_free) = true)
    by (vm_compute; reflexivity).
  assert (Hv : Sim.value (breakwatch_walk 3 3 0 Sim.one_free) None = Some 1)
    by (vm_compute; reflexivity).
  split; [exact Hr|]. split; [exact Hv|].
  pose proof (returned_ok _ None Sim.one_free Hr) as R.
  rewrite Hv in R.
  apply (proj1 (walk_takes_first_free 3 3 Sim.one_free (Some 1)
                  (Sim.final (breakwatch_walk 3 3 0 Sim.one_free)
                     Sim.one_free))) in R.
  destruct R as (m & t0 & Hm & B & K). cbv zeta in K.
  destruct K as [[E P]|[E _]]; [|discriminate].
  assert (m = 1%nat) as ->.
  { destruct m as [|[|[|m]]]; try lia; cbn in E; discriminate. }
  exists t0. split; [exact B | exact P].
Defined.
